(** * Virtual-memory core of the Pintos fork: frame table, supplemental
      page table, swap store, fault resolver and mmap manager.

    The development is a shallow embedding of [vm/swap.c], [vm/frame.c],
    [vm/page.c] and of the mmap system calls of [userprog/syscall.c].
    Kernel state is threaded explicitly through a small result monad whose
    failures are the kernel's own: [PANIC]/[ASSERT], behaviour the C
    standard leaves undefined, and blocking on a lock. *)

From stdpp Require Import gmap list.
From Stdlib Require Import ZArith Lia.
From Stdlib.Strings Require Import Byte.

Local Open Scope Z_scope.

(** ** Machine constants (32-bit x86) *)

Definition NULL : Z := 0.
Definition WORD : Z := 2 ^ 32.
Definition PGSIZE : Z := 4096.
Definition PHYS_BASE : Z := 3221225472.         (* 0xc0000000 *)
Definition BLOCK_SECTOR_SIZE : Z := 512.
Definition SECTORS_PER_PAGE : Z := PGSIZE / BLOCK_SECTOR_SIZE.
Definition BITMAP_ERROR : Z := WORD - 1.        (* SIZE_MAX *)

(** Unsigned 32-bit arithmetic wraps around. *)
Definition u32 (z : Z) : Z := z mod WORD.

Definition pg_ofs (va : Z) : Z := Z.land va (PGSIZE - 1).
Definition pg_round_down (va : Z) : Z := va - pg_ofs va.
Definition pg_no (va : Z) : Z := Z.shiftr va 12.
Definition pd_no (va : Z) : Z := Z.shiftr va 22.
Definition is_user_vaddr (va : Z) : bool := va <? PHYS_BASE.
Definition is_kernel_vaddr (va : Z) : bool := PHYS_BASE <=? va.

(** ** Bitmaps ([lib/kernel/bitmap.c]) *)

(** Modelled from the spec: the bitmap library is not part of the
    sources at hand; the swap store "maintains a bitmap over all slots"
    and finds "the first free slot".  A bitmap is the list of its bits;
    [bitmap_scan] answers the first index of a run of [cnt] bits equal to
    [value], or nothing (the C function then returns [BITMAP_ERROR]). *)
Definition bitmap_contains (b : list bool) (start cnt : nat) (value : bool) : bool :=
  existsb (fun i => bool_decide (b !! i = Some value)) (seq start cnt).

Definition bitmap_scan (b : list bool) (start cnt : nat) (value : bool) : option nat :=
  if (cnt <=? length b)%nat
  then find (fun i => negb (bitmap_contains b i cnt (negb value)))
            (seq start (S (length b - cnt) - start))
  else None.

(** The C result of [bitmap_scan], as a [size_t]. *)
Definition scan_result (r : option nat) : Z :=
  match r with Some i => Z.of_nat i | None => BITMAP_ERROR end.

(** ** Kernel memory and the block device *)

(** Kernel virtual memory, byte addressed; a byte never written reads as
    zero. *)
Definition mem_get (m : gmap Z byte) (a : Z) : byte := default x00 (m !! a).

Fixpoint mem_read (m : gmap Z byte) (a : Z) (n : nat) : list byte :=
  match n with
  | O => []
  | S n' => mem_get m a :: mem_read m (a + 1) n'
  end.

Fixpoint mem_write (m : gmap Z byte) (a : Z) (bs : list byte) : gmap Z byte :=
  match bs with
  | [] => m
  | b :: bs' => mem_write (<[a := b]> m) (a + 1) bs'
  end.

Arguments mem_read : simpl never.
Arguments mem_write : simpl never.

(** Modelled from the spec: the block layer ([devices/block.c]) is an
    external collaborator offering "sector-granular read/write" and
    [block_size]; use of a sector beyond the device is fatal. *)
Record block := {
  block_size : Z;                        (* size in sectors *)
  block_data : gmap Z (list byte)        (* sector number -> contents *)
}.

Definition sector_bytes (d : block) (sector : Z) : list byte :=
  take (Z.to_nat BLOCK_SECTOR_SIZE)
       (default [] (block_data d !! sector) ++ replicate (Z.to_nat BLOCK_SECTOR_SIZE) x00).

(** ** Kernel data structures *)

Inductive page_status := ALL_ZEROS | ON_FRAME | ON_SWAP | FROM_FILESYS.

#[global] Instance page_status_eq_dec : EqDecision page_status.
Proof. solve_decision. Defined.

Record supplemental_page_table_entry := {
  spte_upage : Z;
  spte_kpage : Z;
  status : page_status;
  is_dirty : bool;
  swap_index : Z;
  spte_file : Z;
  file_offset : Z;
  read_bytes : Z;
  zero_bytes : Z;
  writable : bool
}.

Record frame_table_entry := {
  kpage : Z;
  upage : Z;
  t : Z;                 (* owning thread *)
  is_pinned : bool
}.

(** Values a [struct list_elem *] into [frame_list] can take: [NULL], the
    [l_elem] of the entry allocated at address [a], or the list's tail
    sentinel (which is what [list_end] returns). *)
Inductive hand := HNull | HTail | HElem (a : Z).

#[global] Instance hand_eq_dec : EqDecision hand.
Proof. solve_decision. Defined.

(** What [list_entry (p, struct frame_table_entry, l_elem)] designates. *)
Inductive slot := SlotEntry (a : Z) | SlotTail.

#[global] Instance slot_eq_dec : EqDecision slot.
Proof. solve_decision. Defined.

Record pte := {
  pte_p : bool;          (* present *)
  pte_w : bool;          (* writable *)
  pte_a : bool;          (* accessed *)
  pte_d : bool;          (* dirty *)
  pte_frame : Z
}.

Definition pte_zero : pte :=
  {| pte_p := false; pte_w := false; pte_a := false; pte_d := false; pte_frame := 0 |}.

Record pagedir := {
  pd_tables : gset Z;    (* page-directory slots that own a page table *)
  pd_ptes : gmap Z pte   (* page number -> entry *)
}.

Record file_desc := { fd_id : Z; fd_file : Z }.

Record mmap_desc := { mm_id : Z; mm_file : Z; mm_addr : Z; mm_size : Z }.

Record thread := {
  th_pagedir : Z;
  th_supt : Z;
  file_descriptors : list file_desc;
  mmap_list : list mmap_desc
}.

Record file := { f_inode : Z; f_pos : Z }.

Record pool := { pool_base : Z; used_map : list bool }.

(** Calls into the devices and the file system, and steps of the clock
    hand, in program order. *)
Inductive event :=
| EvClockStep (sl : slot)
| EvBlockWrite (sector : Z) (data : list byte)
| EvBlockRead (sector : Z) (buf : Z)
| EvFileRead (f : Z) (buf : Z) (size : Z) (n : Z)
| EvFileWriteAt (f : Z) (data : list byte) (size : Z) (ofs : Z).

(** ** The kernel state *)

Record swap_state := {
  swap_block : option block;
  swap_available : option (list bool);   (* true = slot is free *)
  swap_size : Z
}.

Record frame_state := {
  frame_lock : option Z;                 (* holder *)
  frame_hash : gmap Z Z;                 (* kpage -> address of its entry *)
  frame_list : list Z;                   (* entry addresses, insertion order *)
  clock_ptr : hand;
  ft_heap : gmap Z frame_table_entry;    (* live entries by address *)
  tail_view : frame_table_entry          (* what the tail sentinel reads as *)
}.

Record state := {
  swap : swap_state;
  ft : frame_state;
  kernel_pool : pool;
  user_pool : pool;
  mem : gmap Z byte;
  kernel_ptes : gmap Z pte;
  pagedirs : gmap Z pagedir;
  supts : gmap Z (gmap Z supplemental_page_table_entry);
  threads : gmap Z thread;
  current : Z;
  filesys_lock : option Z;
  files : gmap Z file;
  inodes : gmap Z (list byte);
  kheap_avail : nat;
  next_addr : Z;
  trace : list event
}.

Definition set_swap (v : swap_state) (s : state) : state :=
  {| swap := v; ft := ft s; kernel_pool := kernel_pool s; user_pool := user_pool s;
     mem := mem s; kernel_ptes := kernel_ptes s; pagedirs := pagedirs s;
     supts := supts s; threads := threads s; current := current s;
     filesys_lock := filesys_lock s; files := files s; inodes := inodes s;
     kheap_avail := kheap_avail s; next_addr := next_addr s; trace := trace s |}.

Definition set_ft (v : frame_state) (s : state) : state :=
  {| swap := swap s; ft := v; kernel_pool := kernel_pool s; user_pool := user_pool s;
     mem := mem s; kernel_ptes := kernel_ptes s; pagedirs := pagedirs s;
     supts := supts s; threads := threads s; current := current s;
     filesys_lock := filesys_lock s; files := files s; inodes := inodes s;
     kheap_avail := kheap_avail s; next_addr := next_addr s; trace := trace s |}.

Definition set_kernel_pool (v : pool) (s : state) : state :=
  {| swap := swap s; ft := ft s; kernel_pool := v; user_pool := user_pool s;
     mem := mem s; kernel_ptes := kernel_ptes s; pagedirs := pagedirs s;
     supts := supts s; threads := threads s; current := current s;
     filesys_lock := filesys_lock s; files := files s; inodes := inodes s;
     kheap_avail := kheap_avail s; next_addr := next_addr s; trace := trace s |}.

Definition set_user_pool (v : pool) (s : state) : state :=
  {| swap := swap s; ft := ft s; kernel_pool := kernel_pool s; user_pool := v;
     mem := mem s; kernel_ptes := kernel_ptes s; pagedirs := pagedirs s;
     supts := supts s; threads := threads s; current := current s;
     filesys_lock := filesys_lock s; files := files s; inodes := inodes s;
     kheap_avail := kheap_avail s; next_addr := next_addr s; trace := trace s |}.

Definition set_mem (v : gmap Z byte) (s : state) : state :=
  {| swap := swap s; ft := ft s; kernel_pool := kernel_pool s; user_pool := user_pool s;
     mem := v; kernel_ptes := kernel_ptes s; pagedirs := pagedirs s;
     supts := supts s; threads := threads s; current := current s;
     filesys_lock := filesys_lock s; files := files s; inodes := inodes s;
     kheap_avail := kheap_avail s; next_addr := next_addr s; trace := trace s |}.

Definition set_kernel_ptes (v : gmap Z pte) (s : state) : state :=
  {| swap := swap s; ft := ft s; kernel_pool := kernel_pool s; user_pool := user_pool s;
     mem := mem s; kernel_ptes := v; pagedirs := pagedirs s;
     supts := supts s; threads := threads s; current := current s;
     filesys_lock := filesys_lock s; files := files s; inodes := inodes s;
     kheap_avail := kheap_avail s; next_addr := next_addr s; trace := trace s |}.

Definition set_pagedirs (v : gmap Z pagedir) (s : state) : state :=
  {| swap := swap s; ft := ft s; kernel_pool := kernel_pool s; user_pool := user_pool s;
     mem := mem s; kernel_ptes := kernel_ptes s; pagedirs := v;
     supts := supts s; threads := threads s; current := current s;
     filesys_lock := filesys_lock s; files := files s; inodes := inodes s;
     kheap_avail := kheap_avail s; next_addr := next_addr s; trace := trace s |}.

Definition set_supts (v : gmap Z (gmap Z supplemental_page_table_entry)) (s : state) : state :=
  {| swap := swap s; ft := ft s; kernel_pool := kernel_pool s; user_pool := user_pool s;
     mem := mem s; kernel_ptes := kernel_ptes s; pagedirs := pagedirs s;
     supts := v; threads := threads s; current := current s;
     filesys_lock := filesys_lock s; files := files s; inodes := inodes s;
     kheap_avail := kheap_avail s; next_addr := next_addr s; trace := trace s |}.

Definition set_threads (v : gmap Z thread) (s : state) : state :=
  {| swap := swap s; ft := ft s; kernel_pool := kernel_pool s; user_pool := user_pool s;
     mem := mem s; kernel_ptes := kernel_ptes s; pagedirs := pagedirs s;
     supts := supts s; threads := v; current := current s;
     filesys_lock := filesys_lock s; files := files s; inodes := inodes s;
     kheap_avail := kheap_avail s; next_addr := next_addr s; trace := trace s |}.

Definition set_current (v : Z) (s : state) : state :=
  {| swap := swap s; ft := ft s; kernel_pool := kernel_pool s; user_pool := user_pool s;
     mem := mem s; kernel_ptes := kernel_ptes s; pagedirs := pagedirs s;
     supts := supts s; threads := threads s; current := v;
     filesys_lock := filesys_lock s; files := files s; inodes := inodes s;
     kheap_avail := kheap_avail s; next_addr := next_addr s; trace := trace s |}.

Definition set_filesys_lock (v : option Z) (s : state) : state :=
  {| swap := swap s; ft := ft s; kernel_pool := kernel_pool s; user_pool := user_pool s;
     mem := mem s; kernel_ptes := kernel_ptes s; pagedirs := pagedirs s;
     supts := supts s; threads := threads s; current := current s;
     filesys_lock := v; files := files s; inodes := inodes s;
     kheap_avail := kheap_avail s; next_addr := next_addr s; trace := trace s |}.

Definition set_files (v : gmap Z file) (s : state) : state :=
  {| swap := swap s; ft := ft s; kernel_pool := kernel_pool s; user_pool := user_pool s;
     mem := mem s; kernel_ptes := kernel_ptes s; pagedirs := pagedirs s;
     supts := supts s; threads := threads s; current := current s;
     filesys_lock := filesys_lock s; files := v; inodes := inodes s;
     kheap_avail := kheap_avail s; next_addr := next_addr s; trace := trace s |}.

Definition set_inodes (v : gmap Z (list byte)) (s : state) : state :=
  {| swap := swap s; ft := ft s; kernel_pool := kernel_pool s; user_pool := user_pool s;
     mem := mem s; kernel_ptes := kernel_ptes s; pagedirs := pagedirs s;
     supts := supts s; threads := threads s; current := current s;
     filesys_lock := filesys_lock s; files := files s; inodes := v;
     kheap_avail := kheap_avail s; next_addr := next_addr s; trace := trace s |}.

Definition set_kheap (avail : nat) (next : Z) (s : state) : state :=
  {| swap := swap s; ft := ft s; kernel_pool := kernel_pool s; user_pool := user_pool s;
     mem := mem s; kernel_ptes := kernel_ptes s; pagedirs := pagedirs s;
     supts := supts s; threads := threads s; current := current s;
     filesys_lock := filesys_lock s; files := files s; inodes := inodes s;
     kheap_avail := avail; next_addr := next; trace := trace s |}.

Definition set_trace (v : list event) (s : state) : state :=
  {| swap := swap s; ft := ft s; kernel_pool := kernel_pool s; user_pool := user_pool s;
     mem := mem s; kernel_ptes := kernel_ptes s; pagedirs := pagedirs s;
     supts := supts s; threads := threads s; current := current s;
     filesys_lock := filesys_lock s; files := files s; inodes := inodes s;
     kheap_avail := kheap_avail s; next_addr := next_addr s; trace := v |}.

Definition log (e : event) (s : state) : state := set_trace (trace s ++ [e]) s.

(** ** Outcomes of kernel code *)

Inductive result (A : Type) : Type :=
| Ret (a : A) (s : state)     (* returned [a], leaving state [s] *)
| Panic (s : state)           (* PANIC or a failed ASSERT, raised in state [s] *)
| Undef                        (* undefined behaviour: wild or dangling pointer *)
| Blocked.                     (* waits for a lock held by another thread *)

Arguments Ret {A} a s.
Arguments Panic {A} s.
Arguments Undef {A}.
Arguments Blocked {A}.

Definition M (A : Type) : Type := state -> result A.

Definition ret {A} (a : A) : M A := fun s => Ret a s.

Definition bind {A B} (m : M A) (k : A -> M B) : M B :=
  fun s => match m s with
           | Ret a s' => k a s'
           | Panic s' => Panic s'
           | Undef => Undef
           | Blocked => Blocked
           end.

Notation "'do' x <- m ; k" := (bind m (fun x => k))
  (at level 10, x name, m at level 100, k at level 200).
Notation "'run' m ; k" := (bind m (fun _ => k))
  (at level 10, m at level 100, k at level 200).

Definition get : M state := fun s => Ret s s.
Definition modify (f : state -> state) : M unit := fun s => Ret tt (f s).
Definition panic {A} : M A := fun s => Panic s.
Definition undef {A} : M A := fun _ => Undef.
Definition ASSERT (b : bool) : M unit := fun s => if b then Ret tt s else Panic s.

(** A pointer that must designate a live object. *)
Definition deref {A} (o : option A) : M A :=
  fun s => match o with Some a => Ret a s | None => Undef end.

(** [for (i = ...) body (i);] over the listed values of [i]. *)
Fixpoint for_each {A} (l : list A) (body : A -> M unit) : M unit :=
  match l with
  | [] => ret tt
  | i :: l' => run body i; for_each l' body
  end.

Definition seqZ' (n : Z) : list Z := map Z.of_nat (seq 0 (Z.to_nat n)).

(** ** Swap store ([vm/swap.c]) *)

Definition with_block (d : block) (w : swap_state) : swap_state :=
  {| swap_block := Some d; swap_available := swap_available w; swap_size := swap_size w |}.

Definition with_available (b : list bool) (w : swap_state) : swap_state :=
  {| swap_block := swap_block w; swap_available := Some b; swap_size := swap_size w |}.

(** [block_write (swap_block, sector, buf)]: the sector is checked
    against the device size, then [BLOCK_SECTOR_SIZE] bytes at [buf] go to
    the device. *)
Definition block_write (sector buf : Z) : M unit := fun s =>
  match swap_block (swap s) with
  | None => Undef
  | Some d =>
      if block_size d <=? sector then Panic s
      else
        let data := mem_read (mem s) buf (Z.to_nat BLOCK_SECTOR_SIZE) in
        let d' := {| block_size := block_size d;
                     block_data := <[sector := data]> (block_data d) |} in
        Ret tt (log (EvBlockWrite sector data) (set_swap (with_block d' (swap s)) s))
  end.

Definition block_read (sector buf : Z) : M unit := fun s =>
  match swap_block (swap s) with
  | None => Undef
  | Some d =>
      if block_size d <=? sector then Panic s
      else Ret tt (log (EvBlockRead sector buf)
                       (set_mem (mem_write (mem s) buf (sector_bytes d sector)) s))
  end.

(** [bitmap_set] and [bitmap_test] on [swap_available]; both assert a
    bitmap and [idx < bit_cnt]. *)
Definition bitmap_set (idx : Z) (value : bool) : M unit := fun s =>
  match swap_available (swap s) with
  | None => Panic s
  | Some b =>
      if (0 <=? idx) && (idx <? Z.of_nat (length b))
      then Ret tt (set_swap (with_available (<[Z.to_nat idx := value]> b) (swap s)) s)
      else Panic s
  end.

Definition bitmap_test (idx : Z) : M bool := fun s =>
  match swap_available (swap s) with
  | None => Panic s
  | Some b =>
      match b !! Z.to_nat idx with
      | Some v => if 0 <=? idx then Ret v s else Panic s
      | None => Panic s
      end
  end.

Definition vm_swap_init (role_swap : option block) : M unit :=
  run ASSERT (0 <? SECTORS_PER_PAGE);
  match role_swap with
  | None => panic
  | Some d =>
      let size := block_size d / SECTORS_PER_PAGE in
      modify (fun s =>
        set_swap {| swap_block := Some d;
                    swap_available := Some (replicate (Z.to_nat size) true);
                    swap_size := size |} s)
  end.

Definition vm_swap_out (page : Z) : M Z :=
  run ASSERT (PHYS_BASE <=? page);
  do s <- get;
  match swap_available (swap s) with
  | None => panic
  | Some b =>
      let swap_index := scan_result (bitmap_scan b 0 1 true) in
      run for_each (seqZ' SECTORS_PER_PAGE) (fun i =>
            block_write (u32 (swap_index * SECTORS_PER_PAGE + i))
                        (page + BLOCK_SECTOR_SIZE * i));
      run bitmap_set swap_index false;
      ret swap_index
  end.

Definition vm_swap_in (swap_index page : Z) : M unit :=
  run ASSERT (PHYS_BASE <=? page);
  do s <- get;
  run ASSERT (swap_index <? swap_size (swap s));
  do free <- bitmap_test swap_index;
  if free then panic
  else
    run for_each (seqZ' SECTORS_PER_PAGE) (fun i =>
          block_read (u32 (swap_index * SECTORS_PER_PAGE + i))
                     (page + BLOCK_SECTOR_SIZE * i));
    bitmap_set swap_index true.

Definition vm_swap_free (swap_index : Z) : M unit :=
  do s <- get;
  run ASSERT (swap_index <? swap_size (swap s));
  do free <- bitmap_test swap_index;
  if free then panic else bitmap_set swap_index true.

(** ** Physical page allocator ([threads/palloc.c]) *)

Definition PAL_ASSERT : Z := 1.
Definition PAL_ZERO : Z := 2.
Definition PAL_USER : Z := 4.

Definition zero_page : list byte := replicate (Z.to_nat PGSIZE) x00.
#[global] Opaque zero_page.

Definition with_used (b : list bool) (p : pool) : pool :=
  {| pool_base := pool_base p; used_map := b |}.

Definition page_from_pool (p : pool) (page : Z) : bool :=
  (pg_no (pool_base p) <=? pg_no page)
  && (pg_no page <? pg_no (pool_base p) + Z.of_nat (length (used_map p))).

(** Modelled from the spec: the physical allocator is an external
    collaborator, "[get_page(USER[|ZERO])] returning a page-aligned kernel
    address or none; [free_page(kpage)]".  Each pool is a base address and a
    bitmap of pages in use; the lowest free page is handed out. *)
Definition palloc_get_page (flags : Z) : M Z := fun s =>
  let user := Z.testbit flags 2 in
  let p := if user then user_pool s else kernel_pool s in
  match bitmap_scan (used_map p) 0 1 false with
  | None => if Z.testbit flags 0 then Panic s else Ret NULL s
  | Some idx =>
      let page := pool_base p + PGSIZE * Z.of_nat idx in
      let p' := with_used (<[idx := true]> (used_map p)) p in
      let s1 := if user then set_user_pool p' s else set_kernel_pool p' s in
      let s2 := if Z.testbit flags 1
                then set_mem (mem_write (mem s1) page zero_page) s1
                else s1 in
      Ret page s2
  end.

Definition palloc_free_page (page : Z) : M unit := fun s =>
  if negb (pg_ofs page =? 0) then Panic s
  else if page =? NULL then Ret tt s
  else
    let release (p : pool) (put : pool -> state -> state) :=
      let idx := Z.to_nat (pg_no page - pg_no (pool_base p)) in
      match used_map p !! idx with
      | Some true => Ret tt (put (with_used (<[idx := false]> (used_map p)) p) s)
      | _ => Panic s
      end in
    if page_from_pool (kernel_pool s) page then release (kernel_pool s) set_kernel_pool
    else if page_from_pool (user_pool s) page then release (user_pool s) set_user_pool
    else Panic s.

(** ** Kernel heap ([threads/malloc.c]) *)

(** Modelled from the spec: "the bookkeeping allocation" may fail.  The
    heap hands out a block while its budget lasts; addresses are never
    handed out twice, so a pointer to a freed block stays dangling. *)
Definition malloc : M (option Z) := fun s =>
  match kheap_avail s with
  | O => Ret None s
  | S n => Ret (Some (next_addr s)) (set_kheap n (next_addr s + 1) s)
  end.

Definition free : M unit :=
  modify (fun s => set_kheap (S (kheap_avail s)) (next_addr s) s).

(** ** Threads and locks *)

Definition thread_current : M Z := fun s => Ret (current s) s.

Definition thread_get (tid : Z) : M thread := fun s => deref (threads s !! tid) s.

Definition lock_acquire (holder : state -> option Z) (put : option Z -> state -> state)
  : M unit := fun s =>
  match holder s with
  | None => Ret tt (put (Some (current s)) s)
  | Some h => if h =? current s then Panic s else Blocked
  end.

Definition lock_held_by_current_thread (holder : state -> option Z) : M bool :=
  fun s => Ret (bool_decide (holder s = Some (current s))) s.

Definition lock_release (holder : state -> option Z) (put : option Z -> state -> state)
  : M unit := fun s =>
  if bool_decide (holder s = Some (current s)) then Ret tt (put None s) else Panic s.

Definition with_frame_lock (v : option Z) (f : frame_state) : frame_state :=
  {| frame_lock := v; frame_hash := frame_hash f; frame_list := frame_list f;
     clock_ptr := clock_ptr f; ft_heap := ft_heap f; tail_view := tail_view f |}.

Definition with_frame_hash (v : gmap Z Z) (f : frame_state) : frame_state :=
  {| frame_lock := frame_lock f; frame_hash := v; frame_list := frame_list f;
     clock_ptr := clock_ptr f; ft_heap := ft_heap f; tail_view := tail_view f |}.

Definition with_frame_list (v : list Z) (f : frame_state) : frame_state :=
  {| frame_lock := frame_lock f; frame_hash := frame_hash f; frame_list := v;
     clock_ptr := clock_ptr f; ft_heap := ft_heap f; tail_view := tail_view f |}.

Definition with_clock_ptr (v : hand) (f : frame_state) : frame_state :=
  {| frame_lock := frame_lock f; frame_hash := frame_hash f; frame_list := frame_list f;
     clock_ptr := v; ft_heap := ft_heap f; tail_view := tail_view f |}.

Definition with_ft_heap (v : gmap Z frame_table_entry) (f : frame_state) : frame_state :=
  {| frame_lock := frame_lock f; frame_hash := frame_hash f; frame_list := frame_list f;
     clock_ptr := clock_ptr f; ft_heap := v; tail_view := tail_view f |}.

Definition frame_lock_of (s : state) : option Z := frame_lock (ft s).
Definition put_frame_lock (v : option Z) (s : state) : state :=
  set_ft (with_frame_lock v (ft s)) s.

(** ** Hardware page directory ([userprog/pagedir.c]) *)

Definition with_ptes (v : gmap Z pte) (d : pagedir) : pagedir :=
  {| pd_tables := pd_tables d; pd_ptes := v |}.

Definition with_p (v : bool) (e : pte) : pte :=
  {| pte_p := v; pte_w := pte_w e; pte_a := pte_a e; pte_d := pte_d e;
     pte_frame := pte_frame e |}.
Definition with_a (v : bool) (e : pte) : pte :=
  {| pte_p := pte_p e; pte_w := pte_w e; pte_a := v; pte_d := pte_d e;
     pte_frame := pte_frame e |}.
Definition with_d (v : bool) (e : pte) : pte :=
  {| pte_p := pte_p e; pte_w := pte_w e; pte_a := pte_a e; pte_d := v;
     pte_frame := pte_frame e |}.

(** Modelled from the spec: the page directory manipulator is an external
    collaborator ("install/remove/query of mappings; accessed/dirty bit
    inspection and reset"; the queried address "may be user or kernel alias
    of the same frame").  [lookup_page] without creation finds an entry
    only where a page table exists; kernel addresses are mapped by tables
    shared between all page directories. *)
Definition lookup_page (s : state) (d : pagedir) (va : Z) : option pte :=
  if is_kernel_vaddr va then Some (default pte_zero (kernel_ptes s !! pg_no va))
  else if bool_decide (pd_no va ∈ pd_tables d)
       then Some (default pte_zero (pd_ptes d !! pg_no va))
       else None.

Definition store_pte (pd : Z) (d : pagedir) (va : Z) (e : pte) (s : state) : state :=
  if is_kernel_vaddr va then set_kernel_ptes (<[pg_no va := e]> (kernel_ptes s)) s
  else set_pagedirs (<[pd := with_ptes (<[pg_no va := e]> (pd_ptes d)) d]> (pagedirs s)) s.

Definition pte_query (f : pte -> bool) (pd va : Z) : M bool := fun s =>
  match pagedirs s !! pd with
  | None => Undef
  | Some d =>
      match lookup_page s d va with
      | Some e => Ret (f e) s
      | None => Ret false s
      end
  end.

Definition pte_modify (f : pte -> pte) (pd va : Z) : M unit := fun s =>
  match pagedirs s !! pd with
  | None => Undef
  | Some d =>
      match lookup_page s d va with
      | Some e => Ret tt (store_pte pd d va (f e) s)
      | None => Ret tt s
      end
  end.

Definition pagedir_is_accessed (pd vpage : Z) : M bool := pte_query pte_a pd vpage.
Definition pagedir_set_accessed (pd vpage : Z) (v : bool) : M unit :=
  pte_modify (with_a v) pd vpage.
Definition pagedir_is_dirty (pd vpage : Z) : M bool := pte_query pte_d pd vpage.
Definition pagedir_set_dirty (pd vpage : Z) (v : bool) : M unit :=
  pte_modify (with_d v) pd vpage.

Definition pagedir_clear_page (pd upage : Z) : M unit :=
  run ASSERT (pg_ofs upage =? 0);
  run ASSERT (is_user_vaddr upage);
  pte_modify (fun e => if pte_p e then with_p false e else e) pd upage.

(** Installing a mapping creates the page table on demand; the table is
    a page of the kernel pool, and the installation fails when none is
    left. *)
Definition pagedir_set_page (pd upage kpage : Z) (writable : bool) : M bool :=
  run ASSERT (pg_ofs upage =? 0);
  run ASSERT (pg_ofs kpage =? 0);
  run ASSERT (is_user_vaddr upage);
  run ASSERT (is_kernel_vaddr kpage);
  do s <- get;
  do d <- deref (pagedirs s !! pd);
  let install (d : pagedir) : M bool :=
    let old := default pte_zero (pd_ptes d !! pg_no upage) in
    run ASSERT (negb (pte_p old));
    run modify (fun s =>
          set_pagedirs
            (<[pd := with_ptes
                       (<[pg_no upage :=
                            {| pte_p := true; pte_w := writable; pte_a := false;
                               pte_d := false; pte_frame := kpage |}]> (pd_ptes d)) d]>
               (pagedirs s)) s);
    ret true in
  if bool_decide (pd_no upage ∈ pd_tables d) then install d
  else
    do pt <- palloc_get_page PAL_ZERO;
    if pt =? NULL then ret false
    else install {| pd_tables := {[pd_no upage]} ∪ pd_tables d; pd_ptes := pd_ptes d |}.

(** ** Supplemental page table: lookup and the two updates used by
       eviction ([vm/page.c]) *)

Definition with_swap (idx : Z) (e : supplemental_page_table_entry)
  : supplemental_page_table_entry :=
  {| spte_upage := spte_upage e; spte_kpage := NULL; status := ON_SWAP;
     is_dirty := is_dirty e; swap_index := idx; spte_file := spte_file e;
     file_offset := file_offset e; read_bytes := read_bytes e;
     zero_bytes := zero_bytes e; writable := writable e |}.

Definition with_dirty (v : bool) (e : supplemental_page_table_entry)
  : supplemental_page_table_entry :=
  {| spte_upage := spte_upage e; spte_kpage := spte_kpage e; status := status e;
     is_dirty := v; swap_index := swap_index e; spte_file := spte_file e;
     file_offset := file_offset e; read_bytes := read_bytes e;
     zero_bytes := zero_bytes e; writable := writable e |}.

Definition with_frame (kp : Z) (e : supplemental_page_table_entry)
  : supplemental_page_table_entry :=
  {| spte_upage := spte_upage e; spte_kpage := kp; status := ON_FRAME;
     is_dirty := is_dirty e; swap_index := swap_index e; spte_file := spte_file e;
     file_offset := file_offset e; read_bytes := read_bytes e;
     zero_bytes := zero_bytes e; writable := writable e |}.

(** [vm_supt_find]: the entry keyed by [page] in the table at [supt], or
    [NULL]. *)
Definition vm_supt_find (supt page : Z) : M (option supplemental_page_table_entry) :=
  do s <- get;
  do tbl <- deref (supts s !! supt);
  ret (tbl !! page).

(** Writing through the [spte] pointer that [vm_supt_find] returned. *)
Definition spte_store (supt page : Z) (e : supplemental_page_table_entry) : M unit :=
  modify (fun s =>
    match supts s !! supt with
    | Some tbl => set_supts (<[supt := <[page := e]> tbl]> (supts s)) s
    | None => s
    end).

Definition vm_supt_has_entry (supt page : Z) : M bool :=
  do spte <- vm_supt_find supt page;
  match spte with
  | None => ret false
  | Some _ => ret true
  end.

Definition vm_supt_set_swap (supt page swap_index : Z) : M bool :=
  do spte <- vm_supt_find supt page;
  match spte with
  | None => ret false
  | Some e =>
      run spte_store supt page (with_swap swap_index e);
      ret true
  end.

Definition vm_supt_set_dirty (supt page : Z) (value : bool) : M bool :=
  do spte <- vm_supt_find supt page;
  match spte with
  | None => panic
  | Some e =>
      run spte_store supt page (with_dirty (is_dirty e || value) e);
      ret true
  end.

(** ** Frame table ([vm/frame.c]) *)

(** [list_next (elem)] in [frame_list]: the following element, or the tail
    sentinel after the last one; nothing for a pointer that is not in the
    list. *)
Fixpoint list_next (l : list Z) (a : Z) : option hand :=
  match l with
  | [] => None
  | x :: l' =>
      if bool_decide (x = a)
      then Some (match l' with [] => HTail | y :: _ => HElem y end)
      else list_next l' a
  end.

Definition list_begin (l : list Z) : hand :=
  match l with [] => HTail | x :: _ => HElem x end.

Fixpoint list_remove (l : list Z) (a : Z) : list Z :=
  match l with
  | [] => []
  | x :: l' => if bool_decide (x = a) then l' else x :: list_remove l' a
  end.

Definition slot_of (h : hand) : M slot := fun s =>
  match h with
  | HElem a => Ret (SlotEntry a) (log (EvClockStep (SlotEntry a)) s)
  | HTail => Ret SlotTail (log (EvClockStep SlotTail) s)
  | HNull => Undef
  end.

(** Reading the entry a slot designates.  The tail sentinel is not
    embedded in any entry: read as one, it shows whatever lies around
    [frame_list], which the state records as [tail_view]. *)
Definition slot_entry (sl : slot) : M frame_table_entry := fun s =>
  match sl with
  | SlotEntry a => deref (ft_heap (ft s) !! a) s
  | SlotTail => Ret (tail_view (ft s)) s
  end.

Definition clock_frame_next : M slot := fun s =>
  let f := ft s in
  match frame_list f with
  | [] => Panic s
  | _ =>
      let next :=
        match clock_ptr f with
        | HNull | HTail => Some (list_begin (frame_list f))
        | HElem a => list_next (frame_list f) a
        end in
      match next with
      | None => Undef
      | Some h => slot_of h (set_ft (with_clock_ptr h f) s)
      end
  end.

(** The body of the [for] loop of [frame_to_be_evicted], [k] iterations
    being left; falling out of the loop is the final [PANIC]. *)
Fixpoint evict_scan (k : nat) (pagedir : Z) : M slot :=
  match k with
  | O => panic
  | S k' =>
      do sl <- clock_frame_next;
      do entry <- slot_entry sl;
      if is_pinned entry then evict_scan k' pagedir
      else
        do acc <- pagedir_is_accessed pagedir (upage entry);
        if acc then
          run pagedir_set_accessed pagedir (upage entry) false;
          evict_scan k' pagedir
        else ret sl
  end.

Definition frame_to_be_evicted (pagedir : Z) : M slot :=
  do s <- get;
  let n := size (frame_hash (ft s)) in
  if (n =? 0)%nat then panic
  else evict_scan (S (n * 2)) pagedir.

Definition vm_frame_do_free (kp : Z) (free_page : bool) : M unit :=
  do held <- lock_held_by_current_thread frame_lock_of;
  run ASSERT held;
  run ASSERT (is_kernel_vaddr kp);
  run ASSERT (pg_ofs kp =? 0);
  do s <- get;
  match frame_hash (ft s) !! kp with
  | None => panic
  | Some entry2 =>
      run modify (fun s =>
            set_ft (with_frame_list (list_remove (frame_list (ft s)) entry2)
                      (with_frame_hash (delete kp (frame_hash (ft s))) (ft s))) s);
      run (if free_page then palloc_free_page kp else ret tt);
      run modify (fun s => set_ft (with_ft_heap (delete entry2 (ft_heap (ft s))) (ft s)) s);
      free
  end.

Definition with_pinned (v : bool) (e : frame_table_entry) : frame_table_entry :=
  {| kpage := kpage e; upage := upage e; t := t e; is_pinned := v |}.

Definition vm_frame_set_pinned (kp : Z) (value : bool) : M unit :=
  run lock_acquire frame_lock_of put_frame_lock;
  do s <- get;
  match frame_hash (ft s) !! kp with
  | None => panic
  | Some entry2 =>
      do e <- deref (ft_heap (ft s) !! entry2);
      run modify (fun s =>
            set_ft (with_ft_heap (<[entry2 := with_pinned value e]> (ft_heap (ft s)))
                      (ft s)) s);
      lock_release frame_lock_of put_frame_lock
  end.

Definition vm_frame_init : M unit :=
  modify (fun s =>
    set_ft {| frame_lock := None; frame_hash := ∅; frame_list := [];
              clock_ptr := HNull; ft_heap := ft_heap (ft s);
              tail_view := tail_view (ft s) |} s).

(** The eviction branch of [vm_frame_alloc]: choose a victim, unmap it,
    write it to swap, record that in the owner's table, release its frame
    and take a page again. *)
Definition evict_and_retry (flags : Z) : M Z :=
  do cur <- thread_current;
  do me <- thread_get cur;
  do victim <- frame_to_be_evicted (th_pagedir me);
  do frame_evicted <- slot_entry victim;
  run ASSERT (negb (t frame_evicted =? NULL));
  do owner <- thread_get (t frame_evicted);
  run ASSERT (negb (th_pagedir owner =? 3435973836));
  run pagedir_clear_page (th_pagedir owner) (upage frame_evicted);
  do d1 <- pagedir_is_dirty (th_pagedir owner) (upage frame_evicted);
  do d2 <- pagedir_is_dirty (th_pagedir owner) (kpage frame_evicted);
  do swap_index <- vm_swap_out (kpage frame_evicted);
  do _ <- vm_supt_set_swap (th_supt owner) (upage frame_evicted) swap_index;
  do _ <- vm_supt_set_dirty (th_supt owner) (upage frame_evicted) (d1 || d2);
  run vm_frame_do_free (kpage frame_evicted) true;
  do frame_page <- palloc_get_page (Z.lor PAL_USER flags);
  run ASSERT (negb (frame_page =? NULL));
  ret frame_page.

Definition vm_frame_alloc (flags : Z) (up : Z) : M Z :=
  run lock_acquire frame_lock_of put_frame_lock;
  do first <- palloc_get_page (Z.lor PAL_USER flags);
  do frame_page <- (if first =? NULL then evict_and_retry flags else ret first);
  do frame <- malloc;
  match frame with
  | None =>
      run lock_release frame_lock_of put_frame_lock;
      ret NULL
  | Some a =>
      do cur <- thread_current;
      let entry := {| kpage := frame_page; upage := up; t := cur; is_pinned := true |} in
      run modify (fun s =>
            let f := with_ft_heap (<[a := entry]> (ft_heap (ft s))) (ft s) in
            let f := match frame_hash f !! frame_page with
                     | None => with_frame_hash (<[frame_page := a]> (frame_hash f)) f
                     | Some _ => f
                     end in
            set_ft (with_frame_list (frame_list f ++ [a]) f) s);
      run lock_release frame_lock_of put_frame_lock;
      ret frame_page
  end.

Definition vm_frame_free (kp : Z) : M unit :=
  run lock_acquire frame_lock_of put_frame_lock;
  run vm_frame_do_free kp true;
  lock_release frame_lock_of put_frame_lock.

Definition vm_frame_remove_entry (kp : Z) : M unit :=
  run lock_acquire frame_lock_of put_frame_lock;
  run vm_frame_do_free kp false;
  lock_release frame_lock_of put_frame_lock.

Definition vm_frame_pin (kp : Z) : M unit := vm_frame_set_pinned kp true.
Definition vm_frame_unpin (kp : Z) : M unit := vm_frame_set_pinned kp false.

(** ** File system ([filesys/file.c]) *)

Definition lift_min (a b : Z) : Z := Z.max 0 (Z.min a b).

(** Modelled from the spec: the file system is an external collaborator
    ("[file_reopen], [file_length], [file_seek], [file_read],
    [file_write_at], [file_close]").  An open file is a position over an
    inode; reads stop at end of file and writes do not grow the file.
    [file_seek] takes the new position as a signed [off_t] and asserts
    that it is not negative. *)
Definition file_seek (f ofs : Z) : M unit := fun s =>
  match files s !! f with
  | None => Undef
  | Some h =>
      if ofs <? 0 then Panic s
      else Ret tt (set_files (<[f := {| f_inode := f_inode h; f_pos := ofs |}]> (files s)) s)
  end.

Definition file_length (f : Z) : M Z := fun s =>
  match files s !! f with
  | None => Undef
  | Some h =>
      match inodes s !! f_inode h with
      | None => Undef
      | Some data => Ret (Z.of_nat (length data)) s
      end
  end.

Definition file_read (f buf size : Z) : M Z := fun s =>
  match files s !! f with
  | None => Undef
  | Some h =>
      match inodes s !! f_inode h with
      | None => Undef
      | Some data =>
          let n := lift_min size (Z.of_nat (length data) - f_pos h) in
          let bytes := take (Z.to_nat n) (drop (Z.to_nat (f_pos h)) data) in
          Ret n (log (EvFileRead f buf size n)
                   (set_files (<[f := {| f_inode := f_inode h; f_pos := f_pos h + n |}]> (files s))
                      (set_mem (mem_write (mem s) buf bytes) s)))
      end
  end.

(** [file_write_at] with the [size] bytes [data] already fetched from the
    caller's buffer. *)
Definition file_write_at (f : Z) (data : list byte) (size ofs : Z) : M Z := fun s =>
  match files s !! f with
  | None => Undef
  | Some h =>
      match inodes s !! f_inode h with
      | None => Undef
      | Some old =>
          let n := lift_min size (Z.of_nat (length old) - ofs) in
          let new := take (Z.to_nat ofs) old ++ take (Z.to_nat n) data
                     ++ drop (Z.to_nat (ofs + n)) old in
          Ret n (log (EvFileWriteAt f data size ofs)
                   (set_inodes (<[f_inode h := if 0 <? n then new else old]> (inodes s)) s))
      end
  end.

Definition file_reopen (f : Z) : M (option Z) := fun s =>
  match files s !! f with
  | None => Undef
  | Some h =>
      match malloc s with
      | Ret (Some a) s1 =>
          Ret (Some a) (set_files (<[a := {| f_inode := f_inode h; f_pos := 0 |}]> (files s1)) s1)
      | Ret None s1 => Ret None s1
      | r => r
      end
  end.

Definition file_close (f : Z) : M unit :=
  run modify (fun s => set_files (delete f (files s)) s);
  free.

(** ** Supplemental page table: installers, resolver, unmap, pinning *)

Definition hash_insert_spte (supt : Z) (e : supplemental_page_table_entry) : M bool :=
  do s <- get;
  do tbl <- deref (supts s !! supt);
  match tbl !! spte_upage e with
  | Some _ => ret false                   (* an equal element is already there *)
  | None =>
      run modify (fun s => set_supts (<[supt := <[spte_upage e := e]> tbl]> (supts s)) s);
      ret true
  end.

(** The installers write the fields the source assigns; the others keep
    whatever the fresh block held, recorded here as [junk]. *)
Definition vm_supt_install_frame (junk : supplemental_page_table_entry)
    (supt up kp : Z) : M bool :=
  do block <- malloc;
  match block with
  | None => undef
  | Some _ =>
      let spte :=
        {| spte_upage := up; spte_kpage := kp; status := ON_FRAME; is_dirty := false;
           swap_index := u32 (-1); spte_file := spte_file junk;
           file_offset := file_offset junk; read_bytes := read_bytes junk;
           zero_bytes := zero_bytes junk; writable := writable junk |} in
      do fresh <- hash_insert_spte supt spte;
      if fresh then ret true
      else run free; ret false
  end.

Definition vm_supt_install_zeropage (junk : supplemental_page_table_entry)
    (supt up : Z) : M bool :=
  do block <- malloc;
  match block with
  | None => undef
  | Some _ =>
      let spte :=
        {| spte_upage := up; spte_kpage := NULL; status := ALL_ZEROS; is_dirty := false;
           swap_index := swap_index junk; spte_file := spte_file junk;
           file_offset := file_offset junk; read_bytes := read_bytes junk;
           zero_bytes := zero_bytes junk; writable := writable junk |} in
      do fresh <- hash_insert_spte supt spte;
      if fresh then ret true else panic
  end.

Definition vm_supt_install_filesys (junk : supplemental_page_table_entry)
    (supt up f offset rd zr : Z) (wr : bool) : M bool :=
  do block <- malloc;
  match block with
  | None => undef
  | Some _ =>
      let spte :=
        {| spte_upage := up; spte_kpage := NULL; status := FROM_FILESYS; is_dirty := false;
           swap_index := swap_index junk; spte_file := f; file_offset := offset;
           read_bytes := rd; zero_bytes := zr; writable := wr |} in
      do fresh <- hash_insert_spte supt spte;
      if fresh then ret true else panic
  end.

Definition memset (dst : Z) (b : byte) (n : Z) : M unit :=
  modify (fun s => set_mem (mem_write (mem s) dst (replicate (Z.to_nat n) b)) s).

Definition vm_load_page_from_filesys (spte : supplemental_page_table_entry) (kp : Z)
  : M bool :=
  run file_seek (spte_file spte) (file_offset spte);
  do n <- file_read (spte_file spte) kp (read_bytes spte);
  if negb (n =? read_bytes spte) then ret false
  else
    run ASSERT (u32 (read_bytes spte + zero_bytes spte) =? PGSIZE);
    run memset (kp + n) x00 (zero_bytes spte);
    ret true.

Definition vm_load_page (supt pagedir up : Z) : M bool :=
  do found <- vm_supt_find supt up;
  match found with
  | None => ret false
  | Some spte0 =>
      if bool_decide (status spte0 = ON_FRAME) then ret true
      else
        do frame_page <- vm_frame_alloc PAL_USER up;
        if frame_page =? NULL then ret false
        else
          (* [spte] is a pointer: the allocation may have evicted a frame and
             updated the very entry it designates *)
          do again <- vm_supt_find supt up;
          do spte <- deref again;
          let install (wr : bool) : M bool :=
            do ok <- pagedir_set_page pagedir up frame_page wr;
            if negb ok then
              run vm_frame_free frame_page;
              ret false
            else
              do again <- vm_supt_find supt up;
              do spte <- deref again;
              run spte_store supt up (with_frame frame_page spte);
              run pagedir_set_dirty pagedir frame_page false;
              run vm_frame_unpin frame_page;
              ret true in
          match status spte with
          | ALL_ZEROS =>
              run memset frame_page x00 PGSIZE;
              install true
          | ON_FRAME => install true
          | ON_SWAP =>
              run vm_swap_in (swap_index spte) frame_page;
              install true
          | FROM_FILESYS =>
              do ok <- vm_load_page_from_filesys spte frame_page;
              if negb ok then
                run vm_frame_free frame_page;
                ret false
              else install (writable spte)
          end
  end.

(** A kernel read of [n] bytes at the user address [va], through the
    running thread's page directory; the hardware marks the page accessed.
    A fault taken here is handled outside these sources. *)
Definition user_read (va n : Z) : M (list byte) :=
  do cur <- thread_current;
  do me <- thread_get cur;
  do s <- get;
  do d <- deref (pagedirs s !! th_pagedir me);
  match lookup_page s d va with
  | Some e =>
      if pte_p e then
        run pagedir_set_accessed (th_pagedir me) va true;
        ret (mem_read (mem s) (pte_frame e + pg_ofs va) (Z.to_nat n))
      else undef
  | None => undef
  end.

Definition hash_delete_spte (supt page : Z) : M unit :=
  modify (fun s =>
    match supts s !! supt with
    | Some tbl => set_supts (<[supt := delete page tbl]> (supts s)) s
    | None => s
    end).

Definition vm_supt_munmap (supt pagedir page f offset bytes : Z) : M bool :=
  do found <- vm_supt_find supt page;
  match found with
  | None => panic
  | Some spte =>
      run (if bool_decide (status spte = ON_FRAME) then
             run ASSERT (negb (spte_kpage spte =? NULL));
             vm_frame_pin (spte_kpage spte)
           else ret tt);
      run match status spte with
          | ON_FRAME =>
              run ASSERT (negb (spte_kpage spte =? NULL));
              do d1 <- pagedir_is_dirty pagedir (spte_upage spte);
              do d2 <- pagedir_is_dirty pagedir (spte_kpage spte);
              run (if is_dirty spte || d1 || d2 then
                     do data <- user_read (spte_upage spte) bytes;
                     do _ <- file_write_at f data bytes offset;
                     ret tt
                   else ret tt);
              run vm_frame_free (spte_kpage spte);
              pagedir_clear_page pagedir (spte_upage spte)
          | ON_SWAP =>
              do d1 <- pagedir_is_dirty pagedir (spte_upage spte);
              if is_dirty spte || d1 then
                do tmp <- palloc_get_page 0;
                run vm_swap_in (swap_index spte) tmp;
                do s <- get;
                do _ <- file_write_at f (mem_read (mem s) tmp (Z.to_nat PGSIZE)) PGSIZE offset;
                palloc_free_page tmp
              else vm_swap_free (swap_index spte)
          | FROM_FILESYS => ret tt
          | ALL_ZEROS => panic
          end;
      run hash_delete_spte supt page;
      ret true
  end.

Definition vm_pin_page (supt page : Z) : M unit :=
  do found <- vm_supt_find supt page;
  match found with
  | None => ret tt
  | Some spte =>
      run ASSERT (bool_decide (status spte = ON_FRAME));
      vm_frame_pin (spte_kpage spte)
  end.

Definition vm_unpin_page (supt page : Z) : M unit :=
  do found <- vm_supt_find supt page;
  match found with
  | None => panic
  | Some spte =>
      if bool_decide (status spte = ON_FRAME) then vm_frame_unpin (spte_kpage spte)
      else ret tt
  end.

(** ** Memory-mapped files ([userprog/syscall.c]) *)

Definition put_filesys_lock (v : option Z) (s : state) : state := set_filesys_lock v s.

Definition find_file_desc (tid fd : Z) : M (option file_desc) :=
  if fd <? 3 then ret None
  else
    do th <- thread_get tid;
    ret (find (fun d => fd_id d =? fd) (file_descriptors th)).

Definition find_mmap_desc (tid mid : Z) : M (option mmap_desc) :=
  do th <- thread_get tid;
  ret (find (fun d => mm_id d =? mid) (mmap_list th)).

(** The values [offset] takes in
    [for (offset = 0; offset < file_size; offset += PGSIZE)]; a file
    length is an [off_t], so the increment cannot wrap. *)
Definition page_offsets (file_size : Z) : list Z :=
  map (fun k => PGSIZE * Z.of_nat k)
      (seq 0 (Z.to_nat ((file_size + PGSIZE - 1) / PGSIZE))).

Fixpoint mmap_overlaps (supt up : Z) (offsets : list Z) : M bool :=
  match offsets with
  | [] => ret false
  | offset :: rest =>
      do has <- vm_supt_has_entry supt (u32 (up + offset));
      if has then ret true else mmap_overlaps supt up rest
  end.

(** [list_remove] of the descriptor [find_mmap_desc] found. *)
Fixpoint remove_mmap_desc (l : list mmap_desc) (mid : Z) : list mmap_desc :=
  match l with
  | [] => []
  | d :: l' => if mm_id d =? mid then l' else d :: remove_mmap_desc l' mid
  end.

Definition with_mmap_list (v : list mmap_desc) (th : thread) : thread :=
  {| th_pagedir := th_pagedir th; th_supt := th_supt th;
     file_descriptors := file_descriptors th; mmap_list := v |}.

Definition sys_mmap (junk : supplemental_page_table_entry) (fd up : Z) : M Z :=
  if (up =? NULL) || negb (pg_ofs up =? 0) then ret (-1)
  else if fd <=? 1 then ret (-1)
  else
    do cur <- thread_current;
    run lock_acquire filesys_lock put_filesys_lock;
    let MMAP_FAIL : M Z :=
      run lock_release filesys_lock put_filesys_lock;
      ret (-1) in
    do file_d <- find_file_desc cur fd;
    do f <- match file_d with
            | Some d => if negb (fd_file d =? NULL) then file_reopen (fd_file d)
                        else ret None
            | None => ret None
            end;
    match f with
    | None => MMAP_FAIL
    | Some f =>
        do file_size <- file_length f;
        if file_size =? 0 then MMAP_FAIL
        else
          do curr <- thread_get cur;
          do overlap <- mmap_overlaps (th_supt curr) up (page_offsets file_size);
          if overlap then MMAP_FAIL
          else
            run for_each (page_offsets file_size) (fun offset =>
                  let rd := if offset + PGSIZE <? file_size then PGSIZE
                            else file_size - offset in
                  do _ <- vm_supt_install_filesys junk (th_supt curr) (u32 (up + offset))
                            f offset rd (PGSIZE - rd) true;
                  ret tt);
            do curr <- thread_get cur;
            let mid := match last (mmap_list curr) with
                       | Some d => mm_id d + 1
                       | None => 1
                       end in
            do block <- malloc;
            match block with
            | None => undef
            | Some _ =>
                let mmap_d := {| mm_id := mid; mm_file := f; mm_addr := up;
                                 mm_size := file_size |} in
                run modify (fun s =>
                      set_threads
                        (<[cur := with_mmap_list (mmap_list curr ++ [mmap_d]) curr]>
                           (threads s)) s);
                run lock_release filesys_lock put_filesys_lock;
                ret mid
            end
    end.

Definition sys_munmap (mid : Z) : M bool :=
  do cur <- thread_current;
  do mmap_d <- find_mmap_desc cur mid;
  match mmap_d with
  | None => ret false
  | Some d =>
      run lock_acquire filesys_lock put_filesys_lock;
      do curr <- thread_get cur;
      let file_size := mm_size d in
      run for_each (page_offsets file_size) (fun offset =>
            let bytes := if offset + PGSIZE <? file_size then PGSIZE
                         else file_size - offset in
            do _ <- vm_supt_munmap (th_supt curr) (th_pagedir curr)
                      (u32 (mm_addr d + offset)) (mm_file d) offset bytes;
            ret tt);
      do curr <- thread_get cur;
      run modify (fun s =>
            set_threads
              (<[cur := with_mmap_list
                          (remove_mmap_desc (mmap_list curr) mid) curr]>
                 (threads s)) s);
      run file_close (mm_file d);
      run free;
      run lock_release filesys_lock put_filesys_lock;
      ret true
  end.

(** ** Teardown of a supplemental page table ([vm/page.c]) *)

(** [spte_destroy_func], which [hash_destroy] runs on every entry. *)
Definition spte_destroy_func (entry : supplemental_page_table_entry) : M unit :=
  run (if negb (spte_kpage entry =? NULL) then
         run ASSERT (bool_decide (status entry = ON_FRAME));
         vm_frame_remove_entry (spte_kpage entry)
       else if bool_decide (status entry = ON_SWAP) then vm_swap_free (swap_index entry)
       else ret tt);
  free.

(** [vm_supt_destroy].  [hash_destroy] hands the entries to the
    destructor bucket by bucket, an order the caller does not control:
    [visit] lists the keys in the order of the visit.  The buckets and the
    table itself then go back to the heap, which leaves [supt] dangling. *)
Definition vm_supt_destroy (visit : list Z) (supt : Z) : M unit :=
  run ASSERT (negb (supt =? NULL));
  run for_each visit (fun page =>
        do found <- vm_supt_find supt page;
        do entry <- deref found;
        spte_destroy_func entry);
  run free;
  run modify (fun s => set_supts (delete supt (supts s)) s);
  free.

(** ** File system calls that take no user pointer, and the pinning of
       user buffers ([userprog/syscall.c]) *)

Definition sys_filesize (fd : Z) : M Z :=
  run lock_acquire filesys_lock put_filesys_lock;
  do cur <- thread_current;
  do file_d <- find_file_desc cur fd;
  match file_d with
  | None =>
      run lock_release filesys_lock put_filesys_lock;
      ret (-1)
  | Some d =>
      do len <- file_length (fd_file d);
      run lock_release filesys_lock put_filesys_lock;
      ret len
  end.

(** An [unsigned] passed where the signed 32-bit [off_t] is expected. *)
Definition to_off_t (x : Z) : Z :=
  if u32 x <? 2 ^ 31 then u32 x else u32 x - WORD.

Definition sys_seek (fd position : Z) : M unit :=
  run lock_acquire filesys_lock put_filesys_lock;
  do cur <- thread_current;
  do file_d <- find_file_desc cur fd;
  match file_d with
  | Some d =>
      if negb (fd_file d =? NULL) then
        run file_seek (fd_file d) (to_off_t position);
        lock_release filesys_lock put_filesys_lock
      else ret tt
  | None => ret tt
  end.

(** The values [upage] takes in
    [for (upage = pg_round_down (buffer); upage < buffer + size; upage += PGSIZE)]
    for a buffer that ends in user space, where neither the sum nor the
    increment wraps. *)
Definition buffer_pages (buffer size : Z) : list Z :=
  let first := pg_round_down buffer in
  map (fun k => first + PGSIZE * Z.of_nat k)
      (seq 0 (Z.to_nat ((buffer + size - first + PGSIZE - 1) / PGSIZE))).

Definition preload_and_pin_pages (buffer size : Z) : M unit :=
  do cur <- thread_current;
  do me <- thread_get cur;
  for_each (buffer_pages buffer size) (fun upage =>
    do _ <- vm_load_page (th_supt me) (th_pagedir me) upage;
    vm_pin_page (th_supt me) upage).

Definition unpin_preloaded_pages (buffer size : Z) : M unit :=
  do cur <- thread_current;
  do me <- thread_get cur;
  for_each (buffer_pages buffer size) (fun upage => vm_unpin_page (th_supt me) upage).

(** * Properties *)

(** ** Example states *)

Definition no_entry : frame_table_entry :=
  {| kpage := 0; upage := 0; t := 0; is_pinned := false |}.

Definition no_spte : supplemental_page_table_entry :=
  {| spte_upage := 0; spte_kpage := 0; status := ALL_ZEROS; is_dirty := false;
     swap_index := 0; spte_file := 0; file_offset := 0; read_bytes := 0;
     zero_bytes := 0; writable := false |}.

(** A freshly booted kernel: a swap device of [slots] page slots, [frames]
    user frames, [kpages] kernel pages, one thread (number 1) with page
    directory 10 and supplemental page table 20. *)
Definition boot (slots frames kpages : nat) : state :=
  {| swap := {| swap_block := Some {| block_size := Z.of_nat slots * SECTORS_PER_PAGE;
                                      block_data := ∅ |};
                swap_available := Some (replicate slots true);
                swap_size := Z.of_nat slots |};
     ft := {| frame_lock := None; frame_hash := ∅; frame_list := [];
              clock_ptr := HNull; ft_heap := ∅; tail_view := no_entry |};
     kernel_pool := {| pool_base := PHYS_BASE; used_map := replicate kpages false |};
     user_pool := {| pool_base := PHYS_BASE + 1048576; used_map := replicate frames false |};
     mem := ∅;
     kernel_ptes := ∅;
     pagedirs := {[ 10 := {| pd_tables := ∅; pd_ptes := ∅ |} ]};
     supts := {[ 20 := ∅ ]};
     threads := {[ 1 := {| th_pagedir := 10; th_supt := 20;
                           file_descriptors := []; mmap_list := [] |} ]};
     current := 1;
     filesys_lock := None;
     files := ∅;
     inodes := ∅;
     kheap_avail := 64;
     next_addr := 1000;
     trace := [] |}.

Definition UPAGE0 : Z := 134512640.     (* 0x08048000 *)
Definition KPAGE0 : Z := PHYS_BASE + 1048576.

(** The state a computation ends in (the state itself where it has
    none), the value it returns, and whether it panics. *)
Definition exec {A} (m : M A) (s : state) : state :=
  match m s with Ret _ s' => s' | Panic s' => s' | _ => s end.

Definition returned {A} (r : result A) : option A :=
  match r with Ret a _ => Some a | _ => None end.

Definition panics {A} (r : result A) : bool :=
  match r with Panic _ => true | _ => false end.

Lemma run_returns {A} (m : M A) (s : state) (a : A) :
  returned (m s) = Some a -> m s = Ret a (exec m s).
Proof. unfold returned, exec. destruct (m s); congruence. Qed.

Lemma run_panics {A} (m : M A) (s : state) :
  panics (m s) = true -> m s = Panic (exec m s).
Proof. unfold panics, exec. destruct (m s); congruence. Qed.

(** ** Idempotence of the resolver on a resident page *)

Definition resident_state : state :=
  exec (vm_load_page 20 10 UPAGE0) (exec (vm_supt_install_zeropage no_spte 20 UPAGE0) (boot 4 2 2)).

(** C7.  When the entry for [up] is already [ON_FRAME], [vm_load_page]
    returns true and leaves the whole kernel state as it found it: no
    frame is allocated, and neither the frame table nor the entry
    changes. *)
Theorem vm_load_page_resident_noop :
  forall (s : state) (supt pagedir up : Z)
         (tbl : gmap Z supplemental_page_table_entry)
         (e : supplemental_page_table_entry),
    supts s !! supt = Some tbl ->
    tbl !! up = Some e ->
    status e = ON_FRAME ->
    vm_load_page supt pagedir up s = Ret true s.
Proof.
  intros s supt pagedir up tbl e Htbl He Hst.
  unfold vm_load_page, vm_supt_find, bind, get, deref, ret.
  rewrite Htbl, He.
  rewrite bool_decide_eq_true_2 by exact Hst.
  reflexivity.
Qed.

Lemma vm_load_page_resident_noop_witness :
  vm_load_page 20 10 UPAGE0 resident_state = Ret true resident_state.
Proof.
  eapply (vm_load_page_resident_noop resident_state 20 10 UPAGE0);
    vm_compute; reflexivity.
Defined.

(** ** Pinning interface *)

Definition swapped_entry_state : state :=
  exec (vm_supt_set_swap 20 UPAGE0 0)
       (exec (vm_supt_install_zeropage no_spte 20 UPAGE0) (boot 4 2 2)).

(** C10.  The two directions of the pinning interface differ on an
    unknown page: [vm_pin_page] returns with the state untouched, while
    [vm_unpin_page] panics; and [vm_unpin_page] on an entry that is not
    [ON_FRAME] returns with the state untouched. *)
Theorem pin_unpin_asymmetry :
  forall (s : state) (supt page : Z) (tbl : gmap Z supplemental_page_table_entry),
    supts s !! supt = Some tbl ->
    (tbl !! page = None ->
       vm_pin_page supt page s = Ret tt s /\ vm_unpin_page supt page s = Panic s)
    /\ (forall e, tbl !! page = Some e -> status e <> ON_FRAME ->
           vm_unpin_page supt page s = Ret tt s).
Proof.
  intros s supt page tbl Htbl. split.
  - intros Hnone.
    unfold vm_pin_page, vm_unpin_page, vm_supt_find, bind, get, deref, ret, panic.
    rewrite Htbl, Hnone. split; reflexivity.
  - intros e He Hst.
    unfold vm_unpin_page, vm_supt_find, bind, get, deref, ret.
    rewrite Htbl, He.
    rewrite bool_decide_eq_false_2 by exact Hst.
    reflexivity.
Qed.

Lemma pin_unpin_asymmetry_witness :
  (vm_pin_page 20 UPAGE0 (boot 4 2 2) = Ret tt (boot 4 2 2)
   /\ vm_unpin_page 20 UPAGE0 (boot 4 2 2) = Panic (boot 4 2 2))
  /\ vm_unpin_page 20 UPAGE0 swapped_entry_state = Ret tt swapped_entry_state.
Proof.
  split.
  - apply (pin_unpin_asymmetry (boot 4 2 2) 20 UPAGE0 ∅); reflexivity.
  - assert (Ht : supts swapped_entry_state !! 20
                 = Some {[ UPAGE0 := with_swap 0
                            {| spte_upage := UPAGE0; spte_kpage := NULL; status := ALL_ZEROS;
                               is_dirty := false; swap_index := 0; spte_file := 0;
                               file_offset := 0; read_bytes := 0; zero_bytes := 0;
                               writable := false |} ]})
      by (vm_compute; reflexivity).
    refine (proj2 (pin_unpin_asymmetry swapped_entry_state 20 UPAGE0 _ Ht) _ _ _).
    + vm_compute; reflexivity.
    + simpl. discriminate.
Defined.

(** ** Swap store *)

Lemma SECTORS_PER_PAGE_eq : SECTORS_PER_PAGE = 8.
Proof. reflexivity. Qed.

Lemma u32_small (z : Z) : 0 <= z < WORD -> u32 z = z.
Proof. intros H. unfold u32. apply Z.mod_small. exact H. Qed.

(** [find] over an interval answers the first index that satisfies the
    test. *)
Lemma find_seq_first (f : nat -> bool) (n a i : nat) :
  (a <= i < a + n)%nat -> f i = true ->
  (forall j, (a <= j < i)%nat -> f j = false) ->
  find f (seq a n) = Some i.
Proof.
  revert a. induction n as [|n IH]; intros a Hi Hf Hlow; [lia|].
  simpl. destruct (decide (a = i)) as [->|Hne].
  - rewrite Hf. reflexivity.
  - rewrite (Hlow a) by lia. apply IH; [lia | exact Hf |].
    intros j Hj. apply Hlow. lia.
Qed.

Lemma find_seq_none (f : nat -> bool) (n a : nat) :
  (forall j, (a <= j < a + n)%nat -> f j = false) ->
  find f (seq a n) = None.
Proof.
  revert a. induction n as [|n IH]; intros a H; [reflexivity|].
  simpl. rewrite (H a) by lia. apply IH. intros j Hj. apply H. lia.
Qed.

(** Slot [i] is free and every slot below it is taken. *)
Definition lowest_free (b : list bool) (i : nat) : Prop :=
  b !! i = Some true /\ forall j, (j < i)%nat -> b !! j = Some false.

Lemma scan_test (b : list bool) (i : nat) :
  negb (bitmap_contains b i 1 (negb true)) = negb (bool_decide (b !! i = Some false)).
Proof. unfold bitmap_contains. simpl. rewrite orb_false_r. reflexivity. Qed.

Lemma bitmap_scan_lowest (b : list bool) (i : nat) :
  lowest_free b i -> bitmap_scan b 0 1 true = Some i.
Proof.
  intros [Hi Hlow]. unfold bitmap_scan.
  pose proof (lookup_lt_Some _ _ _ Hi) as Hlen.
  destruct (Nat.leb_spec 1 (length b)) as [_|]; [|lia].
  apply find_seq_first.
  - lia.
  - rewrite scan_test, Hi. reflexivity.
  - intros j Hj. rewrite scan_test, (Hlow j) by lia.
    rewrite bool_decide_eq_true_2; reflexivity.
Qed.

Lemma bitmap_scan_full (b : list bool) :
  (forall i, b !! i <> Some true) -> bitmap_scan b 0 1 true = None.
Proof.
  intros Hfull. unfold bitmap_scan.
  destruct (Nat.leb_spec 1 (length b)) as [Hlen|]; [|reflexivity].
  apply find_seq_none. intros j Hj. rewrite scan_test.
  destruct (lookup_lt_is_Some_2 b j) as [v Hv]; [lia|].
  destruct v; [destruct (Hfull j Hv)|].
  rewrite Hv, bool_decide_eq_true_2; reflexivity.
Qed.

(** The sector of a page that the [j]-th iteration of the copy loops
    handles. *)
Definition page_sector (m : gmap Z byte) (page j : Z) : list byte :=
  mem_read m (page + BLOCK_SECTOR_SIZE * j) (Z.to_nat BLOCK_SECTOR_SIZE).

Fixpoint written (m : gmap Z byte) (page base : Z) (l : list Z)
    (data : gmap Z (list byte)) : gmap Z (list byte) :=
  match l with
  | [] => data
  | j :: l' => written m page base l' (<[base + j := page_sector m page j]> data)
  end.

Lemma written_other m page base l : forall data k,
  (forall j, j ∈ l -> k <> base + j) ->
  written m page base l data !! k = data !! k.
Proof.
  induction l as [|j l IH]; intros data k Hk; [reflexivity|].
  simpl. rewrite IH.
  - apply lookup_insert_ne. intros Heq. apply (Hk j); [left | congruence].
  - intros j' Hj'. apply Hk. right. exact Hj'.
Qed.

Lemma written_at m page base l : forall data j,
  j ∈ l ->
  written m page base l data !! (base + j) = Some (page_sector m page j).
Proof.
  induction l as [|x l IH]; intros data j Hj; [inversion Hj|].
  simpl. destruct (decide (j ∈ l)) as [Hin|Hnin].
  - apply IH. exact Hin.
  - apply elem_of_cons in Hj as [->|Hj]; [|contradiction].
    rewrite written_other.
    + apply lookup_insert_eq.
    + intros j' Hj' Heq. assert (x = j') by lia. subst. contradiction.
Qed.

Definition write_event (m : gmap Z byte) (page base j : Z) : event :=
  EvBlockWrite (base + j) (page_sector m page j).

(** The copy loop of [vm_swap_out] on sectors that all lie on the
    device. *)
Lemma swap_out_loop (page idx : Z) (l : list Z) : forall (s : state) (dev : block),
  swap_block (swap s) = Some dev ->
  (forall j, j ∈ l -> 0 <= idx * SECTORS_PER_PAGE + j < block_size dev
                      /\ idx * SECTORS_PER_PAGE + j < WORD) ->
  for_each l (fun i => block_write (u32 (idx * SECTORS_PER_PAGE + i))
                                   (page + BLOCK_SECTOR_SIZE * i)) s
  = Ret tt
      (set_trace (trace s ++ map (write_event (mem s) page (idx * SECTORS_PER_PAGE)) l)
         (set_swap
            (with_block
               {| block_size := block_size dev;
                  block_data := written (mem s) page (idx * SECTORS_PER_PAGE) l
                                  (block_data dev) |}
               (swap s)) s)).
Proof.
  induction l as [|j l IH]; intros s dev Hdev Hrange.
  - simpl. unfold ret. f_equal.
    destruct s as [sw f kp up m kpt pds sps ths cur fl fs ins ka na tr].
    destruct sw as [sb sa ss]. simpl in *. subst sb.
    rewrite app_nil_r. destruct dev. reflexivity.
  - simpl. unfold bind at 1.
    destruct (Hrange j) as [[Hlo Hhi] Hw]; [left|].
    unfold block_write at 1. rewrite Hdev.
    rewrite u32_small by lia.
    destruct (Z.leb_spec (block_size dev) (idx * SECTORS_PER_PAGE + j)) as [|_]; [lia|].
    rewrite (IH _ {| block_size := block_size dev;
                     block_data := <[idx * SECTORS_PER_PAGE + j :=
                                       mem_read (mem s) (page + BLOCK_SECTOR_SIZE * j)
                                         (Z.to_nat BLOCK_SECTOR_SIZE)]> (block_data dev) |}).
    + f_equal.
      destruct s as [sw f kp up m kpt pds sps ths cur fl fs ins ka na tr].
      destruct sw as [sb sa ss]. simpl in *.
      unfold log, set_trace, set_swap, with_block. simpl.
      rewrite <- app_assoc. reflexivity.
    + reflexivity.
    + intros j' Hj'. apply Hrange. right. exact Hj'.
Qed.

(** The same loop when some sector lies beyond the device: it panics,
    and no slot has been marked. *)
Lemma swap_out_loop_panics (page idx : Z) (bm : list bool) (l : list Z) :
  forall (s : state) (dev : block),
  swap_block (swap s) = Some dev ->
  swap_available (swap s) = Some bm ->
  (exists j, j ∈ l /\ block_size dev <= u32 (idx * SECTORS_PER_PAGE + j)) ->
  exists s', for_each l (fun i => block_write (u32 (idx * SECTORS_PER_PAGE + i))
                                              (page + BLOCK_SECTOR_SIZE * i)) s
             = Panic s'
             /\ swap_available (swap s') = Some bm.
Proof.
  induction l as [|x l IH]; intros s dev Hdev Hbm [j [Hj Hout]]; [inversion Hj|].
  simpl. unfold bind at 1. unfold block_write at 1. rewrite Hdev.
  destruct (Z.leb_spec (block_size dev) (u32 (idx * SECTORS_PER_PAGE + x))) as [Hx|Hx].
  - exists s. split; [reflexivity | exact Hbm].
  - apply elem_of_cons in Hj as [->|Hj]; [lia|].
    eapply IH.
    + reflexivity.
    + destruct s as [sw f kp up m kpt pds sps ths cur fl fs ins ka na tr].
      destruct sw as [sb sa ss]. simpl in *. exact Hbm.
    + exists j. split; [exact Hj | exact Hout].
Qed.

Lemma swap_out_loop_panics_at_once (page idx first : Z) (l : list Z)
    (s : state) (dev : block) :
  swap_block (swap s) = Some dev ->
  block_size dev <= u32 (idx * SECTORS_PER_PAGE + first) ->
  for_each (first :: l) (fun i => block_write (u32 (idx * SECTORS_PER_PAGE + i))
                                              (page + BLOCK_SECTOR_SIZE * i)) s
  = Panic s.
Proof.
  intros Hdev Hout. cbn [for_each]. unfold bind at 1. unfold block_write at 1.
  rewrite Hdev.
  destruct (Z.leb_spec (block_size dev) (u32 (idx * SECTORS_PER_PAGE + first))) as [_|];
    [reflexivity | lia].
Qed.

Arguments written : simpl never.
Arguments seqZ' : simpl never.

Lemma seqZ'_range (n j : Z) : j ∈ seqZ' n -> 0 <= j < n.
Proof.
  unfold seqZ'. intros H. apply list_elem_of_In, in_map_iff in H as [k [<- Hk]].
  apply in_seq in Hk. lia.
Qed.

Lemma seqZ'_elem (n j : Z) : 0 <= j < n -> j ∈ seqZ' n.
Proof.
  intros H. unfold seqZ'. apply list_elem_of_In, in_map_iff.
  exists (Z.to_nat j). split; [lia|]. apply in_seq. lia.
Qed.

(** C2.  On an initialised swap store ([slot_count = device size / SPP])
    [vm_swap_out] with a free slot returns the lowest free index, has
    written the page's SPP sectors to that slot's sectors and nothing
    else, and has marked the slot occupied; with no free slot it panics,
    no slot being marked, and on a device of at most [2^32 - SPP] sectors
    nothing at all having been written. *)
Theorem vm_swap_out_spec :
  forall (s : state) (page : Z) (dev : block) (bm : list bool),
    swap_block (swap s) = Some dev ->
    swap_available (swap s) = Some bm ->
    PHYS_BASE <= page ->
    0 <= block_size dev < WORD ->
    Z.of_nat (length bm) = block_size dev / SECTORS_PER_PAGE ->
    (forall i, lowest_free bm i ->
       exists s' dev',
         vm_swap_out page s = Ret (Z.of_nat i) s'
         /\ swap_block (swap s') = Some dev'
         /\ block_size dev' = block_size dev
         /\ (forall j, 0 <= j < SECTORS_PER_PAGE ->
               block_data dev' !! (Z.of_nat i * SECTORS_PER_PAGE + j)
               = Some (page_sector (mem s) page j))
         /\ (forall k, ~ (Z.of_nat i * SECTORS_PER_PAGE <= k
                          < Z.of_nat i * SECTORS_PER_PAGE + SECTORS_PER_PAGE) ->
               block_data dev' !! k = block_data dev !! k)
         /\ swap_available (swap s') = Some (<[i := false]> bm)
         /\ swap_size (swap s') = swap_size (swap s)
         /\ trace s' = trace s ++ map (write_event (mem s) page (Z.of_nat i * SECTORS_PER_PAGE))
                                      (seqZ' SECTORS_PER_PAGE)
         /\ s' = set_trace (trace s') (set_swap (swap s') s))
    /\ ((forall i, bm !! i <> Some true) ->
        exists s', vm_swap_out page s = Panic s'
                   /\ swap_available (swap s') = Some bm
                   /\ (block_size dev <= WORD - SECTORS_PER_PAGE -> s' = s)).
Proof.
  intros s page dev bm Hdev Hbm Hpage Hsize Hlen.
  assert (Hpg : (PHYS_BASE <=? page) = true) by (apply Z.leb_le; exact Hpage).
  split.
  - intros i Hfree.
    pose proof (bitmap_scan_lowest bm i Hfree) as Hscan.
    destruct Hfree as [Hi _].
    pose proof (lookup_lt_Some _ _ _ Hi) as Hlt.
    assert (Hfit : Z.of_nat i * SECTORS_PER_PAGE + SECTORS_PER_PAGE <= block_size dev).
    { pose proof (Z.mul_div_le (block_size dev) SECTORS_PER_PAGE ltac:(reflexivity)).
      rewrite SECTORS_PER_PAGE_eq in *. lia. }
    eexists. eexists.
    split.
    { unfold vm_swap_out, bind, ASSERT, get. rewrite Hpg, Hbm, Hscan. simpl scan_result.
      rewrite (swap_out_loop page (Z.of_nat i) _ s dev Hdev).
      - unfold bitmap_set. simpl swap_available. rewrite Hbm.
        destruct (Z.leb_spec 0 (Z.of_nat i)) as [_|]; [|lia].
        destruct (Z.ltb_spec (Z.of_nat i) (Z.of_nat (length bm))) as [_|]; [|lia].
        simpl andb. cbv iota. unfold ret. rewrite Nat2Z.id. reflexivity.
      - intros j Hj. apply seqZ'_range in Hj.
        rewrite SECTORS_PER_PAGE_eq in *. lia. }
    simpl.
    split; [reflexivity|]. split; [reflexivity|].
    split.
    { intros j Hj. apply written_at. apply seqZ'_elem. exact Hj. }
    split.
    { intros k Hk. apply written_other. intros j Hj Heq.
      apply seqZ'_range in Hj. apply Hk. lia. }
    split; [reflexivity|]. split; [reflexivity|]. split; [reflexivity|].
    destruct s as [sw f kp up m kpt pds sps ths cur fl fs ins ka na tr].
    reflexivity.
  - intros Hfull.
    pose proof (bitmap_scan_full bm Hfull) as Hscan.
    unfold vm_swap_out, bind, ASSERT, get. rewrite Hpg, Hbm, Hscan. simpl scan_result.
    destruct (swap_out_loop_panics page BITMAP_ERROR bm (seqZ' SECTORS_PER_PAGE) s dev Hdev Hbm)
      as [s' [Hloop Hkeep]].
    { exists 7. split; [apply seqZ'_elem; rewrite SECTORS_PER_PAGE_eq; lia|].
      change (u32 (BITMAP_ERROR * SECTORS_PER_PAGE + 7)) with (WORD - 1). lia. }
    destruct (Z.leb_spec (block_size dev) (WORD - SECTORS_PER_PAGE)) as [Hsmall|Hbig].
    + exists s. split; [|split; [exact Hbm | reflexivity]].
      change (seqZ' SECTORS_PER_PAGE) with (0 :: map Z.of_nat (seq 1 7)).
      rewrite (swap_out_loop_panics_at_once page BITMAP_ERROR 0 _ s dev Hdev);
        [reflexivity|].
      change (u32 (BITMAP_ERROR * SECTORS_PER_PAGE + 0)) with (WORD - SECTORS_PER_PAGE).
      exact Hsmall.
    + exists s'. rewrite Hloop. split; [reflexivity|]. split; [exact Hkeep | lia].
Qed.

Definition full_swap_state : state := exec (vm_swap_out KPAGE0) (boot 1 2 2).

Lemma vm_swap_out_spec_witness :
  (exists s', vm_swap_out KPAGE0 (boot 4 2 2) = Ret 0 s'
              /\ swap_available (swap s') = Some [false; true; true; true])
  /\ (exists s', vm_swap_out KPAGE0 full_swap_state = Panic s'
                 /\ s' = full_swap_state).
Proof.
  split.
  - destruct (vm_swap_out_spec (boot 4 2 2) KPAGE0
                {| block_size := 32; block_data := ∅ |} [true; true; true; true])
      as [Hfree _]; try reflexivity.
    + unfold KPAGE0, PHYS_BASE. lia.
    + change (0 <= 32 < 4294967296). lia.
    + destruct (Hfree 0%nat) as (s' & dev' & Hrun & _ & _ & _ & _ & Hbm & _).
      * split; [reflexivity | intros j Hj; lia].
      * exists s'. split; [exact Hrun | exact Hbm].
  - assert (Hdev : exists d, swap_block (swap full_swap_state) = Some d /\ block_size d = 8).
    { eexists. split; [vm_compute; reflexivity | reflexivity]. }
    destruct Hdev as [d [Hd Hd8]].
    destruct (vm_swap_out_spec full_swap_state KPAGE0 d [false]) as [_ Hfull].
    + exact Hd.
    + vm_compute; reflexivity.
    + unfold KPAGE0, PHYS_BASE. lia.
    + rewrite Hd8. unfold WORD. lia.
    + rewrite Hd8. reflexivity.
    + destruct Hfull as (s' & Hrun & _ & Hsame).
      * intros [|[|i]]; simpl; discriminate.
      * exists s'. split; [exact Hrun|]. apply Hsame. rewrite Hd8. vm_compute. discriminate.
Defined.

(** ** Clock eviction *)

(** A second thread (number 2, page directory 11, table 21) next to the
    boot thread. *)
Definition two_threads (slots frames kpages : nat) : state :=
  let s := boot slots frames kpages in
  set_threads (<[2 := {| th_pagedir := 11; th_supt := 21;
                         file_descriptors := []; mmap_list := [] |}]> (threads s))
    (set_pagedirs (<[11 := {| pd_tables := ∅; pd_ptes := ∅ |}]> (pagedirs s))
       (set_supts (<[21 := ∅]> (supts s)) s)).

(** Thread 2 faults in [UPAGE0] and touches it, taking the only user
    frame; then thread 1 runs. *)
Definition foreign_frame_state : state :=
  set_current 1
    (exec (pagedir_set_accessed 11 UPAGE0 true)
       (exec (vm_load_page 21 11 UPAGE0)
          (exec (vm_supt_install_zeropage no_spte 21 UPAGE0)
             (set_current 2 (two_threads 4 1 2))))).


(** The slots the clock hand stepped on, oldest first. *)
Definition clock_steps (tr : list event) : list slot :=
  omap (fun e => match e with EvClockStep sl => Some sl | _ => None end) tr.
























Definition pinned_view : frame_table_entry :=
  {| kpage := 0; upage := 0; t := 0; is_pinned := true |}.

Definition with_tail_view (v : frame_table_entry) (f : frame_state) : frame_state :=
  {| frame_lock := frame_lock f; frame_hash := frame_hash f; frame_list := frame_list f;
     clock_ptr := clock_ptr f; ft_heap := ft_heap f; tail_view := v |}.

(** One frame, resident, unpinned and recently touched by its owner, the
    running thread; the storage around the list's end reads as a pinned
    entry. *)
Definition second_chance_state : state :=
  let s := exec (pagedir_set_accessed 10 UPAGE0 true)
             (exec (vm_load_page 20 10 UPAGE0)
                (exec (vm_supt_install_zeropage no_spte 20 UPAGE0) (boot 4 1 2))) in
  set_ft (with_tail_view pinned_view (ft s)) s.

(** C1, at the failing input.  Thread 1 runs; the only frame belongs to
    thread 2, is unpinned, and thread 2's page directory has the accessed
    bit of its page set.  The scan is handed thread 1's page directory: it
    finds no accessed bit there, takes the frame at the first inspection,
    and leaves the owner's accessed bit set; [vm_frame_alloc] thereby
    evicts the page to swap. *)
Theorem clock_consults_running_thread :
  current foreign_frame_state = 1
  /\ ft_heap (ft foreign_frame_state) !! 1001
     = Some {| kpage := KPAGE0; upage := UPAGE0; t := 2; is_pinned := false |}
  /\ returned (pagedir_is_accessed 11 UPAGE0 foreign_frame_state) = Some true
  /\ returned (pagedir_is_accessed 10 UPAGE0 foreign_frame_state) = Some false
  /\ (exists s',
        frame_to_be_evicted 10 foreign_frame_state = Ret (SlotEntry 1001) s'
        /\ clock_steps (trace s') = [SlotEntry 1001]
        /\ returned (pagedir_is_accessed 11 UPAGE0 s') = Some true)
  /\ (exists s',
        vm_frame_alloc PAL_USER (UPAGE0 + PGSIZE) foreign_frame_state = Ret KPAGE0 s'
        /\ clock_steps (trace s') = [SlotEntry 1001]
        /\ (status <$> (supts s' !! 21 ≫= (fun tbl => tbl !! UPAGE0))) = Some ON_SWAP).
Proof.
  split; [reflexivity|].
  split; [vm_compute; reflexivity|].
  split; [vm_compute; reflexivity|].
  split; [vm_compute; reflexivity|].
  split.
  - exists (exec (frame_to_be_evicted 10) foreign_frame_state).
    split; [apply run_returns; vm_compute; reflexivity|].
    split; vm_compute; reflexivity.
  - exists (exec (vm_frame_alloc PAL_USER (UPAGE0 + PGSIZE)) foreign_frame_state).
    split; [apply run_returns; vm_compute; reflexivity|].
    split; vm_compute; reflexivity.
Qed.

(** ** Memory-mapped files *)

Lemma page_offsets_elem (size k : Z) :
  0 <= k -> PGSIZE * k < size -> PGSIZE * k ∈ page_offsets size.
Proof.
  intros Hk Hlt. unfold page_offsets. apply list_elem_of_In, in_map_iff.
  exists (Z.to_nat k). split; [rewrite Z2Nat.id by exact Hk; reflexivity|].
  apply in_seq. split; [lia|]. simpl.
  assert (k + 1 <= (size + PGSIZE - 1) / PGSIZE).
  { apply Z.div_le_lower_bound; unfold PGSIZE in *; lia. }
  lia.
Qed.

Lemma mmap_overlaps_found (supt up : Z) (tbl : gmap Z supplemental_page_table_entry)
    (s : state) (offsets : list Z) :
  supts s !! supt = Some tbl ->
  (exists o, o ∈ offsets /\ is_Some (tbl !! u32 (up + o))) ->
  mmap_overlaps supt up offsets s = Ret true s.
Proof.
  intros Htbl. induction offsets as [|x l IH]; intros [o [Ho Hentry]]; [inversion Ho|].
  cbn [mmap_overlaps]. unfold bind, vm_supt_has_entry, vm_supt_find, bind, get, deref, ret.
  rewrite Htbl.
  destruct (tbl !! u32 (up + x)) as [e|] eqn:Hx; [reflexivity|].
  apply elem_of_cons in Ho as [->|Ho].
  - rewrite Hx in Hentry. destruct Hentry as [? Hentry]. discriminate.
  - apply IH. exists o. split; assumption.
Qed.

Lemma file_reopen_keeps (f : Z) (s s' : state) (r : option Z) :
  file_reopen f s = Ret r s' ->
  supts s' = supts s /\ threads s' = threads s /\ current s' = current s
  /\ filesys_lock s' = filesys_lock s /\ pagedirs s' = pagedirs s /\ ft s' = ft s.
Proof.
  unfold file_reopen, malloc. destruct (files s !! f); [|discriminate].
  destruct (kheap_avail s); intros H; injection H as <- <-; repeat split.
Qed.

Lemma file_length_pure (f : Z) (s s' : state) (n : Z) :
  file_length f s = Ret n s' -> s' = s.
Proof.
  unfold file_length. destruct (files s !! f); [|discriminate].
  destruct (inodes s !! _); [|discriminate]. intros H. injection H as _ <-. reflexivity.
Qed.

(** C5.  [sys_mmap] answers -1 and leaves the kernel state untouched when
    the address is null or not page aligned or the descriptor is stdin or
    stdout; and, once the file has been reopened privately, it answers -1
    when the file is empty or when some page of the range already has an
    entry in the caller's table -- no table entry being installed and no
    mmap descriptor recorded, every table and every thread's mmap list
    being as before. *)
Theorem sys_mmap_rejects :
  forall (s : state) (junk : supplemental_page_table_entry) (fd up : Z),
    ((up = NULL \/ pg_ofs up <> 0 \/ fd <= 1) ->
       sys_mmap junk fd up s = Ret (-1) s)
    /\ (forall (th : thread) (d : file_desc) (f size : Z) (s2 : state)
               (tbl : gmap Z supplemental_page_table_entry),
          up <> NULL -> pg_ofs up = 0 -> 3 <= fd ->
          filesys_lock s = None ->
          threads s !! current s = Some th ->
          find (fun d => fd_id d =? fd) (file_descriptors th) = Some d ->
          fd_file d <> NULL ->
          file_reopen (fd_file d) (put_filesys_lock (Some (current s)) s) = Ret (Some f) s2 ->
          file_length f s2 = Ret size s2 ->
          supts s !! th_supt th = Some tbl ->
          (size = 0
           \/ exists k, 0 <= k /\ PGSIZE * k < size
                        /\ is_Some (tbl !! u32 (up + PGSIZE * k))) ->
          exists s',
            sys_mmap junk fd up s = Ret (-1) s'
            /\ supts s' = supts s /\ threads s' = threads s
            /\ pagedirs s' = pagedirs s /\ ft s' = ft s
            /\ filesys_lock s' = None).
Proof.
  intros s junk fd up. split.
  - intros Hbad. unfold sys_mmap.
    destruct (Z.eqb_spec up NULL) as [|Hnn]; [reflexivity|].
    destruct (Z.eqb_spec (pg_ofs up) 0) as [Hal|]; [|reflexivity].
    destruct (Z.leb_spec fd 1) as [|Hfd]; [reflexivity|].
    destruct Hbad as [|[|]]; [contradiction | contradiction | lia].
  - intros th d f size s2 tbl Hnn Hal Hfd Hlock Hth Hfind Hfile Hreopen Hlen Htbl Hwhy.
    destruct (file_reopen_keeps _ _ _ _ Hreopen) as (Hsup & Hthr & Hcur & Hfl & Hpd & Hft).
    simpl in Hthr, Hcur, Hfl, Hsup, Hpd, Hft.
    exists (put_filesys_lock None s2).
    split; [|repeat split; simpl; assumption].
    unfold sys_mmap.
    destruct (Z.eqb_spec up NULL) as [|_]; [contradiction|].
    destruct (Z.eqb_spec (pg_ofs up) 0) as [_|]; [|contradiction].
    destruct (Z.leb_spec fd 1) as [|_]; [lia|].
    cbn [orb negb].
    unfold bind at 1. unfold thread_current at 1.
    unfold bind at 1. unfold lock_acquire at 1. rewrite Hlock.
    unfold bind at 1. unfold find_file_desc at 1.
    destruct (Z.ltb_spec fd 3) as [|_]; [lia|].
    unfold bind at 1. unfold thread_get at 1, deref at 1.
    change (threads (put_filesys_lock (Some (current s)) s)) with (threads s).
    rewrite Hth. unfold ret at 1. rewrite Hfind.
    unfold bind at 1.
    destruct (Z.eqb_spec (fd_file d) NULL) as [|_]; [contradiction|].
    cbn [negb]. rewrite Hreopen.
    unfold bind at 1. rewrite Hlen.
    assert (Hrelease : forall s3, s3 = s2 ->
              (run lock_release filesys_lock put_filesys_lock; ret (-1)) s3
              = Ret (-1) (put_filesys_lock None s2)).
    { intros s3 ->. unfold bind, lock_release. rewrite Hfl. simpl.
      rewrite Hcur. rewrite bool_decide_eq_true_2 by reflexivity. reflexivity. }
    destruct Hwhy as [->|(k & Hk & Hklt & Hentry)].
    + apply Hrelease. reflexivity.
    + destruct (Z.eqb_spec size 0) as [|_]; [apply Hrelease; reflexivity|].
      unfold bind at 1. unfold thread_get at 1, deref at 1.
      rewrite Hthr, Hth.
      unfold bind at 1.
      rewrite (mmap_overlaps_found (th_supt th) up tbl s2).
      * apply Hrelease. reflexivity.
      * rewrite Hsup. exact Htbl.
      * exists (PGSIZE * k). split; [apply page_offsets_elem; assumption | exact Hentry].
Qed.

Definition MAPBASE : Z := 268435456.    (* 0x10000000 *)

(** Thread 1 holds three open files: descriptor 3 on a file of a page and
    a half, descriptor 4 on an empty file, descriptor 5 on a file of one
    page; the machine has [frames] user frames. *)
Definition open_files (frames : nat) : state :=
  let s := boot 4 frames 2 in
  set_threads {[ 1 := {| th_pagedir := 10; th_supt := 20;
                         file_descriptors := [ {| fd_id := 3; fd_file := 500 |};
                                               {| fd_id := 4; fd_file := 501 |};
                                               {| fd_id := 5; fd_file := 502 |} ];
                         mmap_list := [] |} ]}
    (set_files {[ 500 := {| f_inode := 1; f_pos := 0 |};
                  501 := {| f_inode := 2; f_pos := 0 |};
                  502 := {| f_inode := 3; f_pos := 0 |} ]}
       (set_inodes {[ 1 := replicate (Z.to_nat 6144) "a"%byte; 2 := [];
                      3 := replicate (Z.to_nat 4096) "b"%byte ]} s)).

Definition open_files_state : state := open_files 2.

Definition mapped_state : state := exec (sys_mmap no_spte 3 MAPBASE) open_files_state.

Lemma sys_mmap_rejects_witness :
  sys_mmap no_spte 0 MAPBASE open_files_state = Ret (-1) open_files_state
  /\ (exists s', sys_mmap no_spte 4 MAPBASE open_files_state = Ret (-1) s'
                 /\ supts s' = supts open_files_state
                 /\ threads s' = threads open_files_state)
  /\ (exists s', sys_mmap no_spte 5 (MAPBASE + PGSIZE) mapped_state = Ret (-1) s'
                 /\ supts s' = supts mapped_state
                 /\ threads s' = threads mapped_state).
Proof.
  split; [|split].
  - apply (proj1 (sys_mmap_rejects open_files_state no_spte 0 MAPBASE)).
    right. right. lia.
  - edestruct (proj2 (sys_mmap_rejects open_files_state no_spte 4 MAPBASE))
      as (s' & Hrun & Hs & Ht & _).
    + discriminate.
    + reflexivity.
    + lia.
    + reflexivity.
    + vm_compute. reflexivity.
    + vm_compute. reflexivity.
    + vm_compute. discriminate.
    + vm_compute. reflexivity.
    + vm_compute. reflexivity.
    + vm_compute. reflexivity.
    + left. reflexivity.
    + exists s'. split; [exact Hrun|]. split; assumption.
  - edestruct (proj2 (sys_mmap_rejects mapped_state no_spte 5 (MAPBASE + PGSIZE)))
      as (s' & Hrun & Hs & Ht & _).
    + discriminate.
    + reflexivity.
    + lia.
    + vm_compute. reflexivity.
    + vm_compute. reflexivity.
    + vm_compute. reflexivity.
    + vm_compute. discriminate.
    + vm_compute. reflexivity.
    + vm_compute. reflexivity.
    + vm_compute. reflexivity.
    + right. exists 0. split; [lia|]. split; [vm_compute; reflexivity|].
      vm_compute. eexists. reflexivity.
    + exists s'. split; [exact Hrun|]. split; assumption.
Defined.

(** ** Unmapping a swapped-out page *)

Lemma mem_write_cons (m : gmap Z byte) (a : Z) (b : byte) (bs : list byte) :
  mem_write m a (b :: bs) = mem_write (<[a := b]> m) (a + 1) bs.
Proof. reflexivity. Qed.

Lemma mem_read_S (m : gmap Z byte) (a : Z) (n : nat) :
  mem_read m a (S n) = mem_get m a :: mem_read m (a + 1) n.
Proof. reflexivity. Qed.

Lemma mem_get_write (m : gmap Z byte) (bs : list byte) : forall (a x : Z),
  mem_get (mem_write m a bs) x
  = if (a <=? x) && (x <? a + Z.of_nat (length bs))
    then default x00 (bs !! Z.to_nat (x - a))
    else mem_get m x.
Proof.
  revert m. induction bs as [|b bs IH]; intros m a x.
  - change (mem_write m a []) with m. cbn [length].
    destruct (Z.leb_spec a x), (Z.ltb_spec x (a + Z.of_nat 0));
      simpl; try reflexivity; lia.
  - rewrite mem_write_cons, IH. cbn [length].
    destruct (Z.leb_spec (a + 1) x), (Z.ltb_spec x (a + 1 + Z.of_nat (length bs)));
      destruct (Z.leb_spec a x), (Z.ltb_spec x (a + Z.of_nat (S (length bs))));
      simpl; try lia.
    + replace (Z.to_nat (x - a)) with (S (Z.to_nat (x - (a + 1)))) by lia. reflexivity.
    + unfold mem_get. rewrite lookup_insert_ne by lia. reflexivity.
    + assert (x = a) as -> by lia. unfold mem_get. rewrite lookup_insert_eq.
      replace (Z.to_nat (a - a)) with 0%nat by lia. reflexivity.
    + unfold mem_get. rewrite lookup_insert_ne by lia. reflexivity.
Qed.

Lemma mem_read_ext (m1 m2 : gmap Z byte) (n : nat) : forall a : Z,
  (forall x, a <= x < a + Z.of_nat n -> mem_get m1 x = mem_get m2 x) ->
  mem_read m1 a n = mem_read m2 a n.
Proof.
  induction n as [|n IH]; intros a H; [reflexivity|].
  rewrite !mem_read_S. rewrite (H a) by lia. f_equal. apply IH.
  intros x Hx. apply H. lia.
Qed.

Lemma mem_read_app (m : gmap Z byte) (n1 n2 : nat) : forall a : Z,
  mem_read m a (n1 + n2) = mem_read m a n1 ++ mem_read m (a + Z.of_nat n1) n2.
Proof.
  induction n1 as [|n1 IH]; intros a.
  - change (mem_read m a 0) with (@nil byte). cbn [Nat.add app].
    replace (a + Z.of_nat 0) with a by lia. reflexivity.
  - cbn [Nat.add]. rewrite !mem_read_S, IH. cbn [app]. do 2 f_equal.
    f_equal. lia.
Qed.

Lemma mem_read_write_same (m : gmap Z byte) (bs : list byte) : forall a : Z,
  mem_read (mem_write m a bs) a (length bs) = bs.
Proof.
  revert m. induction bs as [|b bs IH]; intros m a; [reflexivity|].
  cbn [length]. rewrite mem_read_S, mem_write_cons. f_equal.
  - rewrite mem_get_write.
    destruct (Z.leb_spec (a + 1) a); [lia|]. simpl.
    unfold mem_get. rewrite lookup_insert_eq. reflexivity.
  - apply IH.
Qed.

Lemma mem_read_write_apart (m : gmap Z byte) (bs : list byte) (a a' : Z) (n : nat) :
  a' + Z.of_nat n <= a \/ a + Z.of_nat (length bs) <= a' ->
  mem_read (mem_write m a bs) a' n = mem_read m a' n.
Proof.
  intros H. apply mem_read_ext. intros x Hx. rewrite mem_get_write.
  destruct (Z.leb_spec a x), (Z.ltb_spec x (a + Z.of_nat (length bs)));
    simpl; try reflexivity; lia.
Qed.

(** Consecutive chunks stored from [a] upwards. *)
Fixpoint write_chunks (m : gmap Z byte) (a : Z) (chunks : list (list byte)) : gmap Z byte :=
  match chunks with
  | [] => m
  | c :: cs => write_chunks (mem_write m a c) (a + Z.of_nat (length c)) cs
  end.

Lemma write_chunks_below (chunks : list (list byte)) : forall m a a' n,
  a' + Z.of_nat n <= a ->
  mem_read (write_chunks m a chunks) a' n = mem_read m a' n.
Proof.
  induction chunks as [|c cs IH]; intros m a a' n H; [reflexivity|].
  cbn [write_chunks]. rewrite IH by lia. apply mem_read_write_apart. left. exact H.
Qed.

Lemma read_write_chunks (chunks : list (list byte)) : forall m a,
  mem_read (write_chunks m a chunks) a (length (concat chunks)) = concat chunks.
Proof.
  induction chunks as [|c cs IH]; intros m a; [reflexivity|].
  cbn [write_chunks concat]. rewrite length_app, mem_read_app. f_equal.
  - rewrite write_chunks_below by lia. apply mem_read_write_same.
  - apply IH.
Qed.

Lemma sector_bytes_length (d : block) (sector : Z) :
  length (sector_bytes d sector) = Z.to_nat BLOCK_SECTOR_SIZE.
Proof.
  unfold sector_bytes. rewrite length_take, length_app, length_replicate. lia.
Qed.

Definition read_event (page base j : Z) : event :=
  EvBlockRead (base + j) (page + BLOCK_SECTOR_SIZE * j).

(** The sectors of slot [idx], in order. *)
Definition slot_chunks (dev : block) (idx : Z) (js : list Z) : list (list byte) :=
  map (fun j => sector_bytes dev (idx * SECTORS_PER_PAGE + j)) js.

Lemma swap_in_loop (page idx : Z) (cnt : nat) : forall (n0 : nat) (s : state) (dev : block),
  swap_block (swap s) = Some dev ->
  0 <= idx * SECTORS_PER_PAGE ->
  idx * SECTORS_PER_PAGE + Z.of_nat (n0 + cnt) <= block_size dev ->
  block_size dev < WORD ->
  for_each (map Z.of_nat (seq n0 cnt))
    (fun i => block_read (u32 (idx * SECTORS_PER_PAGE + i)) (page + BLOCK_SECTOR_SIZE * i)) s
  = Ret tt
      (set_trace
         (trace s ++ map (read_event page (idx * SECTORS_PER_PAGE)) (map Z.of_nat (seq n0 cnt)))
         (set_mem
            (write_chunks (mem s) (page + BLOCK_SECTOR_SIZE * Z.of_nat n0)
               (slot_chunks dev idx (map Z.of_nat (seq n0 cnt)))) s)).
Proof.
  induction cnt as [|cnt IH]; intros n0 s dev Hdev Hlo Hhi Hword.
  - cbn [seq map for_each write_chunks slot_chunks]. unfold ret. f_equal.
    rewrite app_nil_r. destruct s. reflexivity.
  - cbn [seq map for_each]. unfold bind at 1. unfold block_read at 1. rewrite Hdev.
    rewrite u32_small by lia.
    destruct (Z.leb_spec (block_size dev) (idx * SECTORS_PER_PAGE + Z.of_nat n0)) as [|_];
      [lia|].
    rewrite (IH (S n0) _ dev); [|exact Hdev|exact Hlo|lia|exact Hword].
    f_equal. unfold slot_chunks. cbn [map write_chunks].
    rewrite sector_bytes_length.
    replace (page + BLOCK_SECTOR_SIZE * Z.of_nat n0 + Z.of_nat (Z.to_nat BLOCK_SECTOR_SIZE))
      with (page + BLOCK_SECTOR_SIZE * Z.of_nat (S n0)) by (unfold BLOCK_SECTOR_SIZE; lia).
    destruct s as [sw f kp up m kpt pds sps ths cur fl fs ins ka na tr].
    unfold log, set_trace, set_mem. cbn [trace mem swap ft kernel_pool user_pool kernel_ptes
      pagedirs supts threads current filesys_lock files inodes kheap_avail next_addr].
    rewrite <- app_assoc. reflexivity.
Qed.

(** The state [vm_swap_in] leaves: the slot's sectors copied to [page],
    the reads logged, the slot free again. *)
Definition swapped_in (idx page : Z) (dev : block) (bm : list bool) (s : state) : state :=
  set_swap (with_available (<[Z.to_nat idx := true]> bm) (swap s))
    (set_trace (trace s ++ map (read_event page (idx * SECTORS_PER_PAGE))
                               (seqZ' SECTORS_PER_PAGE))
       (set_mem (write_chunks (mem s) page (slot_chunks dev idx (seqZ' SECTORS_PER_PAGE))) s)).

(** The swap store is initialised and slot [idx] is occupied. *)
Definition slot_occupied (idx : Z) (dev : block) (bm : list bool) (s : state) : Prop :=
  swap_block (swap s) = Some dev
  /\ swap_available (swap s) = Some bm
  /\ 0 <= idx < swap_size (swap s)
  /\ bm !! Z.to_nat idx = Some false
  /\ idx * SECTORS_PER_PAGE + SECTORS_PER_PAGE <= block_size dev < WORD.

Lemma vm_swap_in_spec (idx page : Z) (dev : block) (bm : list bool) (s : state) :
  slot_occupied idx dev bm s ->
  PHYS_BASE <= page ->
  vm_swap_in idx page s = Ret tt (swapped_in idx page dev bm s).
Proof.
  intros (Hdev & Hbm & Hidx & Hocc & Hfit) Hpage.
  pose proof (lookup_lt_Some _ _ _ Hocc) as Hlt.
  unfold vm_swap_in, bind, ASSERT, get.
  destruct (Z.leb_spec PHYS_BASE page) as [_|]; [|lia].
  destruct (Z.ltb_spec idx (swap_size (swap s))) as [_|]; [|lia].
  unfold bitmap_test. rewrite Hbm, Hocc.
  destruct (Z.leb_spec 0 idx) as [_|]; [|lia].
  unfold seqZ'.
  rewrite (swap_in_loop page idx _ 0 s dev Hdev); rewrite ?SECTORS_PER_PAGE_eq in *; try lia.
  unfold bitmap_set. cbn [swap set_trace set_mem]. rewrite Hbm.
  destruct (Z.leb_spec 0 idx) as [_|]; [|lia].
  destruct (Z.ltb_spec idx (Z.of_nat (length bm))) as [_|]; [|lia].
  cbn [andb]. unfold swapped_in, seqZ'. rewrite SECTORS_PER_PAGE_eq.
  replace (page + BLOCK_SECTOR_SIZE * Z.of_nat 0) with page by lia.
  destruct s. reflexivity.
Qed.

Lemma vm_swap_free_spec (idx : Z) (dev : block) (bm : list bool) (s : state) :
  slot_occupied idx dev bm s ->
  vm_swap_free idx s
  = Ret tt (set_swap (with_available (<[Z.to_nat idx := true]> bm) (swap s)) s).
Proof.
  intros (Hdev & Hbm & Hidx & Hocc & Hfit).
  pose proof (lookup_lt_Some _ _ _ Hocc) as Hlt.
  unfold vm_swap_free, bind, ASSERT, get.
  destruct (Z.ltb_spec idx (swap_size (swap s))) as [_|]; [|lia].
  unfold bitmap_test. rewrite Hbm, Hocc.
  destruct (Z.leb_spec 0 idx) as [_|]; [|lia].
  unfold bitmap_set. rewrite Hbm.
  destruct (Z.leb_spec 0 idx) as [_|]; [|lia].
  destruct (Z.ltb_spec idx (Z.of_nat (length bm))) as [_|]; [|lia].
  reflexivity.
Qed.

Lemma slot_chunks_size (dev : block) (idx : Z) (js : list Z) :
  length (concat (slot_chunks dev idx js))
  = (Z.to_nat BLOCK_SECTOR_SIZE * length js)%nat.
Proof.
  induction js as [|j js IH]; [simpl; lia|].
  unfold slot_chunks in *. cbn [map concat length].
  rewrite length_app, sector_bytes_length, IH. lia.
Qed.

Lemma slot_chunks_length (dev : block) (idx : Z) :
  length (concat (slot_chunks dev idx (seqZ' SECTORS_PER_PAGE))) = Z.to_nat PGSIZE.
Proof.
  rewrite slot_chunks_size. unfold seqZ'. rewrite length_map, length_seq.
  vm_compute. reflexivity.
Qed.

(** After a swap-in the page holds the slot's contents. *)
Lemma swapped_in_page (idx page : Z) (dev : block) (bm : list bool) (s : state) :
  mem_read (mem (swapped_in idx page dev bm s)) page (Z.to_nat PGSIZE)
  = concat (slot_chunks dev idx (seqZ' SECTORS_PER_PAGE)).
Proof.
  unfold swapped_in. cbn [mem set_swap set_trace set_mem].
  rewrite <- (slot_chunks_length dev idx). apply read_write_chunks.
Qed.

Lemma bind_intro {A B} (m : M A) (k : A -> M B) (s s1 : state) (a : A) (r : result B) :
  m s = Ret a s1 -> k a s1 = r -> bind m k s = r.
Proof. intros Hm Hk. unfold bind. rewrite Hm. exact Hk. Qed.

Lemma pg_ofs_mod (va : Z) : pg_ofs va = va mod PGSIZE.
Proof.
  unfold pg_ofs. change (PGSIZE - 1) with (Z.ones 12).
  rewrite Z.land_ones by lia. reflexivity.
Qed.

Lemma pg_no_div (va : Z) : pg_no va = va / PGSIZE.
Proof. unfold pg_no. rewrite Z.shiftr_div_pow2 by lia. reflexivity. Qed.

Lemma bitmap_scan_some (b : list bool) (v : bool) (i : nat) :
  bitmap_scan b 0 1 v = Some i -> (i < length b)%nat /\ b !! i = Some v.
Proof.
  unfold bitmap_scan. destruct (1 <=? length b)%nat eqn:Hlen; [|discriminate].
  intros H. apply find_some in H as [Hin Htest].
  apply in_seq in Hin. apply Nat.leb_le in Hlen.
  assert (Hi : (i < length b)%nat) by lia. split; [exact Hi|].
  destruct (lookup_lt_is_Some_2 b i Hi) as [x Hx]. rewrite Hx. f_equal.
  unfold bitmap_contains in Htest. cbn [seq existsb] in Htest.
  rewrite orb_false_r, Hx in Htest.
  destruct x, v; try reflexivity; vm_compute in Htest; discriminate.
Qed.

(** A page taken from the kernel pool without flags, and given back. *)
Lemma palloc_get_scratch (s : state) (i : nat) :
  bitmap_scan (used_map (kernel_pool s)) 0 1 false = Some i ->
  palloc_get_page 0 s
  = Ret (pool_base (kernel_pool s) + PGSIZE * Z.of_nat i)
        (set_kernel_pool (with_used (<[i := true]> (used_map (kernel_pool s)))
                            (kernel_pool s)) s).
Proof. intros H. unfold palloc_get_page. cbn [Z.testbit]. rewrite H. reflexivity. Qed.

Lemma palloc_free_scratch (s : state) (base : Z) (i : nat) :
  pool_base (kernel_pool s) = base ->
  pg_ofs base = 0 ->
  PHYS_BASE <= base ->
  used_map (kernel_pool s) !! i = Some true ->
  palloc_free_page (base + PGSIZE * Z.of_nat i) s
  = Ret tt (set_kernel_pool (with_used (<[i := false]> (used_map (kernel_pool s)))
                               (kernel_pool s)) s).
Proof.
  intros Hb Hal Hbase Hused. unfold palloc_free_page.
  pose proof (lookup_lt_Some _ _ _ Hused) as Hlt.
  rewrite pg_ofs_mod in *.
  assert (Hofs : (base + PGSIZE * Z.of_nat i) mod PGSIZE = 0).
  { rewrite Z.mul_comm, Z_mod_plus_full. exact Hal. }
  assert (Hno : pg_no (base + PGSIZE * Z.of_nat i) = pg_no base + Z.of_nat i).
  { rewrite !pg_no_div, Z.mul_comm. apply Z_div_plus_full. unfold PGSIZE. lia. }
  rewrite Hofs. cbn [Z.eqb negb].
  destruct (Z.eqb_spec (base + PGSIZE * Z.of_nat i) NULL) as [Hz|_].
  { unfold NULL, PHYS_BASE, PGSIZE in *. lia. }
  unfold page_from_pool. rewrite Hno, Hb.
  destruct (Z.leb_spec (pg_no base) (pg_no base + Z.of_nat i)) as [_|]; [|lia].
  destruct (Z.ltb_spec (pg_no base + Z.of_nat i)
              (pg_no base + Z.of_nat (length (used_map (kernel_pool s))))) as [_|]; [|lia].
  cbn [andb].
  replace (Z.to_nat (pg_no base + Z.of_nat i - pg_no base)) with i by lia.
  rewrite Hused. reflexivity.
Qed.

(** The hardware dirty bit as [pagedir_is_dirty] reports it. *)
Definition hw_dirty (s : state) (d : pagedir) (va : Z) : bool :=
  match lookup_page s d va with Some e => pte_d e | None => false end.

Lemma pagedir_is_dirty_eq (s : state) (pd va : Z) (d : pagedir) :
  pagedirs s !! pd = Some d ->
  pagedir_is_dirty pd va s = Ret (hw_dirty s d va) s.
Proof.
  intros H. unfold pagedir_is_dirty, pte_query, hw_dirty. rewrite H.
  destruct (lookup_page s d va); reflexivity.
Qed.

Lemma vm_supt_find_eq (s : state) (supt page : Z)
    (tbl : gmap Z supplemental_page_table_entry) :
  supts s !! supt = Some tbl ->
  vm_supt_find supt page s = Ret (tbl !! page) s.
Proof. intros H. unfold vm_supt_find, bind, get, deref, ret. rewrite H. reflexivity. Qed.

Ltac reduce_state :=
  cbn [trace log set_trace set_supts set_kernel_pool set_inodes swapped_in set_swap
       set_mem supts kernel_pool used_map with_used swap swap_available with_available
       hash_delete_spte modify].

(** C6, amended.  For a page whose entry is [ON_SWAP], with its slot
    occupied, [vm_supt_munmap] calls [file_write_at] exactly when
    [spte.dirty] or the hardware dirty bit of [upage] is set.  A clean
    page costs no file or pool access: the call returns true with the
    slot free and the entry gone.  A dirty page needs a scratch page from
    the kernel pool: when there is one (and the backing file is open) the
    PGSIZE bytes of the slot are read into it and written once, at the
    page's offset, the slot is free afterwards, the scratch page is back
    in the pool and the entry is gone; when the kernel pool has no page
    left the call panics with the kernel state as it was -- nothing
    written, the slot still occupied, the entry still in the table. *)
Theorem munmap_swapped_page :
  forall (s : state) (supt pd page f offset bytes : Z)
         (tbl : gmap Z supplemental_page_table_entry)
         (spte : supplemental_page_table_entry)
         (pdr : pagedir) (dev : block) (bm : list bool),
    supts s !! supt = Some tbl ->
    tbl !! page = Some spte ->
    status spte = ON_SWAP ->
    pagedirs s !! pd = Some pdr ->
    slot_occupied (swap_index spte) dev bm s ->
    let dirty := is_dirty spte || hw_dirty s pdr (spte_upage spte) in
    let contents := concat (slot_chunks dev (swap_index spte) (seqZ' SECTORS_PER_PAGE)) in
    let freed := <[Z.to_nat (swap_index spte) := true]> bm in
    (dirty = false ->
       exists s',
         vm_supt_munmap supt pd page f offset bytes s = Ret true s'
         /\ trace s' = trace s
         /\ swap_available (swap s') = Some freed
         /\ freed !! Z.to_nat (swap_index spte) = Some true
         /\ kernel_pool s' = kernel_pool s
         /\ supts s' !! supt = Some (delete page tbl))
    /\ (dirty = true ->
        forall (h : file) (old : list byte) (i : nat),
          files s !! f = Some h ->
          inodes s !! f_inode h = Some old ->
          bitmap_scan (used_map (kernel_pool s)) 0 1 false = Some i ->
          pg_ofs (pool_base (kernel_pool s)) = 0 ->
          PHYS_BASE <= pool_base (kernel_pool s) ->
          let tmp := pool_base (kernel_pool s) + PGSIZE * Z.of_nat i in
          exists s',
            vm_supt_munmap supt pd page f offset bytes s = Ret true s'
            /\ trace s'
               = trace s
                 ++ map (read_event tmp (swap_index spte * SECTORS_PER_PAGE))
                        (seqZ' SECTORS_PER_PAGE)
                 ++ [EvFileWriteAt f contents PGSIZE offset]
            /\ Z.of_nat (length contents) = PGSIZE
            /\ swap_available (swap s') = Some freed
            /\ freed !! Z.to_nat (swap_index spte) = Some true
            /\ used_map (kernel_pool s') = used_map (kernel_pool s)
            /\ supts s' !! supt = Some (delete page tbl))
    /\ (dirty = true ->
        bitmap_scan (used_map (kernel_pool s)) 0 1 false = None ->
        vm_supt_munmap supt pd page f offset bytes s = Panic s).
Proof.
  intros s supt pd page f offset bytes tbl spte pdr dev bm
         Htbl Hspte Hst Hpd Hslot dirty contents freed.
  assert (Hlen : Z.of_nat (length contents) = PGSIZE).
  { unfold contents. rewrite slot_chunks_length. reflexivity. }
  assert (Hbit : freed !! Z.to_nat (swap_index spte) = Some true).
  { destruct Hslot as (_ & _ & _ & Hocc & _).
    apply list_lookup_insert_eq. exact (lookup_lt_Some _ _ _ Hocc). }
  unfold vm_supt_munmap.
  split; [|split].
  - intros Hdirty. eexists. split.
    { eapply bind_intro; [apply (vm_supt_find_eq s supt page tbl Htbl)|].
      rewrite Hspte. cbv beta iota. rewrite Hst.
      rewrite bool_decide_eq_false_2 by discriminate. cbv beta iota.
      eapply bind_intro; [reflexivity|].
      eapply bind_intro.
      { eapply bind_intro; [apply (pagedir_is_dirty_eq s pd _ pdr Hpd)|].
        fold dirty. rewrite Hdirty. cbv beta iota.
        apply (vm_swap_free_spec (swap_index spte) dev bm s Hslot). }
      eapply bind_intro; [reflexivity|]. reflexivity. }
    reduce_state. rewrite Htbl. reduce_state.
    split; [reflexivity|].
    split; [reflexivity|].
    split; [exact Hbit|].
    split; [reflexivity|].
    rewrite lookup_insert_eq. reflexivity.
  - intros Hdirty h old i Hfile Hino Hscan Hal Hbase.
    set (tmp := pool_base (kernel_pool s) + PGSIZE * Z.of_nat i).
    destruct (bitmap_scan_some _ _ _ Hscan) as [Hi Hfree].
    eexists. split.
    { eapply bind_intro; [apply (vm_supt_find_eq s supt page tbl Htbl)|].
      rewrite Hspte. cbv beta iota. rewrite Hst.
      rewrite bool_decide_eq_false_2 by discriminate. cbv beta iota.
      eapply bind_intro; [reflexivity|].
      eapply bind_intro.
      { eapply bind_intro; [apply (pagedir_is_dirty_eq s pd _ pdr Hpd)|].
        fold dirty. rewrite Hdirty. cbv beta iota.
        eapply bind_intro; [apply (palloc_get_scratch s i Hscan)|].
        eapply bind_intro.
        { apply (vm_swap_in_spec (swap_index spte) _ dev bm).
          - exact Hslot.
          - unfold PGSIZE. lia. }
        eapply bind_intro; [reflexivity|].
        eapply bind_intro.
        { unfold file_write_at.
          change (files (swapped_in _ _ _ _ _)) with (files s).
          change (inodes (swapped_in _ _ _ _ _)) with (inodes s).
          rewrite Hfile, Hino. reflexivity. }
        apply (palloc_free_scratch _ (pool_base (kernel_pool s)) i).
        - reflexivity.
        - exact Hal.
        - exact Hbase.
        - apply list_lookup_insert_eq. exact Hi. }
      eapply bind_intro; [reflexivity|]. reflexivity. }
    reduce_state. rewrite Htbl. reduce_state.
    split.
    { rewrite swapped_in_page. fold contents. fold tmp. rewrite <- app_assoc. reflexivity. }
    split; [exact Hlen|].
    split; [destruct Hslot as (_ & Hbm & _); reflexivity|].
    split; [exact Hbit|].
    split.
    { rewrite list_insert_insert_eq. apply list_insert_id. exact Hfree. }
    rewrite lookup_insert_eq. reflexivity.
  - intros Hdirty Hnone.
    eapply bind_intro; [apply (vm_supt_find_eq s supt page tbl Htbl)|].
    rewrite Hspte. cbv beta iota. rewrite Hst.
    rewrite bool_decide_eq_false_2 by discriminate. cbv beta iota.
    eapply bind_intro; [reflexivity|].
    unfold bind at 1.
    assert (Hinner : (do d1 <- pagedir_is_dirty pd (spte_upage spte);
                      if is_dirty spte || d1
                      then do tmp <- palloc_get_page 0;
                           run vm_swap_in (swap_index spte) tmp;
                           do s0 <- get;
                           do _ <- file_write_at f (mem_read (mem s0) tmp (Z.to_nat PGSIZE))
                                     PGSIZE offset;
                           palloc_free_page tmp
                      else vm_swap_free (swap_index spte)) s = Panic s).
    { eapply bind_intro; [apply (pagedir_is_dirty_eq s pd _ pdr Hpd)|].
      fold dirty. rewrite Hdirty. cbv beta iota.
      eapply bind_intro.
      { unfold palloc_get_page. cbn [Z.testbit]. rewrite Hnone. reflexivity. }
      unfold bind at 1. unfold vm_swap_in. unfold bind at 1. reflexivity. }
    rewrite Hinner. reflexivity.
Qed.

(** With a single user frame: the file of descriptor 3 is mapped, its
    first page is faulted in and written to, then the second page is
    faulted in, which evicts the first to swap. *)
Definition swapped_file_state : state :=
  exec (vm_load_page 20 10 (MAPBASE + PGSIZE))
    (exec (pagedir_set_dirty 10 MAPBASE true)
       (exec (vm_load_page 20 10 MAPBASE)
          (exec (sys_mmap no_spte 3 MAPBASE) (open_files 1)))).

Lemma munmap_swapped_page_witness :
  exists s',
    vm_supt_munmap 20 10 MAPBASE 1000 0 PGSIZE swapped_file_state = Ret true s'
    /\ swap_available (swap s') = Some [true; true; true; true]
    /\ supts s' !! 20 ≫= (fun tbl => tbl !! MAPBASE) = None.
Proof.
  edestruct (munmap_swapped_page swapped_file_state 20 10 MAPBASE 1000 0 PGSIZE)
    as (_ & Hdirty & _).
  - vm_compute. reflexivity.
  - vm_compute. reflexivity.
  - reflexivity.
  - vm_compute. reflexivity.
  - split; [vm_compute; reflexivity|].
    split; [vm_compute; reflexivity|].
    split; [split; [apply Z.leb_le | apply Z.ltb_lt]; vm_compute; reflexivity|].
    split; [vm_compute; reflexivity|].
    split; [apply Z.leb_le | apply Z.ltb_lt]; vm_compute; reflexivity.
  - edestruct Hdirty as (s' & Hrun & _ & _ & Hfree & _ & _ & Hgone).
    + reflexivity.
    + vm_compute. reflexivity.
    + vm_compute. reflexivity.
    + vm_compute. reflexivity.
    + vm_compute. reflexivity.
    + apply Z.leb_le. vm_compute. reflexivity.
    + exists s'. split; [exact Hrun|]. split; [exact Hfree|].
      rewrite Hgone. cbn [mbind option_bind]. apply lookup_delete_eq.
Defined.

(** The same, after one more kernel page has been allocated: the kernel
    pool has no page left. *)
Definition no_scratch_state : state := exec (palloc_get_page 0) swapped_file_state.

(** C6 as stated fails here: the page is [ON_SWAP] and dirty, yet the call
    panics with the kernel state as it was; the slot is not freed and the
    entry is not removed. *)
Lemma munmap_swapped_page_no_scratch :
  let spte := {| spte_upage := MAPBASE; spte_kpage := NULL; status := ON_SWAP;
                 is_dirty := true; swap_index := 0; spte_file := 1000;
                 file_offset := 0; read_bytes := PGSIZE; zero_bytes := 0;
                 writable := true |} in
  supts no_scratch_state !! 20 ≫= (fun tbl => tbl !! MAPBASE) = Some spte
  /\ swap_available (swap no_scratch_state) = Some [false; true; true; true]
  /\ bitmap_scan (used_map (kernel_pool no_scratch_state)) 0 1 false = None
  /\ vm_supt_munmap 20 10 MAPBASE 1000 0 PGSIZE no_scratch_state = Panic no_scratch_state.
Proof.
  cbv zeta.
  split; [vm_compute; reflexivity|].
  split; [vm_compute; reflexivity|].
  split; [vm_compute; reflexivity|].
  assert (Hp : panics (vm_supt_munmap 20 10 MAPBASE 1000 0 PGSIZE no_scratch_state) = true).
  { vm_compute. reflexivity. }
  rewrite (run_panics _ _ Hp). f_equal; vm_compute; reflexivity.
Qed.

(** ** A small program logic for the kernel monad *)

(** Partial correctness: from a state satisfying [P], whenever [m]
    returns, the value and the final state satisfy [Q]. *)
Definition hoare {A} (P : state -> Prop) (m : M A) (Q : A -> state -> Prop) : Prop :=
  forall s, P s -> forall a s', m s = Ret a s' -> Q a s'.

(** [m] never changes the observation [f] of the state. *)
Definition preserves {A X} (f : state -> X) (m : M A) : Prop :=
  forall s a s', m s = Ret a s' -> f s' = f s.

Lemma hoare_bind {A B} (P : state -> Prop) (R : A -> state -> Prop)
    (Q : B -> state -> Prop) (m : M A) (k : A -> M B) :
  hoare P m R -> (forall a, hoare (R a) (k a) Q) -> hoare P (bind m k) Q.
Proof.
  intros Hm Hk s HP b s' Hrun. unfold bind in Hrun.
  destruct (m s) as [a s1| | |] eqn:Hms; try discriminate.
  exact (Hk a s1 (Hm s HP a s1 Hms) b s' Hrun).
Qed.

Lemma hoare_ret {A} (P : state -> Prop) (Q : A -> state -> Prop) (a : A) :
  (forall s, P s -> Q a s) -> hoare P (ret a) Q.
Proof. intros H s HP b s' Hrun. injection Hrun as <- <-. exact (H s HP). Qed.

Lemma hoare_weaken {A} (P P' : state -> Prop) (Q Q' : A -> state -> Prop) (m : M A) :
  hoare P' m Q' -> (forall s, P s -> P' s) -> (forall a s, Q' a s -> Q a s) ->
  hoare P m Q.
Proof. intros H HP HQ s Hs a s' Hrun. exact (HQ a s' (H s (HP s Hs) a s' Hrun)). Qed.

(** An invariant that only looks at [f] is kept by whatever preserves
    [f]. *)
Lemma hoare_preserved {A X} (f : state -> X) (I : X -> Prop) (m : M A) :
  preserves f m -> hoare (fun s => I (f s)) m (fun _ s => I (f s)).
Proof. intros H s HI a s' Hrun. rewrite (H s a s' Hrun). exact HI. Qed.

Section Preservation.
Context {X : Type} (f : state -> X).

Lemma preserves_bind {A B} (m : M A) (k : A -> M B) :
  preserves f m -> (forall a, preserves f (k a)) -> preserves f (bind m k).
Proof.
  intros Hm Hk s b s' Hrun. unfold bind in Hrun.
  destruct (m s) as [a s1| | |] eqn:Hms; try discriminate.
  rewrite (Hk a s1 b s' Hrun). exact (Hm s a s1 Hms).
Qed.

Lemma preserves_ret {A} (a : A) : preserves f (ret a).
Proof. intros s b s' Hrun. injection Hrun as _ <-. reflexivity. Qed.

Lemma preserves_get : preserves f get.
Proof. intros s b s' Hrun. injection Hrun as _ <-. reflexivity. Qed.

Lemma preserves_panic {A} : preserves f (@panic A).
Proof. intros s b s' Hrun. discriminate. Qed.

Lemma preserves_undef {A} : preserves f (@undef A).
Proof. intros s b s' Hrun. discriminate. Qed.

Lemma preserves_ASSERT (b : bool) : preserves f (ASSERT b).
Proof. intros s [] s' Hrun. unfold ASSERT in Hrun. destruct b; congruence. Qed.

Lemma preserves_deref {A} (o : option A) : preserves f (deref o).
Proof. intros s a s' Hrun. unfold deref in Hrun. destruct o; congruence. Qed.

Lemma preserves_modify (g : state -> state) :
  (forall s, f (g s) = f s) -> preserves f (modify g).
Proof. intros Hg s [] s' Hrun. injection Hrun as <-. apply Hg. Qed.

Lemma preserves_for_each {A} (l : list A) (body : A -> M unit) :
  (forall i, preserves f (body i)) -> preserves f (for_each l body).
Proof.
  intros Hbody. induction l as [|i l IH].
  - apply preserves_ret.
  - cbn [for_each]. apply preserves_bind; [apply Hbody | intros _; exact IH].
Qed.

Lemma preserves_evict_scan (k : nat) (pd : Z) :
  preserves f clock_frame_next ->
  (forall sl, preserves f (slot_entry sl)) ->
  (forall va, preserves f (pagedir_is_accessed pd va)) ->
  (forall va, preserves f (pagedir_set_accessed pd va false)) ->
  preserves f (evict_scan k pd).
Proof.
  intros Hnext Hentry Hacc Hset. induction k as [|k IH].
  - apply preserves_panic.
  - cbn [evict_scan].
    apply preserves_bind; [exact Hnext | intros sl].
    apply preserves_bind; [apply Hentry | intros e].
    destruct (is_pinned e); [exact IH|].
    apply preserves_bind; [apply Hacc | intros acc].
    destruct acc; [|apply preserves_ret].
    apply preserves_bind; [apply Hset | intros _; exact IH].
Qed.
End Preservation.

(** Leaves: operations given directly as state transformers. *)
Ltac pres_leaf :=
  let s := fresh "s" in let a := fresh "a" in let s' := fresh "s'" in
  let H := fresh "H" in
  intros s a s' H;
  cbv beta zeta iota delta [block_write block_read bitmap_set bitmap_test palloc_get_page
                  palloc_free_page malloc free thread_current thread_get lock_acquire
                  lock_release lock_held_by_current_thread pte_query pte_modify
                  pagedir_is_accessed pagedir_set_accessed pagedir_is_dirty
                  pagedir_set_dirty slot_of slot_entry clock_frame_next
                  file_seek file_length file_read file_write_at file_reopen file_close
                  spte_store hash_delete_spte memset store_pte
                  bind ret get modify panic undef ASSERT deref] in H;
  repeat case_match; simplify_eq; reflexivity.

Ltac pres_step :=
  match goal with
  | |- preserves _ (bind _ _) => apply preserves_bind; [|intros ?]
  | |- preserves _ (ret _) => apply preserves_ret
  | |- preserves _ get => apply preserves_get
  | |- preserves _ panic => apply preserves_panic
  | |- preserves _ undef => apply preserves_undef
  | |- preserves _ (ASSERT _) => apply preserves_ASSERT
  | |- preserves _ (deref _) => apply preserves_deref
  | |- preserves _ (modify _) => apply preserves_modify; intros ?; reflexivity
  | |- preserves _ (for_each _ _) => apply preserves_for_each; intros ?
  | |- preserves _ (evict_scan _ _) => apply preserves_evict_scan; [|intros ?|intros ?|intros ?]
  | |- preserves _ (match ?x with _ => _ end) => destruct x
  | |- preserves _ _ =>
      progress cbv beta zeta delta
        [vm_swap_out vm_swap_in vm_swap_free vm_supt_find vm_supt_has_entry
         vm_supt_set_swap vm_supt_set_dirty frame_to_be_evicted vm_frame_do_free
         vm_frame_set_pinned vm_frame_pin vm_frame_unpin vm_frame_free
         vm_frame_remove_entry evict_and_retry vm_frame_alloc pagedir_clear_page
         pagedir_set_page hash_insert_spte vm_supt_install_frame
         vm_supt_install_zeropage vm_supt_install_filesys vm_load_page_from_filesys]
  end.

Ltac pres := repeat pres_step; try pres_leaf.

(** What the eviction path never touches: the running thread, the heap's
    next address, the frame lock. *)
Definition sched_view (s : state) : Z * Z * option Z :=
  (current s, next_addr s, frame_lock (ft s)).

Lemma evict_and_retry_sched (flags : Z) : preserves sched_view (evict_and_retry flags).
Proof. pres. Qed.

Lemma bind_inv {A B} (m : M A) (k : A -> M B) (s s' : state) (b : B) :
  bind m k s = Ret b s' -> exists a s1, m s = Ret a s1 /\ k a s1 = Ret b s'.
Proof.
  unfold bind. destruct (m s) as [a s1| | |]; try discriminate.
  intros H. exists a, s1. split; [reflexivity | exact H].
Qed.

(** ** Frame allocation *)

(** [kp] is a page of the user pool that is marked in use. *)
Definition user_page_in_use (kp : Z) (s : state) : Prop :=
  exists i : nat,
    kp = pool_base (user_pool s) + PGSIZE * Z.of_nat i
    /\ used_map (user_pool s) !! i = Some true.

Lemma palloc_get_user (flags : Z) (s s' : state) (p : Z) :
  palloc_get_page (Z.lor PAL_USER flags) s = Ret p s' ->
  sched_view s' = sched_view s
  /\ ft s' = ft s
  /\ (p = NULL \/ user_page_in_use p s').
Proof.
  unfold palloc_get_page.
  assert (Huser : Z.testbit (Z.lor PAL_USER flags) 2 = true).
  { rewrite Z.lor_spec. reflexivity. }
  rewrite Huser.
  destruct (bitmap_scan (used_map (user_pool s)) 0 1 false) as [i|] eqn:Hscan.
  - destruct (bitmap_scan_some _ _ _ Hscan) as [Hi _].
    assert (Hin : forall m,
              user_page_in_use (pool_base (user_pool s) + PGSIZE * Z.of_nat i)
                (set_mem m
                   (set_user_pool (with_used (<[i := true]> (used_map (user_pool s)))
                                     (user_pool s)) s))).
    { intros m. exists i. split; [reflexivity|].
      cbn [set_mem set_user_pool user_pool used_map with_used].
      apply list_lookup_insert_eq. exact Hi. }
    destruct (Z.testbit (Z.lor PAL_USER flags) 1); intros H; injection H as <- <-.
    + split; [reflexivity|]. split; [reflexivity|]. right. apply Hin.
    + split; [reflexivity|]. split; [reflexivity|]. right.
      destruct s. apply (Hin mem0).
  - destruct (Z.testbit (Z.lor PAL_USER flags) 0); [discriminate|].
    intros H. injection H as <- <-. split; [reflexivity|]. split; [reflexivity|].
    left. reflexivity.
Qed.

Lemma evict_and_retry_page (flags : Z) (s s' : state) (fp : Z) :
  evict_and_retry flags s = Ret fp s' ->
  fp <> NULL /\ user_page_in_use fp s'.
Proof.
  unfold evict_and_retry. intros H.
  do 14 (apply bind_inv in H as (? & ? & _ & H)).
  apply bind_inv in H as (p & s1 & Hget & H).
  unfold bind, ASSERT, ret in H.
  destruct (Z.eqb_spec p NULL) as [|Hnn]; [discriminate|].
  cbn in H. injection H as <- <-.
  split; [exact Hnn|].
  destruct (palloc_get_user flags _ _ _ Hget) as (_ & _ & [Hz|Hin]);
    [contradiction | exact Hin].
Qed.

(** What [vm_frame_alloc] guarantees when it returns. *)
Lemma vm_frame_alloc_post (flags up : Z) (s s' : state) (kp : Z) :
  vm_frame_alloc flags up s = Ret kp s' ->
  current s' = current s
  /\ frame_lock (ft s) = None
  /\ frame_lock (ft s') = None
  /\ (kp = NULL /\ kheap_avail s' = 0%nat
      \/ kp <> NULL
         /\ user_page_in_use kp s'
         /\ (exists before, frame_list (ft s') = before ++ [next_addr s])
         /\ ft_heap (ft s') !! next_addr s
            = Some {| kpage := kp; upage := up; t := current s; is_pinned := true |}
         /\ is_Some (frame_hash (ft s') !! kp)
         /\ next_addr s' = next_addr s + 1).
Proof.
  intros H. unfold vm_frame_alloc in H.
  apply bind_inv in H as ([] & s0 & Hlock & H).
  apply bind_inv in H as (first & s1 & Hget & H).
  apply bind_inv in H as (fp & s2 & Hobt & H).
  apply bind_inv in H as (frame & s3 & Hmalloc & H).
  unfold lock_acquire, frame_lock_of in Hlock.
  destruct (frame_lock (ft s)) as [holder|] eqn:Hfree.
  { destruct (holder =? current s); discriminate. }
  injection Hlock as <-.
  destruct (palloc_get_user flags _ _ _ Hget) as (Hsched1 & _ & Hfirst).
  assert (Hpage : fp <> NULL /\ user_page_in_use fp s2 /\ sched_view s2 = sched_view s1).
  { destruct (Z.eqb_spec first NULL) as [Hz|Hnz].
    - destruct (evict_and_retry_page flags _ _ _ Hobt) as [Hnn Hin].
      split; [exact Hnn|]. split; [exact Hin|].
      exact (evict_and_retry_sched flags _ _ _ Hobt).
    - injection Hobt as <- <-. split; [exact Hnz|].
      destruct Hfirst as [|Hin]; [contradiction|]. split; [exact Hin | reflexivity]. }
  destruct Hpage as (Hnn & Hin & Hsched2).
  rewrite Hsched1 in Hsched2. unfold sched_view in Hsched2. cbn in Hsched2.
  injection Hsched2 as Hcur Hnext Hheld.
  unfold malloc in Hmalloc.
  destruct (kheap_avail s2) as [|n] eqn:Hheap.
  - injection Hmalloc as <- <-.
    unfold bind, lock_release, ret, frame_lock_of in H. rewrite Hheld, Hcur in H.
    rewrite bool_decide_eq_true_2 in H by reflexivity.
    injection H as <- <-.
    split; [exact Hcur|]. split; [reflexivity|]. split; [reflexivity|].
    left. split; [reflexivity | exact Hheap].
  - injection Hmalloc as <- <-.
    unfold bind, thread_current, modify, lock_release, ret, frame_lock_of in H.
    cbn [ft set_ft set_kheap with_frame_lock with_frame_list with_frame_hash with_ft_heap
         frame_lock frame_hash frame_list ft_heap current put_frame_lock] in H.
    destruct (frame_hash (ft s2) !! fp) as [known|] eqn:Hknown;
      cbn [ft set_ft set_kheap with_frame_lock with_frame_list with_frame_hash with_ft_heap
           frame_lock frame_hash frame_list ft_heap current put_frame_lock] in H;
      rewrite Hheld, Hcur in H;
      rewrite bool_decide_eq_true_2 in H by reflexivity;
      injection H as <- <-;
      (split; [exact Hcur|]; split; [reflexivity|]; split; [reflexivity|];
       right; split; [exact Hnn|]; split; [exact Hin|];
       cbn [ft set_ft set_kheap with_frame_lock with_frame_list with_frame_hash
            with_ft_heap frame_lock frame_hash frame_list ft_heap current put_frame_lock
            next_addr];
       rewrite Hnext;
       split; [eexists; reflexivity|];
       split; [apply lookup_insert_eq|];
       split; [|reflexivity]).
    + exists known. exact Hknown.
    + rewrite lookup_insert_eq. eexists. reflexivity.
Qed.

(** ** The invariant [kpage != NULL] iff [status = ON_FRAME] *)

Definition spte_ok (e : supplemental_page_table_entry) : Prop :=
  spte_kpage e <> NULL <-> status e = ON_FRAME.

Definition supts_ok (sp : gmap Z (gmap Z supplemental_page_table_entry)) : Prop :=
  forall supt tbl up e, sp !! supt = Some tbl -> tbl !! up = Some e -> spte_ok e.

(** Every entry of every supplemental page table satisfies it. *)
Definition spt_inv (s : state) : Prop := supts_ok (supts s).

Lemma hoare_spt_preserved {A} (m : M A) :
  preserves supts m -> hoare spt_inv m (fun _ => spt_inv).
Proof. intros H. exact (hoare_preserved supts supts_ok m H). Qed.

Lemma supts_ok_insert (sp : gmap Z (gmap Z supplemental_page_table_entry))
    (supt up : Z) (tbl : gmap Z supplemental_page_table_entry)
    (e : supplemental_page_table_entry) :
  supts_ok sp -> sp !! supt = Some tbl -> spte_ok e ->
  supts_ok (<[supt := <[up := e]> tbl]> sp).
Proof.
  intros Hok Htbl He supt' tbl' up' e' Ht' He'.
  destruct (decide (supt = supt')) as [<-|Hne].
  - rewrite lookup_insert_eq in Ht'. injection Ht' as <-.
    destruct (decide (up = up')) as [<-|Hne'].
    + rewrite lookup_insert_eq in He'. injection He' as <-. exact He.
    + rewrite lookup_insert_ne in He' by exact Hne'. exact (Hok supt tbl up' e' Htbl He').
  - rewrite lookup_insert_ne in Ht' by exact Hne. exact (Hok supt' tbl' up' e' Ht' He').
Qed.

Lemma spte_store_inv (supt up : Z) (e : supplemental_page_table_entry) :
  spte_ok e -> hoare spt_inv (spte_store supt up e) (fun _ => spt_inv).
Proof.
  intros He s Hinv [] s' Hrun. unfold spte_store, modify in Hrun.
  injection Hrun as <-. unfold spt_inv in *.
  destruct (supts s !! supt) as [tbl|] eqn:Htbl; [|exact Hinv].
  cbn [supts set_supts]. apply supts_ok_insert; assumption.
Qed.

Lemma hash_insert_spte_inv (supt : Z) (e : supplemental_page_table_entry) :
  spte_ok e -> hoare spt_inv (hash_insert_spte supt e) (fun _ => spt_inv).
Proof.
  intros He s Hinv b s' Hrun. unfold hash_insert_spte, bind, get, deref, modify, ret in Hrun.
  destruct (supts s !! supt) as [tbl|] eqn:Htbl; [|discriminate].
  destruct (tbl !! spte_upage e); injection Hrun as <- <-; [exact Hinv|].
  unfold spt_inv in *. cbn [supts set_supts]. apply supts_ok_insert; assumption.
Qed.

(** [vm_supt_find] hands out entries that satisfy the invariant. *)
Lemma vm_supt_find_inv (supt up : Z) :
  hoare spt_inv (vm_supt_find supt up)
    (fun r s => spt_inv s /\ forall e, r = Some e -> spte_ok e).
Proof.
  intros s Hinv r s' Hrun. unfold vm_supt_find, bind, get, deref, ret in Hrun.
  destruct (supts s !! supt) as [tbl|] eqn:Htbl; [|discriminate].
  injection Hrun as <- <-. split; [exact Hinv|].
  intros e He. exact (Hinv supt tbl up e Htbl He).
Qed.

Lemma spte_ok_with_swap (idx : Z) (e : supplemental_page_table_entry) :
  spte_ok (with_swap idx e).
Proof. unfold spte_ok. cbn. split; [intros H; contradiction | discriminate]. Qed.

Lemma spte_ok_with_dirty (v : bool) (e : supplemental_page_table_entry) :
  spte_ok e -> spte_ok (with_dirty v e).
Proof. intros H. exact H. Qed.

Lemma spte_ok_with_frame (kp : Z) (e : supplemental_page_table_entry) :
  kp <> NULL -> spte_ok (with_frame kp e).
Proof. intros H. unfold spte_ok. cbn. split; [reflexivity | intros _; exact H]. Qed.

Lemma vm_supt_set_swap_inv (supt page idx : Z) :
  hoare spt_inv (vm_supt_set_swap supt page idx) (fun _ => spt_inv).
Proof.
  unfold vm_supt_set_swap.
  eapply hoare_bind; [apply vm_supt_find_inv|]. intros [e|].
  - eapply hoare_bind.
    + eapply hoare_weaken; [apply (spte_store_inv supt page (with_swap idx e))| |].
      * apply spte_ok_with_swap.
      * intros s [H _]. exact H.
      * intros a s H. exact H.
    + intros ?. apply hoare_ret. intros s H. exact H.
  - apply hoare_ret. intros s [H _]. exact H.
Qed.

Lemma vm_supt_set_dirty_inv (supt page : Z) (v : bool) :
  hoare spt_inv (vm_supt_set_dirty supt page v) (fun _ => spt_inv).
Proof.
  unfold vm_supt_set_dirty.
  eapply hoare_bind; [apply vm_supt_find_inv|]. intros [e|].
  - intros s [Hinv He].
    assert (Hh : hoare spt_inv
                   (run spte_store supt page (with_dirty (is_dirty e || v) e); ret true)
                   (fun _ => spt_inv)).
    { eapply hoare_bind.
      + apply spte_store_inv. apply spte_ok_with_dirty. apply He. reflexivity.
      + intros ?. apply hoare_ret. intros s' H. exact H. }
    exact (Hh s Hinv).
  - intros s _ a s' Hrun. discriminate.
Qed.

Ltac inv_step :=
  match goal with
  | |- hoare _ (bind _ _) _ => eapply hoare_bind; [|intros ?]
  | |- hoare _ (ret _) _ => apply hoare_ret; intros ? ?; assumption
  | |- hoare _ (vm_supt_set_swap _ _ _) _ => apply vm_supt_set_swap_inv
  | |- hoare _ (vm_supt_set_dirty _ _ _) _ => apply vm_supt_set_dirty_inv
  | |- hoare _ (spte_store _ _ (with_frame _ _)) _ =>
      apply spte_store_inv; apply spte_ok_with_frame; assumption
  | |- hoare _ (hash_insert_spte _ _) _ => apply hash_insert_spte_inv
  | |- hoare _ (match ?x with _ => _ end) _ => destruct x
  | |- hoare _ _ _ => apply hoare_spt_preserved; solve [pres]
  end.

Lemma evict_and_retry_inv (flags : Z) :
  hoare spt_inv (evict_and_retry flags) (fun _ => spt_inv).
Proof. unfold evict_and_retry. repeat inv_step. Qed.

Lemma vm_frame_alloc_inv (flags up : Z) :
  hoare spt_inv (vm_frame_alloc flags up) (fun _ => spt_inv).
Proof.
  unfold vm_frame_alloc.
  eapply hoare_bind; [inv_step | intros ?].
  eapply hoare_bind; [inv_step | intros first].
  eapply hoare_bind.
  { destruct (first =? NULL); [apply evict_and_retry_inv | inv_step]. }
  intros fp. repeat inv_step.
Qed.

Lemma vm_load_page_inv (supt pd up : Z) :
  hoare spt_inv (vm_load_page supt pd up) (fun _ => spt_inv).
Proof.
  unfold vm_load_page.
  eapply hoare_bind; [inv_step | intros found].
  destruct found as [spte0|]; [|inv_step].
  destruct (bool_decide (status spte0 = ON_FRAME)); [inv_step|].
  eapply hoare_bind; [apply vm_frame_alloc_inv | intros fp].
  destruct (Z.eqb_spec fp NULL) as [|Hnn]; [inv_step|].
  eapply hoare_bind; [inv_step | intros again].
  eapply hoare_bind; [inv_step | intros spte].
  cbv zeta. destruct (status spte); repeat inv_step.
Qed.

(** C8.  Each operation on supplemental page tables keeps the invariant
    that an entry's [kpage] is non-null exactly when its status is
    [ON_FRAME]: installing a frame (non-null), a zero page, a file-backed
    page; [set_swap]; the resolver [vm_load_page]; and the eviction path
    of [vm_frame_alloc], which moves the victim's entry to [ON_SWAP]. *)
Theorem spt_invariant_preserved :
  (forall junk supt up kp,
     kp <> NULL ->
     hoare spt_inv (vm_supt_install_frame junk supt up kp) (fun _ => spt_inv))
  /\ (forall junk supt up,
        hoare spt_inv (vm_supt_install_zeropage junk supt up) (fun _ => spt_inv))
  /\ (forall junk supt up f offset rd zr wr,
        hoare spt_inv (vm_supt_install_filesys junk supt up f offset rd zr wr)
          (fun _ => spt_inv))
  /\ (forall supt page idx,
        hoare spt_inv (vm_supt_set_swap supt page idx) (fun _ => spt_inv))
  /\ (forall supt pd up,
        hoare spt_inv (vm_load_page supt pd up) (fun _ => spt_inv))
  /\ (forall flags,
        hoare spt_inv (evict_and_retry flags) (fun _ => spt_inv))
  /\ (forall flags up,
        hoare spt_inv (vm_frame_alloc flags up) (fun _ => spt_inv)).
Proof.
  split; [|split; [|split; [|split; [|split; [|split]]]]].
  - intros junk supt up kp Hnn. unfold vm_supt_install_frame.
    eapply hoare_bind; [inv_step | intros block]. destruct block; [|inv_step].
    eapply hoare_bind.
    + apply hash_insert_spte_inv. unfold spte_ok. cbn.
      split; [reflexivity | intros _; exact Hnn].
    + intros fresh. repeat inv_step.
  - intros junk supt up. unfold vm_supt_install_zeropage.
    eapply hoare_bind; [inv_step | intros block]. destruct block; [|inv_step].
    eapply hoare_bind.
    + apply hash_insert_spte_inv. unfold spte_ok. cbn.
      split; [intros H; contradiction | discriminate].
    + intros fresh. repeat inv_step.
  - intros junk supt up f offset rd zr wr. unfold vm_supt_install_filesys.
    eapply hoare_bind; [inv_step | intros block]. destruct block; [|inv_step].
    eapply hoare_bind.
    + apply hash_insert_spte_inv. unfold spte_ok. cbn.
      split; [intros H; contradiction | discriminate].
    + intros fresh. repeat inv_step.
  - apply vm_supt_set_swap_inv.
  - apply vm_load_page_inv.
  - apply evict_and_retry_inv.
  - apply vm_frame_alloc_inv.
Qed.

Definition zero_installed_state : state :=
  exec (vm_supt_install_zeropage no_spte 20 UPAGE0) (boot 4 2 2).

Lemma spt_invariant_preserved_witness :
  spt_inv (exec (vm_load_page 20 10 UPAGE0) zero_installed_state)
  /\ spt_inv (exec (vm_frame_alloc PAL_USER (UPAGE0 + PGSIZE)) foreign_frame_state).
Proof.
  destruct spt_invariant_preserved as (Hframe & Hzero & _ & Hswap & Hload & _ & Halloc).
  assert (Hboot : forall n m k, spt_inv (boot n m k)).
  { intros n m k supt tbl up e Htbl He. cbn in Htbl.
    apply lookup_singleton_Some in Htbl as [_ <-].
    rewrite lookup_empty in He. discriminate. }
  split.
  - apply (Hload 20 10 UPAGE0 zero_installed_state) with (a := true).
    + apply (Hzero no_spte 20 UPAGE0 (boot 4 2 2) (Hboot _ _ _)) with (a := true).
      apply run_returns. vm_compute. reflexivity.
    + apply run_returns. vm_compute. reflexivity.
  - apply (Halloc PAL_USER (UPAGE0 + PGSIZE) foreign_frame_state) with (a := KPAGE0).
    + intros supt tbl up e Htbl He.
      assert (Hs : supts foreign_frame_state
                   = <[21 := {[ UPAGE0 := with_frame KPAGE0
                                  {| spte_upage := UPAGE0; spte_kpage := NULL;
                                     status := ALL_ZEROS; is_dirty := false;
                                     swap_index := 0; spte_file := 0; file_offset := 0;
                                     read_bytes := 0; zero_bytes := 0;
                                     writable := false |} ]}]> {[ 20 := ∅ ]})
        by (vm_compute; reflexivity).
      rewrite Hs in Htbl. clear Hs.
      destruct (decide (supt = 21)) as [->|Hne].
      * rewrite lookup_insert_eq in Htbl. injection Htbl as <-.
        apply lookup_singleton_Some in He as [_ <-].
        apply spte_ok_with_frame. discriminate.
      * rewrite lookup_insert_ne in Htbl by congruence.
        apply lookup_singleton_Some in Htbl as [_ <-].
        rewrite lookup_empty in He. discriminate.
    + apply run_returns. vm_compute. reflexivity.
Defined.

(** ** Recovery of the resolver *)

(** Step 4 of the resolver: populate the frame according to the entry's
    status; false is the short file read. *)
Definition fill_frame (spte : supplemental_page_table_entry) (kp : Z) : M bool :=
  match status spte with
  | ALL_ZEROS => run memset kp x00 PGSIZE; ret true
  | ON_FRAME => ret true
  | ON_SWAP => run vm_swap_in (swap_index spte) kp; ret true
  | FROM_FILESYS => vm_load_page_from_filesys spte kp
  end.

(** Step 5: the write permission of the mapping. *)
Definition write_permission (spte : supplemental_page_table_entry) : bool :=
  match status spte with
  | FROM_FILESYS => writable spte
  | _ => true
  end.

(** The frame table, the user pool and the running thread. *)
Definition frame_view (s : state) : frame_state * pool * Z :=
  (ft s, user_pool s, current s).

(** Base and size of the two page pools. *)
Definition pool_geometry (s : state) : Z * nat * Z * nat :=
  (pool_base (kernel_pool s), length (used_map (kernel_pool s)),
   pool_base (user_pool s), length (used_map (user_pool s))).

Lemma fill_frame_view (spte : supplemental_page_table_entry) (kp : Z) :
  preserves frame_view (fill_frame spte kp).
Proof. unfold fill_frame. pres. Qed.

Lemma pagedir_set_page_view (pd up kp : Z) (wr : bool) :
  preserves frame_view (pagedir_set_page pd up kp wr).
Proof. unfold pagedir_set_page. pres. Qed.

Ltac geometry_leaf :=
  let s := fresh "s" in let a := fresh "a" in let s' := fresh "s'" in
  let H := fresh "H" in
  intros s a s' H;
  cbv beta zeta iota delta [block_write block_read bitmap_set bitmap_test palloc_get_page
                  palloc_free_page malloc free thread_current thread_get lock_acquire
                  lock_release lock_held_by_current_thread pte_query pte_modify
                  pagedir_is_accessed pagedir_set_accessed pagedir_is_dirty
                  pagedir_set_dirty slot_of slot_entry clock_frame_next
                  file_seek file_length file_read file_write_at file_reopen file_close
                  spte_store hash_delete_spte memset store_pte
                  bind ret get modify panic undef ASSERT deref] in H;
  repeat case_match; simplify_eq; unfold pool_geometry;
  cbn [kernel_pool user_pool set_kernel_pool set_user_pool set_mem set_swap set_ft
       set_trace set_pagedirs set_kernel_ptes set_supts set_kheap log pool_base used_map
       with_used put_frame_lock];
  rewrite ?length_insert; reflexivity.

Lemma vm_frame_alloc_geometry (flags up : Z) :
  preserves pool_geometry (vm_frame_alloc flags up).
Proof. unfold vm_frame_alloc. repeat pres_step; try pres_leaf; geometry_leaf. Qed.

Lemma fill_frame_geometry (spte : supplemental_page_table_entry) (kp : Z) :
  preserves pool_geometry (fill_frame spte kp).
Proof. unfold fill_frame. repeat pres_step; try pres_leaf; geometry_leaf. Qed.

Lemma pagedir_set_page_geometry (pd up kp : Z) (wr : bool) :
  preserves pool_geometry (pagedir_set_page pd up kp wr).
Proof. unfold pagedir_set_page. repeat pres_step; try pres_leaf; geometry_leaf. Qed.

(** The user pool is page aligned, lies in kernel space and above the
    kernel pool. *)
Definition pools_ok (s : state) : Prop :=
  pg_ofs (pool_base (user_pool s)) = 0
  /\ PHYS_BASE <= pool_base (user_pool s)
  /\ pg_no (pool_base (kernel_pool s)) + Z.of_nat (length (used_map (kernel_pool s)))
     <= pg_no (pool_base (user_pool s)).

(** Frames in the table are allocated pages, and the ring holds blocks
    the heap has handed out. *)
Definition frame_table_ok (s : state) : Prop :=
  (forall k a, frame_hash (ft s) !! k = Some a -> user_page_in_use k s)
  /\ (forall a, a ∈ frame_list (ft s) -> a < next_addr s).

Lemma pools_ok_geometry (s s' : state) :
  pool_geometry s' = pool_geometry s -> pools_ok s -> pools_ok s'.
Proof.
  unfold pool_geometry, pools_ok. intros H (Hal & Hbase & Habove).
  injection H as Hkb Hkl Hub _. rewrite Hkb, Hkl, Hub. repeat split; assumption.
Qed.

(** An empty frame table is well formed. *)
Lemma boot_frame_table_ok (s : state) :
  frame_hash (ft s) = ∅ -> frame_list (ft s) = [] -> frame_table_ok s.
Proof.
  intros Hh Hl. split.
  - intros k a Hk. rewrite Hh, lookup_empty in Hk. discriminate.
  - intros a Ha. rewrite Hl in Ha. inversion Ha.
Qed.

Lemma list_remove_subset (l : list Z) (a x : Z) : x ∈ list_remove l a -> x ∈ l.
Proof.
  induction l as [|y l IH]; cbn [list_remove]; [intros H; exact H|].
  destruct (bool_decide (y = a)).
  - intros H. right. exact H.
  - intros H. apply elem_of_cons in H as [->|H]; [left | right; exact (IH H)].
Qed.

Lemma list_remove_last (l : list Z) (a : Z) : a ∉ l -> list_remove (l ++ [a]) a = l.
Proof.
  induction l as [|y l IH]; intros Hnin.
  - cbn. rewrite bool_decide_eq_true_2 by reflexivity. reflexivity.
  - apply not_elem_of_cons in Hnin as [Hne Hnin]. cbn [app list_remove].
    rewrite bool_decide_eq_false_2 by congruence. rewrite IH by exact Hnin. reflexivity.
Qed.

Lemma palloc_get_user_fresh (flags : Z) (s s' : state) (p : Z) :
  frame_table_ok s ->
  palloc_get_page (Z.lor PAL_USER flags) s = Ret p s' ->
  frame_table_ok s' /\ (p <> NULL -> frame_hash (ft s') !! p = None).
Proof.
  intros [Hhash Hring] Hget. unfold palloc_get_page in Hget.
  assert (Huser : Z.testbit (Z.lor PAL_USER flags) 2 = true).
  { rewrite Z.lor_spec. reflexivity. }
  rewrite Huser in Hget.
  destruct (bitmap_scan (used_map (user_pool s)) 0 1 false) as [i|] eqn:Hscan.
  2:{ destruct (Z.testbit (Z.lor PAL_USER flags) 0); [discriminate|].
      injection Hget as <- <-. split; [split; assumption|]. intros H. contradiction. }
  destruct (bitmap_scan_some _ _ _ Hscan) as [Hi Hfree].
  assert (Hgoal : forall m,
            frame_table_ok
              (set_mem m (set_user_pool (with_used (<[i := true]> (used_map (user_pool s)))
                                           (user_pool s)) s))
            /\ frame_hash (ft s) !! (pool_base (user_pool s) + PGSIZE * Z.of_nat i) = None).
  { intros m. split; [split|].
    - intros k a Hk. destruct (Hhash k a Hk) as (j & -> & Hj).
      exists j. split; [reflexivity|].
      cbn [user_pool set_mem set_user_pool used_map with_used].
      destruct (decide (i = j)) as [->|Hne].
      + apply list_lookup_insert_eq. exact Hi.
      + rewrite list_lookup_insert_ne by exact Hne. exact Hj.
    - exact Hring.
    - destruct (frame_hash (ft s) !! (pool_base (user_pool s) + PGSIZE * Z.of_nat i))
        as [a|] eqn:Hk; [|reflexivity].
      destruct (Hhash _ a Hk) as (j & Heq & Hj).
      assert (i = j) by (unfold PGSIZE in Heq; lia). subst j. congruence. }
  destruct (Z.testbit (Z.lor PAL_USER flags) 1); injection Hget as <- <-.
  - destruct (Hgoal (mem_write (mem (set_user_pool
                (with_used (<[i := true]> (used_map (user_pool s))) (user_pool s)) s))
                (pool_base (user_pool s) + PGSIZE * Z.of_nat i) zero_page)) as [Ht Hf].
    split; [exact Ht | intros _; exact Hf].
  - destruct s. destruct (Hgoal mem0) as [Ht Hf]. split; [exact Ht | intros _; exact Hf].
Qed.

Lemma vm_frame_do_free_ok (k : Z) (s s' : state) :
  pools_ok s -> frame_table_ok s ->
  vm_frame_do_free k true s = Ret tt s' ->
  frame_table_ok s'.
Proof.
  intros (Hal & Hbase & Habove) [Hhash Hring] Hrun. unfold vm_frame_do_free in Hrun.
  unfold bind, lock_held_by_current_thread, ASSERT, get, modify, free in Hrun.
  destruct (bool_decide _); [|discriminate].
  destruct (is_kernel_vaddr k); [|discriminate].
  destruct (Z.eqb_spec (pg_ofs k) 0) as [Hk0|]; [|discriminate].
  destruct (frame_hash (ft s) !! k) as [a0|] eqn:Hfound; [|discriminate].
  unfold palloc_free_page in Hrun. rewrite Hk0 in Hrun. cbn [Z.eqb negb] in Hrun.
  cbn [kernel_pool user_pool set_ft] in Hrun.
  assert (Hrest : forall k' a, delete k (frame_hash (ft s)) !! k' = Some a ->
                               k' <> k /\ user_page_in_use k' s).
  { intros k' a Hk'. destruct (decide (k = k')) as [->|Hne].
    - rewrite lookup_delete_eq in Hk'. discriminate.
    - rewrite lookup_delete_ne in Hk' by exact Hne. split; [congruence|].
      exact (Hhash k' a Hk'). }
  destruct (k =? NULL).
  { injection Hrun as <-. split.
    - intros k' a Hk'. cbn in Hk'. destruct (Hrest k' a Hk') as [_ Hin]. exact Hin.
    - intros a Ha. cbn in Ha. apply list_remove_subset in Ha. exact (Hring a Ha). }
  destruct (page_from_pool (kernel_pool s) k).
  { destruct (used_map (kernel_pool s) !! _) as [[]|]; try discriminate.
    injection Hrun as <-. split.
    - intros k' a Hk'. cbn in Hk'. destruct (Hrest k' a Hk') as [_ Hin]. exact Hin.
    - intros a Ha. cbn in Ha. apply list_remove_subset in Ha. exact (Hring a Ha). }
  destruct (page_from_pool (user_pool s) k) eqn:Hfrom; [|discriminate].
  destruct (used_map (user_pool s) !! _) as [[]|] eqn:Hbit; try discriminate.
  injection Hrun as <-. split.
  - intros k' a Hk'. cbn in Hk'. destruct (Hrest k' a Hk') as [Hne (j & -> & Hj)].
    exists j. split; [reflexivity|]. cbn.
    rewrite list_lookup_insert_ne; [exact Hj|].
    intros Heq. apply Hne.
    unfold page_from_pool in Hfrom. apply andb_prop in Hfrom as [Hlo _].
    apply Z.leb_le in Hlo.
    rewrite pg_ofs_mod in Hk0, Hal. rewrite !pg_no_div in *.
    pose proof (Z.div_mod k PGSIZE ltac:(discriminate)) as Hk.
    pose proof (Z.div_mod (pool_base (user_pool s)) PGSIZE ltac:(discriminate)) as Hb.
    unfold PGSIZE in *. lia.
  - intros a Ha. cbn in Ha. apply list_remove_subset in Ha. exact (Hring a Ha).
Qed.

(** What victim selection and write-back leave alone before the victim's
    frame is released. *)
Definition table_view (s : state) : gmap Z Z * list Z * pool * Z * Z * nat :=
  (frame_hash (ft s), frame_list (ft s), user_pool s, next_addr s,
   pool_base (kernel_pool s), length (used_map (kernel_pool s))).

Lemma table_view_ok (s s' : state) :
  table_view s' = table_view s ->
  pools_ok s -> frame_table_ok s -> pools_ok s' /\ frame_table_ok s'.
Proof.
  unfold table_view, pools_ok, frame_table_ok, user_page_in_use.
  intros H. injection H as -> -> -> -> -> ->. intros H1 H2. split; assumption.
Qed.

(** Peel the first step off a run, recording that it preserves
    [table_view]. *)
Ltac peel H Hacc :=
  let Hm := fresh "Hm" in let Hm' := fresh "Hm" in
  apply bind_inv in H as (? & ? & Hm & H);
  match type of Hm with
  | ?m _ = Ret _ _ =>
      let Hp := fresh "Hp" in
      assert (Hp : preserves table_view m) by pres;
      apply Hp in Hm; clear Hp;
      pose proof (eq_trans Hm Hacc) as Hm'; clear Hm Hacc; rename Hm' into Hacc
  end.

Lemma evict_and_retry_fresh (flags : Z) (s s' : state) (fp : Z) :
  pools_ok s -> frame_table_ok s ->
  evict_and_retry flags s = Ret fp s' ->
  frame_table_ok s' /\ frame_hash (ft s') !! fp = None.
Proof.
  intros Hpools Htable H. unfold evict_and_retry in H.
  assert (Hacc : table_view s = table_view s) by reflexivity.
  do 13 (peel H Hacc).
  destruct (table_view_ok _ _ Hacc Hpools Htable) as [Hpools1 Htable1].
  apply bind_inv in H as ([] & s2 & Hfree & H).
  pose proof (vm_frame_do_free_ok _ _ _ Hpools1 Htable1 Hfree) as Htable2.
  apply bind_inv in H as (p & s3 & Hget & H).
  unfold bind, ASSERT, ret in H.
  destruct (Z.eqb_spec p NULL) as [|Hnn]; [discriminate|].
  cbn in H. injection H as <- <-.
  destruct (palloc_get_user_fresh flags _ _ _ Htable2 Hget) as [Ht Hf].
  split; [exact Ht | exact (Hf Hnn)].
Qed.

(** On a well-formed frame table the frame [vm_frame_alloc] returns is
    keyed to the new entry, and the entry is new to the ring. *)
Lemma vm_frame_alloc_fresh (flags up : Z) (s s' : state) (kp : Z) :
  pools_ok s -> frame_table_ok s ->
  vm_frame_alloc flags up s = Ret kp s' ->
  kp <> NULL ->
  frame_hash (ft s') !! kp = Some (next_addr s)
  /\ exists before, frame_list (ft s') = before ++ [next_addr s]
                    /\ next_addr s ∉ before.
Proof.
  intros Hpools Htable H Hkp. unfold vm_frame_alloc in H.
  apply bind_inv in H as ([] & s0 & Hlock & H).
  apply bind_inv in H as (first & s1 & Hget & H).
  apply bind_inv in H as (fp & s2 & Hobt & H).
  apply bind_inv in H as (frame & s3 & Hmalloc & H).
  assert (Hv0 : table_view s0 = table_view s).
  { assert (Hp : preserves table_view (lock_acquire frame_lock_of put_frame_lock)) by pres.
    exact (Hp _ _ _ Hlock). }
  destruct (table_view_ok _ _ Hv0 Hpools Htable) as [Hpools0 Htable0].
  assert (Hnext1 : next_addr s1 = next_addr s0).
  { destruct (palloc_get_user flags _ _ _ Hget) as (Hsched & _).
    unfold sched_view in Hsched. congruence. }
  assert (Hpools1 : pools_ok s1).
  { apply (pools_ok_geometry s0); [|exact Hpools0].
    assert (Hp : preserves pool_geometry (palloc_get_page (Z.lor PAL_USER flags)))
      by geometry_leaf.
    exact (Hp _ _ _ Hget). }
  assert (Hfresh : frame_table_ok s2 /\ frame_hash (ft s2) !! fp = None
                   /\ next_addr s2 = next_addr s).
  { assert (Hn0 : next_addr s0 = next_addr s).
    { unfold table_view in Hv0. congruence. }
    destruct (palloc_get_user_fresh flags _ _ _ Htable0 Hget) as [Htable1 Hf1].
    destruct (Z.eqb_spec first NULL) as [Hz|Hnz].
    - destruct (evict_and_retry_fresh flags _ _ _ Hpools1 Htable1 Hobt) as [Ht Hf].
      split; [exact Ht|]. split; [exact Hf|].
      pose proof (evict_and_retry_sched flags _ _ _ Hobt) as Hs.
      unfold sched_view in Hs. congruence.
    - injection Hobt as <- <-.
      split; [exact Htable1|]. split; [exact (Hf1 Hnz) | congruence]. }
  destruct Hfresh as (Htable2 & Hnone & Hnext2).
  unfold malloc in Hmalloc.
  destruct (kheap_avail s2) as [|n]; injection Hmalloc as <- <-.
  - unfold bind, lock_release, ret in H.
    destruct (bool_decide _); [|discriminate]. injection H as <- _. contradiction.
  - unfold bind, thread_current, modify, lock_release, ret, frame_lock_of in H.
    cbn [ft set_ft set_kheap with_frame_lock with_frame_list with_frame_hash with_ft_heap
         frame_lock frame_hash frame_list ft_heap current put_frame_lock] in H.
    rewrite Hnone in H.
    cbn [ft set_ft set_kheap with_frame_lock with_frame_list with_frame_hash with_ft_heap
         frame_lock frame_hash frame_list ft_heap current put_frame_lock] in H.
    destruct (bool_decide _); [|discriminate]. injection H as <- <-.
    cbn [ft set_ft set_kheap with_frame_lock with_frame_list with_frame_hash with_ft_heap
         frame_lock frame_hash frame_list ft_heap current put_frame_lock].
    rewrite Hnext2. split; [apply lookup_insert_eq|].
    exists (frame_list (ft s2)). split; [reflexivity|].
    intros Hin. destruct Htable2 as [_ Hring]. specialize (Hring _ Hin). lia.
Qed.

(** C9.  Whenever [vm_frame_alloc] returns a frame (not [NULL]), the
    frame table has a new entry, at the address the allocator just handed
    out and at the back of the ring, whose [kpage] is the returned frame,
    whose [upage] is the argument, whose owner is the running thread and
    which is pinned; the frame is keyed in the hash, and on a well-formed
    frame table it is keyed to this very entry.  When it returns [NULL],
    the kernel heap had no block left for the entry. *)
Theorem vm_frame_alloc_spec :
  forall (s s' : state) (flags up kp : Z),
    vm_frame_alloc flags up s = Ret kp s' ->
    (kp <> NULL ->
       last (frame_list (ft s')) = Some (next_addr s)
       /\ ft_heap (ft s') !! next_addr s
          = Some {| kpage := kp; upage := up; t := current s; is_pinned := true |}
       /\ is_Some (frame_hash (ft s') !! kp)
       /\ next_addr s' = next_addr s + 1
       /\ (pools_ok s -> frame_table_ok s ->
           frame_hash (ft s') !! kp = Some (next_addr s)
           /\ next_addr s ∉ frame_list (ft s)))
    /\ (kp = NULL -> kheap_avail s' = 0%nat /\ malloc s' = Ret None s').
Proof.
  intros s s' flags up kp Hrun.
  destruct (vm_frame_alloc_post flags up s s' kp Hrun)
    as (_ & _ & _ & [[Hz Hheap]|(Hnn & _ & [before Hlist] & Hentry & Hhash & Hnext)]).
  - split; [intros Hnn; contradiction|].
    intros _. split; [exact Hheap|]. unfold malloc. rewrite Hheap. reflexivity.
  - split; [|intros Hz; contradiction].
    intros _. split; [rewrite Hlist; apply last_snoc|].
    split; [exact Hentry|]. split; [exact Hhash|]. split; [exact Hnext|].
    intros Hpools Htable.
    destruct (vm_frame_alloc_fresh _ _ _ _ _ Hpools Htable Hrun Hnn) as [Hkey _].
    split; [exact Hkey|].
    intros Hin. destruct Htable as [_ Hring]. specialize (Hring _ Hin). lia.
Qed.

(** A frame was found by evicting thread 2's page
    ([foreign_frame_state]); a frame was free at boot; and a kernel heap
    without a free block. *)
Definition heap_exhausted_state : state := set_kheap 0 1000 (boot 4 1 2).

Lemma vm_frame_alloc_spec_witness :
  (let s := foreign_frame_state in
   let s' := exec (vm_frame_alloc PAL_USER (UPAGE0 + PGSIZE)) s in
   last (frame_list (ft s')) = Some (next_addr s)
   /\ ft_heap (ft s') !! next_addr s
      = Some {| kpage := KPAGE0; upage := UPAGE0 + PGSIZE; t := current s;
                is_pinned := true |}
   /\ is_Some (frame_hash (ft s') !! KPAGE0)
   /\ next_addr s' = next_addr s + 1)
  /\ (let s := boot 4 2 2 in
      let s' := exec (vm_frame_alloc PAL_USER UPAGE0) s in
      frame_hash (ft s') !! KPAGE0 = Some (next_addr s))
  /\ (let s := heap_exhausted_state in
      let s' := exec (vm_frame_alloc PAL_USER UPAGE0) s in
      kheap_avail s' = 0%nat /\ malloc s' = Ret None s').
Proof.
  cbv zeta. split; [|split].
  - destruct (proj1 (vm_frame_alloc_spec foreign_frame_state
                       (exec (vm_frame_alloc PAL_USER (UPAGE0 + PGSIZE)) foreign_frame_state)
                       PAL_USER (UPAGE0 + PGSIZE) KPAGE0
                       ltac:(apply run_returns; vm_compute; reflexivity)))
      as (Hlast & Hentry & Hhash & Hnext & _).
    + discriminate.
    + exact (conj Hlast (conj Hentry (conj Hhash Hnext))).
  - destruct (proj1 (vm_frame_alloc_spec (boot 4 2 2)
                       (exec (vm_frame_alloc PAL_USER UPAGE0) (boot 4 2 2))
                       PAL_USER UPAGE0 KPAGE0
                       ltac:(apply run_returns; vm_compute; reflexivity)))
      as (_ & _ & _ & _ & Hwf).
    + discriminate.
    + apply Hwf.
      * split; [vm_compute; reflexivity|].
        split; apply Z.leb_le; vm_compute; reflexivity.
      * apply boot_frame_table_ok; reflexivity.
  - refine (proj2 (vm_frame_alloc_spec heap_exhausted_state _ PAL_USER UPAGE0 NULL _) _).
    + apply run_returns. vm_compute. reflexivity.
    + reflexivity.
Defined.

(** [kp] is a page of the user pool that is free. *)
Definition user_page_free (kp : Z) (s : state) : Prop :=
  exists i : nat,
    kp = pool_base (user_pool s) + PGSIZE * Z.of_nat i
    /\ used_map (user_pool s) !! i = Some false.

(** Releasing the frame whose entry is the last of the ring. *)
Lemma vm_frame_free_last (kp a : Z) (before : list Z) (s : state) :
  pools_ok s ->
  frame_lock (ft s) = None ->
  frame_hash (ft s) !! kp = Some a ->
  frame_list (ft s) = before ++ [a] ->
  a ∉ before ->
  user_page_in_use kp s ->
  exists s',
    vm_frame_free kp s = Ret tt s'
    /\ frame_hash (ft s') !! kp = None
    /\ frame_list (ft s') = before
    /\ ft_heap (ft s') !! a = None
    /\ user_page_free kp s'
    /\ frame_lock (ft s') = None.
Proof.
  intros (Hal & Hbase & Habove) Hlock Hhash Hlist Hnin (i & Hkp & Hbit).
  pose proof (lookup_lt_Some _ _ _ Hbit) as Hlt.
  rewrite pg_ofs_mod in Hal.
  assert (Hofs : pg_ofs kp = 0).
  { rewrite pg_ofs_mod, Hkp, Z.mul_comm, Z_mod_plus_full. exact Hal. }
  assert (Hno : pg_no kp = pg_no (pool_base (user_pool s)) + Z.of_nat i).
  { rewrite Hkp, !pg_no_div, Z.mul_comm. apply Z_div_plus_full. unfold PGSIZE. lia. }
  assert (Hkern : is_kernel_vaddr kp = true).
  { unfold is_kernel_vaddr. apply Z.leb_le. unfold PGSIZE in Hkp. lia. }
  assert (Hnn : (kp =? NULL) = false).
  { apply Z.eqb_neq. unfold NULL, PHYS_BASE, PGSIZE in *. lia. }
  assert (Hnk : page_from_pool (kernel_pool s) kp = false).
  { unfold page_from_pool. apply andb_false_iff. right. apply Z.ltb_ge. lia. }
  assert (Hu : page_from_pool (user_pool s) kp = true).
  { unfold page_from_pool. apply andb_true_iff. split; [apply Z.leb_le | apply Z.ltb_lt]; lia. }
  assert (Hidx : Z.to_nat (pg_no kp - pg_no (pool_base (user_pool s))) = i) by lia.
  eexists. split.
  { unfold vm_frame_free.
    eapply bind_intro.
    { unfold lock_acquire, frame_lock_of. rewrite Hlock. reflexivity. }
    eapply bind_intro.
    { unfold vm_frame_do_free.
      eapply bind_intro.
      { unfold lock_held_by_current_thread, frame_lock_of. cbn.
        rewrite bool_decide_eq_true_2 by reflexivity. reflexivity. }
      eapply bind_intro; [reflexivity|].
      eapply bind_intro; [unfold ASSERT; rewrite Hkern; reflexivity|].
      eapply bind_intro; [unfold ASSERT; rewrite Hofs; reflexivity|].
      eapply bind_intro; [reflexivity|].
      cbn [ft put_frame_lock set_ft with_frame_lock frame_hash]. rewrite Hhash.
      eapply bind_intro; [reflexivity|].
      eapply bind_intro.
      { unfold palloc_free_page. rewrite Hofs, Hnn. cbn [Z.eqb negb].
        cbn [kernel_pool user_pool set_ft put_frame_lock].
        rewrite Hnk, Hu, Hidx, Hbit. reflexivity. }
      eapply bind_intro; [reflexivity|]. reflexivity. }
    unfold lock_release, frame_lock_of. cbn.
    rewrite bool_decide_eq_true_2 by reflexivity. reflexivity. }
  cbn [ft put_frame_lock set_ft set_user_pool set_kheap with_frame_lock with_frame_hash
       with_frame_list with_ft_heap frame_hash frame_list ft_heap frame_lock user_pool].
  split; [apply lookup_delete_eq|].
  split; [rewrite Hlist; apply list_remove_last; exact Hnin|].
  split; [apply lookup_delete_eq|].
  split; [|reflexivity].
  exists i. split; [exact Hkp|]. cbn. apply list_lookup_insert_eq. exact Hlt.
Qed.

(** Steps 6 to 8 of the resolver, as [vm_load_page] performs them once
    the frame is populated. *)
Definition install_mapping (supt pd up frame_page : Z) (wr : bool) : M bool :=
  do ok <- pagedir_set_page pd up frame_page wr;
  if negb ok then
    run vm_frame_free frame_page;
    ret false
  else
    do again <- vm_supt_find supt up;
    do spte <- deref again;
    run spte_store supt up (with_frame frame_page spte);
    run pagedir_set_dirty pd frame_page false;
    run vm_frame_unpin frame_page;
    ret true.

(** The [switch] of [vm_load_page] is: populate, give the frame back on a
    short read, otherwise install the mapping. *)
Lemma vm_load_page_tail (supt pd up kp : Z) (spte : supplemental_page_table_entry)
    (s1 : state) :
  match status spte with
  | ALL_ZEROS => run memset kp x00 PGSIZE; install_mapping supt pd up kp true
  | ON_FRAME => install_mapping supt pd up kp true
  | ON_SWAP => run vm_swap_in (swap_index spte) kp; install_mapping supt pd up kp true
  | FROM_FILESYS =>
      do ok <- vm_load_page_from_filesys spte kp;
      if negb ok then
        run vm_frame_free kp;
        ret false
      else install_mapping supt pd up kp (writable spte)
  end s1
  = (do ok <- fill_frame spte kp;
     if negb ok then
       run vm_frame_free kp;
       ret false
     else install_mapping supt pd up kp (write_permission spte)) s1.
Proof.
  unfold fill_frame, write_permission. destruct (status spte).
  - unfold bind. destruct (memset kp x00 PGSIZE s1); reflexivity.
  - reflexivity.
  - unfold bind. destruct (vm_swap_in (swap_index spte) kp s1); reflexivity.
  - reflexivity.
Qed.

(** C3.  [vm_load_page] on a page without entry returns false and leaves
    the state alone (no frame is allocated).  On a well-formed frame
    table, when the frame allocation has yielded [kp] and then either the
    file read comes back with a byte count other than [read_bytes] or the
    installation of the hardware mapping fails, [vm_load_page] returns
    false after having reclaimed the frame: its entry is gone from the
    hash, from the ring and from the heap, the page [kp] is free in the
    user pool again, and the frame lock is released. *)
Theorem vm_load_page_failures :
  forall (s : state) (supt pd up : Z) (tbl : gmap Z supplemental_page_table_entry),
    supts s !! supt = Some tbl ->
    (tbl !! up = None -> vm_load_page supt pd up s = Ret false s)
    /\ (forall (e0 spte : supplemental_page_table_entry) (kp : Z) (s1 s2 : state)
               (tbl1 : gmap Z supplemental_page_table_entry),
          tbl !! up = Some e0 -> status e0 <> ON_FRAME ->
          pools_ok s -> frame_table_ok s ->
          vm_frame_alloc PAL_USER up s = Ret kp s1 -> kp <> NULL ->
          supts s1 !! supt = Some tbl1 -> tbl1 !! up = Some spte ->
          ((status spte = FROM_FILESYS
            /\ (exists sa n,
                  file_seek (spte_file spte) (file_offset spte) s1 = Ret tt sa
                  /\ file_read (spte_file spte) kp (read_bytes spte) sa = Ret n s2
                  /\ n <> read_bytes spte))
           \/ (exists sm,
                 fill_frame spte kp s1 = Ret true sm
                 /\ pagedir_set_page pd up kp (write_permission spte) sm = Ret false s2)) ->
          exists s',
            vm_load_page supt pd up s = Ret false s'
            /\ frame_hash (ft s') !! kp = None
            /\ frame_list (ft s1) = (frame_list (ft s') ++ [next_addr s])
            /\ (next_addr s ∉ frame_list (ft s'))
            /\ ft_heap (ft s') !! next_addr s = None
            /\ user_page_free kp s'
            /\ frame_lock (ft s') = None).
Proof.
  intros s supt pd up tbl Htbl. split.
  - intros Hnone. unfold vm_load_page.
    eapply bind_intro; [apply (vm_supt_find_eq s supt up tbl Htbl)|].
    rewrite Hnone. reflexivity.
  - intros e0 spte kp s1 s2 tbl1 He0 Hst Hpools Htable Halloc Hkp Htbl1 Hspte Hfail.
    destruct (vm_frame_alloc_post _ _ _ _ _ Halloc)
      as (_ & _ & Hlock1 & [[Hz _]|(_ & Hin1 & _)]); [contradiction|].
    destruct (vm_frame_alloc_fresh _ _ _ _ _ Hpools Htable Halloc Hkp)
      as (Hhash1 & before & Hlist1 & Hnin).
    pose proof (pools_ok_geometry _ _ (vm_frame_alloc_geometry _ _ _ _ _ Halloc) Hpools)
      as Hpools1.
    (* the state in which the frame is given back *)
    assert (Hs2 : frame_view s2 = frame_view s1 /\ pool_geometry s2 = pool_geometry s1
                  /\ (fill_frame spte kp s1 = Ret false s2
                      \/ exists sm,
                           fill_frame spte kp s1 = Ret true sm
                           /\ pagedir_set_page pd up kp (write_permission spte) sm
                              = Ret false s2)).
    { destruct Hfail as [[Hfs (sa & n & Hseek & Hread & Hshort)]|(sm & Hfill & Hmap)].
      - assert (Hfill : fill_frame spte kp s1 = Ret false s2).
        { unfold fill_frame. rewrite Hfs. unfold vm_load_page_from_filesys.
          eapply bind_intro; [exact Hseek|].
          eapply bind_intro; [exact Hread|].
          destruct (Z.eqb_spec n (read_bytes spte)) as [|_]; [contradiction|].
          reflexivity. }
        split; [exact (fill_frame_view _ _ _ _ _ Hfill)|].
        split; [exact (fill_frame_geometry _ _ _ _ _ Hfill)|].
        left. exact Hfill.
      - split; [rewrite (pagedir_set_page_view _ _ _ _ _ _ _ Hmap);
                exact (fill_frame_view _ _ _ _ _ Hfill)|].
        split; [rewrite (pagedir_set_page_geometry _ _ _ _ _ _ _ Hmap);
                exact (fill_frame_geometry _ _ _ _ _ Hfill)|].
        right. exists sm. split; assumption. }
    destruct Hs2 as (Hview & Hgeo & Hpath).
    unfold frame_view in Hview. injection Hview as Hft Hpool Hcur.
    destruct (vm_frame_free_last kp (next_addr s) before s2)
      as (s' & Hfree & Hh & Hl & Hheap & Hpage & Hlk).
    { exact (pools_ok_geometry _ _ Hgeo Hpools1). }
    { rewrite Hft. exact Hlock1. }
    { rewrite Hft. exact Hhash1. }
    { rewrite Hft. exact Hlist1. }
    { exact Hnin. }
    { unfold user_page_in_use. rewrite Hpool. exact Hin1. }
    exists s'. split.
    2:{ split; [exact Hh|]. split; [rewrite Hl; exact Hlist1|].
        split; [rewrite Hl; exact Hnin|]. split; [exact Hheap|].
        split; [exact Hpage | exact Hlk]. }
    unfold vm_load_page.
    eapply bind_intro; [apply (vm_supt_find_eq s supt up tbl Htbl)|].
    rewrite He0. cbv beta iota.
    rewrite bool_decide_eq_false_2 by exact Hst.
    eapply bind_intro; [exact Halloc|].
    destruct (Z.eqb_spec kp NULL) as [|_]; [contradiction|].
    eapply bind_intro; [apply (vm_supt_find_eq s1 supt up tbl1 Htbl1)|].
    rewrite Hspte.
    eapply bind_intro; [reflexivity|].
    cbv zeta.
    assert (Hgive : (run vm_frame_free kp; ret false) s2 = Ret false s').
    { eapply bind_intro; [exact Hfree | reflexivity]. }
    refine (eq_trans (vm_load_page_tail supt pd up kp spte s1) _).
    destruct Hpath as [Hfill|(sm & Hfill & Hmap)].
    + eapply bind_intro; [exact Hfill|]. exact Hgive.
    + eapply bind_intro; [exact Hfill|]. cbn [negb]. unfold install_mapping.
      eapply bind_intro; [exact Hmap|]. exact Hgive.
Qed.

(** A page backed by the empty file of descriptor 4, of which ten bytes
    are expected; and a zero page on a machine whose kernel pool has no
    page left for a page table. *)
Definition short_read_state : state :=
  exec (vm_supt_install_filesys no_spte 20 UPAGE0 501 0 10 (PGSIZE - 10) true)
       (open_files 2).

Definition no_table_state : state :=
  exec (vm_supt_install_zeropage no_spte 20 UPAGE0) (boot 4 2 0).

Definition short_read_alloc : state :=
  exec (vm_frame_alloc PAL_USER UPAGE0) short_read_state.
Definition short_read_end : state :=
  exec (file_read 501 KPAGE0 10) (exec (file_seek 501 0) short_read_alloc).

Definition no_table_alloc : state :=
  exec (vm_frame_alloc PAL_USER UPAGE0) no_table_state.
Definition no_table_filled : state := exec (memset KPAGE0 x00 PGSIZE) no_table_alloc.
Definition no_table_end : state :=
  exec (pagedir_set_page 10 UPAGE0 KPAGE0 true) no_table_filled.

Lemma vm_load_page_failures_witness :
  (exists s', vm_load_page 20 10 UPAGE0 short_read_state = Ret false s'
              /\ frame_hash (ft s') !! KPAGE0 = None
              /\ user_page_free KPAGE0 s')
  /\ (exists s', vm_load_page 20 10 UPAGE0 no_table_state = Ret false s'
                 /\ frame_hash (ft s') !! KPAGE0 = None
                 /\ user_page_free KPAGE0 s').
Proof.
  split.
  - edestruct (proj2 (vm_load_page_failures short_read_state 20 10 UPAGE0 _
                        ltac:(vm_compute; reflexivity)))
      with (kp := KPAGE0) (s1 := short_read_alloc) (s2 := short_read_end)
      as (s' & Hrun & Hhash & _ & _ & _ & Hfree & _).
    + vm_compute. reflexivity.
    + cbn. discriminate.
    + split; [vm_compute; reflexivity|].
      split; apply Z.leb_le; vm_compute; reflexivity.
    + apply boot_frame_table_ok; vm_compute; reflexivity.
    + apply run_returns. vm_compute. reflexivity.
    + discriminate.
    + vm_compute. reflexivity.
    + vm_compute. reflexivity.
    + left. split; [reflexivity|]. exists (exec (file_seek 501 0) short_read_alloc), 0.
      split; [apply run_returns; vm_compute; reflexivity|].
      split; [apply run_returns; vm_compute; reflexivity|].
      cbn. discriminate.
    + exists s'. split; [exact Hrun|]. split; [exact Hhash | exact Hfree].
  - edestruct (proj2 (vm_load_page_failures no_table_state 20 10 UPAGE0 _
                        ltac:(vm_compute; reflexivity)))
      with (kp := KPAGE0) (s1 := no_table_alloc) (s2 := no_table_end)
      as (s' & Hrun & Hhash & _ & _ & _ & Hfree & _).
    + vm_compute. reflexivity.
    + cbn. discriminate.
    + split; [vm_compute; reflexivity|].
      split; apply Z.leb_le; vm_compute; reflexivity.
    + apply boot_frame_table_ok; vm_compute; reflexivity.
    + apply run_returns. vm_compute. reflexivity.
    + discriminate.
    + vm_compute. reflexivity.
    + vm_compute. reflexivity.
    + right. exists no_table_filled.
      split; [apply run_returns; vm_compute; reflexivity|].
      apply run_returns. vm_compute. reflexivity.
    + exists s'. split; [exact Hrun|]. split; [exact Hhash | exact Hfree].
Defined.


(** * Further properties *)

(** ** Swap store: round trip, refusals, capacity *)

Lemma mem_read_length (m : gmap Z byte) (n : nat) : forall a : Z,
  length (mem_read m a n) = n.
Proof.
  induction n as [|n IH]; intros a; [reflexivity|].
  rewrite mem_read_S. cbn [length]. rewrite IH. reflexivity.
Qed.

(** The state [vm_swap_out] leaves when it takes slot [i]. *)
Definition swapped_out (i : nat) (page : Z) (dev : block) (bm : list bool) (s : state)
  : state :=
  let s1 :=
    set_trace (trace s ++ map (write_event (mem s) page (Z.of_nat i * SECTORS_PER_PAGE))
                              (seqZ' SECTORS_PER_PAGE))
      (set_swap
         (with_block
            {| block_size := block_size dev;
               block_data := written (mem s) page (Z.of_nat i * SECTORS_PER_PAGE)
                               (seqZ' SECTORS_PER_PAGE) (block_data dev) |}
            (swap s)) s) in
  set_swap (with_available (<[i := false]> bm) (swap s1)) s1.

Lemma vm_swap_out_free (s : state) (page : Z) (dev : block) (bm : list bool) (i : nat) :
  swap_block (swap s) = Some dev ->
  swap_available (swap s) = Some bm ->
  PHYS_BASE <= page ->
  block_size dev < WORD ->
  Z.of_nat (length bm) * SECTORS_PER_PAGE <= block_size dev ->
  lowest_free bm i ->
  vm_swap_out page s = Ret (Z.of_nat i) (swapped_out i page dev bm s).
Proof.
  intros Hdev Hbm Hpage Hsize Hlen Hfree.
  assert (Hpg : (PHYS_BASE <=? page) = true) by (apply Z.leb_le; exact Hpage).
  pose proof (bitmap_scan_lowest bm i Hfree) as Hscan.
  destruct Hfree as [Hi _].
  pose proof (lookup_lt_Some _ _ _ Hi) as Hlt.
  unfold vm_swap_out, bind, ASSERT, get. rewrite Hpg, Hbm, Hscan. simpl scan_result.
  rewrite (swap_out_loop page (Z.of_nat i) _ s dev Hdev).
  - unfold bitmap_set. simpl swap_available. rewrite Hbm.
    destruct (Z.leb_spec 0 (Z.of_nat i)) as [_|]; [|lia].
    destruct (Z.ltb_spec (Z.of_nat i) (Z.of_nat (length bm))) as [_|]; [|lia].
    simpl andb. cbv iota. unfold ret. rewrite Nat2Z.id. reflexivity.
  - intros j Hj. apply seqZ'_range in Hj.
    rewrite SECTORS_PER_PAGE_eq in *. lia.
Qed.

Lemma sector_bytes_written (d : block) (sector : Z) (data : list byte) :
  block_data d !! sector = Some data ->
  length data = Z.to_nat BLOCK_SECTOR_SIZE ->
  sector_bytes d sector = data.
Proof.
  intros Hd Hlen. unfold sector_bytes. rewrite Hd. cbn [default].
  rewrite take_app_length'; [reflexivity | symmetry; exact Hlen].
Qed.

Lemma page_sectors_concat (m : gmap Z byte) (page : Z) (cnt : nat) : forall n0 : nat,
  concat (map (page_sector m page) (map Z.of_nat (seq n0 cnt)))
  = mem_read m (page + BLOCK_SECTOR_SIZE * Z.of_nat n0)
      (Z.to_nat BLOCK_SECTOR_SIZE * cnt).
Proof.
  induction cnt as [|cnt IH]; intros n0.
  - rewrite Nat.mul_0_r. reflexivity.
  - cbn [seq map concat]. rewrite IH.
    replace (Z.to_nat BLOCK_SECTOR_SIZE * S cnt)%nat
      with (Z.to_nat BLOCK_SECTOR_SIZE + Z.to_nat BLOCK_SECTOR_SIZE * cnt)%nat by lia.
    rewrite mem_read_app. unfold page_sector. do 2 f_equal.
    unfold BLOCK_SECTOR_SIZE. lia.
Qed.

(** X1.  A page written out by [vm_swap_out] comes back unchanged: a
    [vm_swap_in] of the index it returned, into any kernel page, fills that
    page with the bytes the first page held, and leaves the slot bitmap as
    it was before the two calls. *)
Theorem swap_round_trip :
  forall (s : state) (page page' : Z) (dev : block) (bm : list bool) (i : nat),
    swap_block (swap s) = Some dev ->
    swap_available (swap s) = Some bm ->
    swap_size (swap s) = Z.of_nat (length bm) ->
    PHYS_BASE <= page -> PHYS_BASE <= page' ->
    block_size dev < WORD ->
    Z.of_nat (length bm) * SECTORS_PER_PAGE <= block_size dev ->
    lowest_free bm i ->
    exists s1 s2,
      vm_swap_out page s = Ret (Z.of_nat i) s1
      /\ vm_swap_in (Z.of_nat i) page' s1 = Ret tt s2
      /\ mem_read (mem s2) page' (Z.to_nat PGSIZE) = mem_read (mem s) page (Z.to_nat PGSIZE)
      /\ swap_available (swap s2) = Some bm.
Proof.
  intros s page page' dev bm i Hdev Hbm Hsz Hpage Hpage' Hsize Hlen Hfree.
  pose proof (vm_swap_out_free s page dev bm i Hdev Hbm Hpage Hsize Hlen Hfree) as Hout.
  destruct Hfree as [Hi _].
  pose proof (lookup_lt_Some _ _ _ Hi) as Hlt.
  set (dev' := {| block_size := block_size dev;
                  block_data := written (mem s) page (Z.of_nat i * SECTORS_PER_PAGE)
                                  (seqZ' SECTORS_PER_PAGE) (block_data dev) |}).
  assert (Hocc : slot_occupied (Z.of_nat i) dev' (<[i := false]> bm)
                   (swapped_out i page dev bm s)).
  { unfold slot_occupied, swapped_out.
    cbn [swap set_swap set_trace swap_block swap_available swap_size with_available
         with_block].
    split; [reflexivity|]. split; [reflexivity|].
    split; [lia|]. split.
    - rewrite Nat2Z.id. apply list_lookup_insert_eq. exact Hlt.
    - cbn [block_size dev']. rewrite SECTORS_PER_PAGE_eq in *. lia. }
  exists (swapped_out i page dev bm s).
  exists (swapped_in (Z.of_nat i) page' dev' (<[i := false]> bm) (swapped_out i page dev bm s)).
  split; [exact Hout|].
  split; [apply vm_swap_in_spec; assumption|].
  split.
  - rewrite swapped_in_page. unfold slot_chunks.
    rewrite (map_ext_in _ (page_sector (mem s) page)).
    + unfold seqZ'. rewrite page_sectors_concat.
      rewrite Z.mul_0_r, Z.add_0_r. f_equal.
    + intros j Hj. apply list_elem_of_In in Hj.
      apply sector_bytes_written.
      * cbn [block_data dev']. apply written_at. exact Hj.
      * apply mem_read_length.
  - unfold swapped_in.
    cbn [swap set_swap set_trace set_mem swap_available with_available].
    rewrite Nat2Z.id, list_insert_insert_eq, list_insert_id by exact Hi. reflexivity.
Qed.

Lemma swap_round_trip_witness :
  exists s1 s2,
    vm_swap_out KPAGE0 (boot 4 2 2) = Ret 0 s1
    /\ vm_swap_in 0 (KPAGE0 + PGSIZE) s1 = Ret tt s2
    /\ mem_read (mem s2) (KPAGE0 + PGSIZE) (Z.to_nat PGSIZE)
       = mem_read (mem (boot 4 2 2)) KPAGE0 (Z.to_nat PGSIZE)
    /\ swap_available (swap s2) = Some [true; true; true; true].
Proof.
  apply (swap_round_trip (boot 4 2 2) KPAGE0 (KPAGE0 + PGSIZE)
           {| block_size := 32; block_data := ∅ |} [true; true; true; true] 0).
  - reflexivity.
  - reflexivity.
  - reflexivity.
  - unfold KPAGE0, PHYS_BASE. lia.
  - unfold KPAGE0, PHYS_BASE, PGSIZE. lia.
  - reflexivity.
  - vm_compute. discriminate.
  - split; [reflexivity | intros j Hj; lia].
Defined.

(** The test both callers make of a slot that is not occupied. *)
Lemma bitmap_test_unoccupied (s : state) (idx : Z) (bm : list bool) :
  swap_available (swap s) = Some bm ->
  0 <= idx < swap_size (swap s) ->
  bm !! Z.to_nat idx <> Some false ->
  forall k : M unit,
    (do free <- bitmap_test idx; if free then panic else k) s = Panic s.
Proof.
  intros Hbm Hidx Hfree k. unfold bind, bitmap_test. rewrite Hbm.
  destruct (bm !! Z.to_nat idx) as [[|]|]; try contradiction;
    destruct (Z.leb_spec 0 idx); try lia; reflexivity.
Qed.

Lemma vm_swap_free_unoccupied (s : state) (idx : Z) (bm : list bool) :
  swap_available (swap s) = Some bm ->
  0 <= idx ->
  (swap_size (swap s) <= idx \/ bm !! Z.to_nat idx <> Some false) ->
  vm_swap_free idx s = Panic s.
Proof.
  intros Hbm Hidx Hwhy. unfold vm_swap_free.
  unfold bind at 1. unfold get. unfold bind at 1. unfold ASSERT.
  destruct (Z.ltb_spec idx (swap_size (swap s))) as [Hin|]; [|reflexivity].
  destruct Hwhy as [|Hfree]; [lia|].
  apply (bitmap_test_unoccupied s idx bm Hbm (conj Hidx Hin) Hfree).
Qed.

Lemma vm_swap_in_unoccupied (s : state) (idx page : Z) (bm : list bool) :
  swap_available (swap s) = Some bm ->
  0 <= idx ->
  (swap_size (swap s) <= idx \/ bm !! Z.to_nat idx <> Some false) ->
  vm_swap_in idx page s = Panic s.
Proof.
  intros Hbm Hidx Hwhy. unfold vm_swap_in.
  unfold bind at 1. unfold ASSERT at 1.
  destruct (PHYS_BASE <=? page); [|reflexivity].
  unfold bind at 1. unfold get. unfold bind at 1. unfold ASSERT.
  destruct (Z.ltb_spec idx (swap_size (swap s))) as [Hin|]; [|reflexivity].
  destruct Hwhy as [|Hfree]; [lia|].
  apply (bitmap_test_unoccupied s idx bm Hbm (conj Hidx Hin) Hfree).
Qed.

(** X2.  [vm_swap_free] and [vm_swap_in] refuse a slot that is beyond the
    store or not occupied: both panic, and nothing has been read, copied
    or marked. *)
Theorem swap_unoccupied_refused :
  forall (s : state) (idx page : Z) (bm : list bool),
    swap_available (swap s) = Some bm ->
    0 <= idx ->
    (swap_size (swap s) <= idx \/ bm !! Z.to_nat idx <> Some false) ->
    vm_swap_free idx s = Panic s /\ vm_swap_in idx page s = Panic s.
Proof.
  intros s idx page bm Hbm Hidx Hwhy. split.
  - exact (vm_swap_free_unoccupied s idx bm Hbm Hidx Hwhy).
  - exact (vm_swap_in_unoccupied s idx page bm Hbm Hidx Hwhy).
Qed.

Lemma swap_unoccupied_refused_witness :
  vm_swap_free 1 (boot 4 2 2) = Panic (boot 4 2 2)
  /\ vm_swap_in 1 KPAGE0 (boot 4 2 2) = Panic (boot 4 2 2).
Proof.
  apply (swap_unoccupied_refused (boot 4 2 2) 1 KPAGE0 [true; true; true; true]).
  - reflexivity.
  - lia.
  - right. cbn. discriminate.
Defined.

(** X3.  Freeing an occupied slot only flips its bit: memory and the
    device are as before.  The slot is then free, so that a second
    [vm_swap_free], or a [vm_swap_in], of the same index panics. *)
Theorem swap_free_once :
  forall (s : state) (idx page : Z) (dev : block) (bm : list bool),
    slot_occupied idx dev bm s ->
    exists s1,
      vm_swap_free idx s = Ret tt s1
      /\ swap_available (swap s1) = Some (<[Z.to_nat idx := true]> bm)
      /\ swap_block (swap s1) = Some dev
      /\ mem s1 = mem s
      /\ vm_swap_free idx s1 = Panic s1
      /\ vm_swap_in idx page s1 = Panic s1.
Proof.
  intros s idx page dev bm Hocc.
  pose proof (vm_swap_free_spec idx dev bm s Hocc) as Hfree.
  destruct Hocc as (Hdev & Hbm & Hidx & Hbit & Hfit).
  pose proof (lookup_lt_Some _ _ _ Hbit) as Hlt.
  eexists. split; [exact Hfree|].
  cbn [swap set_swap swap_available swap_block with_available mem].
  split; [reflexivity|]. split; [exact Hdev|]. split; [reflexivity|].
  set (bm' := <[Z.to_nat idx := true]> bm).
  assert (Hnow : bm' !! Z.to_nat idx <> Some false).
  { subst bm'. rewrite list_lookup_insert_eq by exact Hlt. discriminate. }
  split.
  - apply (vm_swap_free_unoccupied _ idx bm'); [reflexivity | lia | right; exact Hnow].
  - apply (vm_swap_in_unoccupied _ idx page bm'); [reflexivity | lia | right; exact Hnow].
Qed.

Lemma swap_free_once_witness :
  exists s1,
    vm_swap_free 0 full_swap_state = Ret tt s1
    /\ swap_available (swap s1) = Some [true]
    /\ vm_swap_free 0 s1 = Panic s1.
Proof.
  assert (Hdev : exists d, swap_block (swap full_swap_state) = Some d /\ block_size d = 8).
  { eexists. split; [vm_compute; reflexivity | reflexivity]. }
  destruct Hdev as [d [Hd Hd8]].
  destruct (swap_free_once full_swap_state 0 KPAGE0 d [false])
    as (s1 & Hrun & Hbm & _ & _ & Hagain & _).
  - split; [exact Hd|]. split; [vm_compute; reflexivity|].
    split; [vm_compute; split; [discriminate | reflexivity]|].
    split; [reflexivity|]. rewrite Hd8. vm_compute. split; [discriminate | reflexivity].
  - exists s1. split; [exact Hrun|]. split; [exact Hbm | exact Hagain].
Defined.

(** ** Capacity of the swap store *)

Lemma lowest_free_prefix (k m : nat) :
  lowest_free (replicate k false ++ replicate (S m) true) k.
Proof.
  split.
  - rewrite lookup_app_r by (rewrite length_replicate; lia).
    rewrite length_replicate, Nat.sub_diag. reflexivity.
  - intros j Hj. rewrite lookup_app_l by (rewrite length_replicate; lia).
    apply lookup_replicate_2. exact Hj.
Qed.

Lemma insert_prefix (k m : nat) :
  <[k := false]> (replicate k false ++ replicate (S m) true)
  = replicate (S k) false ++ replicate m true.
Proof.
  rewrite insert_app_r_alt by (rewrite length_replicate; lia).
  rewrite length_replicate, Nat.sub_diag.
  change (<[0%nat := false]> (replicate (S m) true)) with (false :: replicate m true).
  rewrite replicate_S_end, <- app_assoc. reflexivity.
Qed.

Lemma vm_swap_out_full (s : state) (page : Z) (dev : block) (bm : list bool) :
  swap_block (swap s) = Some dev ->
  swap_available (swap s) = Some bm ->
  block_size dev < WORD ->
  (forall i, bm !! i <> Some true) ->
  exists s', vm_swap_out page s = Panic s'.
Proof.
  intros Hdev Hbm Hsize Hfull.
  unfold vm_swap_out. unfold bind at 1. unfold ASSERT.
  destruct (PHYS_BASE <=? page); [|eexists; reflexivity].
  unfold bind at 1. unfold get. rewrite Hbm, (bitmap_scan_full bm Hfull).
  cbn [scan_result].
  destruct (swap_out_loop_panics page BITMAP_ERROR bm (seqZ' SECTORS_PER_PAGE) s dev Hdev Hbm)
    as [s' [Hloop _]].
  { exists 7. split; [apply seqZ'_elem; rewrite SECTORS_PER_PAGE_eq; lia|].
    change (u32 (BITMAP_ERROR * SECTORS_PER_PAGE + 7)) with (WORD - 1). lia. }
  exists s'. unfold bind. rewrite Hloop. reflexivity.
Qed.

(** Pages written out one after the other. *)
Definition swap_out_each (pages : list Z) : M unit :=
  for_each pages (fun page => do _ <- vm_swap_out page; ret tt).

Lemma swap_out_each_fills (pages : list Z) :
  forall (s : state) (dev : block) (k m : nat),
    swap_block (swap s) = Some dev ->
    swap_available (swap s) = Some (replicate k false ++ replicate m true) ->
    block_size dev < WORD ->
    Z.of_nat (k + m) * SECTORS_PER_PAGE <= block_size dev ->
    Forall (fun page => PHYS_BASE <= page) pages ->
    ((length pages <= m)%nat ->
       exists s', swap_out_each pages s = Ret tt s'
                  /\ swap_available (swap s')
                     = Some (replicate (k + length pages) false
                             ++ replicate (m - length pages) true))
    /\ ((m < length pages)%nat -> exists s', swap_out_each pages s = Panic s').
Proof.
  induction pages as [|page pages IH]; intros s dev k m Hdev Hbm Hsize Hfit Hpages.
  - split; [|cbn [length]; lia].
    intros _. exists s. split; [reflexivity|].
    cbn [length]. rewrite Nat.add_0_r, Nat.sub_0_r. exact Hbm.
  - apply Forall_cons in Hpages as [Hpage Hpages].
    destruct m as [|m].
    + split; [cbn [length]; lia|]. intros _.
      destruct (vm_swap_out_full s page dev _ Hdev Hbm Hsize) as [s' Hrun].
      { intros i Hi. rewrite app_nil_r in Hi.
        apply lookup_replicate in Hi as [Hi _]. discriminate. }
      exists s'. unfold swap_out_each. cbn [for_each]. unfold bind. rewrite Hrun.
      reflexivity.
    + pose proof (vm_swap_out_free s page dev _ k Hdev Hbm Hpage Hsize) as Hout.
      rewrite length_app, !length_replicate in Hout.
      specialize (Hout Hfit (lowest_free_prefix k m)).
      assert (Hstep : swap_out_each (page :: pages) s
                      = swap_out_each pages
                          (swapped_out k page dev
                             (replicate k false ++ replicate (S m) true) s)).
      { unfold swap_out_each. cbn [for_each]. unfold bind. rewrite Hout. reflexivity. }
      rewrite Hstep.
      edestruct (IH (swapped_out k page dev (replicate k false ++ replicate (S m) true) s))
        with (k := S k) (m := m) as [Hfew Hmany].
      * reflexivity.
      * unfold swapped_out.
        cbn [swap set_swap set_trace swap_available with_available].
        rewrite insert_prefix. reflexivity.
      * exact Hsize.
      * cbn [block_size]. lia.
      * exact Hpages.
      * cbn [length]. split.
        -- intros Hle. destruct Hfew as (s' & Hrun & Hbits); [lia|].
           exists s'. split; [exact Hrun|]. rewrite Hbits.
           replace (S k + length pages)%nat with (k + S (length pages))%nat by lia.
           reflexivity.
        -- intros Hgt. apply Hmany. lia.
Qed.

(** X4.  A store initialised by [vm_swap_init] on a device of [S] sectors
    holds exactly [S / SECTORS_PER_PAGE] pages: that many calls of
    [vm_swap_out] succeed, taking the slots in increasing order, and one
    call more panics.  Without a swap device the initialisation itself
    panics. *)
Theorem swap_capacity :
  forall (s : state) (dev : block) (pages : list Z),
    0 <= block_size dev < WORD ->
    Forall (fun page => PHYS_BASE <= page) pages ->
    let n := Z.to_nat (block_size dev / SECTORS_PER_PAGE) in
    ((length pages <= n)%nat ->
       exists s', (run vm_swap_init (Some dev); swap_out_each pages) s = Ret tt s'
                  /\ swap_available (swap s')
                     = Some (replicate (length pages) false
                             ++ replicate (n - length pages) true))
    /\ ((n < length pages)%nat ->
          exists s', (run vm_swap_init (Some dev); swap_out_each pages) s = Panic s')
    /\ vm_swap_init None s = Panic s.
Proof.
  intros s dev pages Hsize Hpages n.
  assert (Hinit : forall k : M unit,
            (run vm_swap_init (Some dev); k) s
            = k (set_swap {| swap_block := Some dev;
                             swap_available := Some (replicate n true);
                             swap_size := block_size dev / SECTORS_PER_PAGE |} s)).
  { intros k. reflexivity. }
  rewrite !Hinit.
  destruct (swap_out_each_fills pages
              (set_swap {| swap_block := Some dev;
                           swap_available := Some (replicate n true);
                           swap_size := block_size dev / SECTORS_PER_PAGE |} s)
              dev 0%nat n) as [Hfew Hmany].
  - reflexivity.
  - reflexivity.
  - apply Hsize.
  - cbn [Nat.add]. unfold n. rewrite Z2Nat.id by (apply Z.div_pos; [lia | reflexivity]).
    rewrite Z.mul_comm. apply Z.mul_div_le. reflexivity.
  - exact Hpages.
  - split; [exact Hfew|]. split; [exact Hmany | reflexivity].
Qed.

Lemma swap_capacity_witness :
  (exists s', (run vm_swap_init (Some {| block_size := 17; block_data := ∅ |});
               swap_out_each [KPAGE0; KPAGE0 + PGSIZE]) (boot 0 2 2) = Ret tt s'
              /\ swap_available (swap s') = Some [false; false])
  /\ (exists s', (run vm_swap_init (Some {| block_size := 17; block_data := ∅ |});
                  swap_out_each [KPAGE0; KPAGE0 + PGSIZE; KPAGE0]) (boot 0 2 2) = Panic s').
Proof.
  split.
  - refine (proj1 (swap_capacity (boot 0 2 2) {| block_size := 17; block_data := ∅ |}
                     [KPAGE0; KPAGE0 + PGSIZE] _ _) _).
    + cbn. unfold WORD. lia.
    + repeat constructor; unfold KPAGE0, PHYS_BASE, PGSIZE; lia.
    + vm_compute. lia.
  - refine (proj1 (proj2 (swap_capacity (boot 0 2 2) {| block_size := 17; block_data := ∅ |}
                            [KPAGE0; KPAGE0 + PGSIZE; KPAGE0] _ _)) _).
    + cbn. unfold WORD. lia.
    + repeat constructor; unfold KPAGE0, PHYS_BASE, PGSIZE; lia.
    + vm_compute. lia.
Defined.

(** ** Frame table: release, pinning, and what the clock leaves alone *)

(** The state in which [vm_frame_free] ([free_page] set) or
    [vm_frame_remove_entry] leaves the frame [kp], whose entry lives at
    [a] and whose page is number [i] of the user pool. *)
Definition frame_released (kp a : Z) (i : nat) (free_page : bool) (s : state) : state :=
  let s1 := put_frame_lock (Some (current s)) s in
  let s2 := set_ft (with_frame_list (list_remove (frame_list (ft s1)) a)
                      (with_frame_hash (delete kp (frame_hash (ft s1))) (ft s1))) s1 in
  let s3 := if free_page
            then set_user_pool (with_used (<[i := false]> (used_map (user_pool s2)))
                                  (user_pool s2)) s2
            else s2 in
  let s4 := set_ft (with_ft_heap (delete a (ft_heap (ft s3))) (ft s3)) s3 in
  put_frame_lock None (set_kheap (S (kheap_avail s4)) (next_addr s4) s4).

Lemma user_page_facts (kp : Z) (i : nat) (s : state) :
  pools_ok s ->
  kp = pool_base (user_pool s) + PGSIZE * Z.of_nat i ->
  (i < length (used_map (user_pool s)))%nat ->
  pg_ofs kp = 0 /\ is_kernel_vaddr kp = true /\ (kp =? NULL) = false
  /\ page_from_pool (kernel_pool s) kp = false
  /\ page_from_pool (user_pool s) kp = true
  /\ Z.to_nat (pg_no kp - pg_no (pool_base (user_pool s))) = i.
Proof.
  intros (Hal & Hbase & Habove) Hkp Hlt.
  rewrite pg_ofs_mod in Hal.
  assert (Hno : pg_no kp = pg_no (pool_base (user_pool s)) + Z.of_nat i).
  { rewrite Hkp, !pg_no_div, Z.mul_comm. apply Z_div_plus_full. unfold PGSIZE. lia. }
  split; [rewrite pg_ofs_mod, Hkp, Z.mul_comm, Z_mod_plus_full; exact Hal|].
  split; [unfold is_kernel_vaddr; apply Z.leb_le; unfold PGSIZE in Hkp; lia|].
  split; [apply Z.eqb_neq; unfold NULL, PHYS_BASE, PGSIZE in *; lia|].
  split; [unfold page_from_pool; apply andb_false_iff; right; apply Z.ltb_ge; lia|].
  split; [unfold page_from_pool; apply andb_true_iff;
          split; [apply Z.leb_le | apply Z.ltb_lt]; lia|].
  lia.
Qed.

Lemma vm_frame_free_eq (kp a : Z) (i : nat) (s : state) :
  pools_ok s ->
  frame_lock (ft s) = None ->
  frame_hash (ft s) !! kp = Some a ->
  kp = pool_base (user_pool s) + PGSIZE * Z.of_nat i ->
  used_map (user_pool s) !! i = Some true ->
  vm_frame_free kp s = Ret tt (frame_released kp a i true s).
Proof.
  intros Hpools Hlock Hhash Hkp Hbit.
  pose proof (lookup_lt_Some _ _ _ Hbit) as Hlt.
  destruct (user_page_facts kp i s Hpools Hkp Hlt) as (Hofs & Hkern & Hnn & Hnk & Hu & Hidx).
  unfold vm_frame_free.
  eapply bind_intro.
  { unfold lock_acquire, frame_lock_of. rewrite Hlock. reflexivity. }
  eapply bind_intro.
  { unfold vm_frame_do_free.
    eapply bind_intro.
    { unfold lock_held_by_current_thread, frame_lock_of. cbn.
      rewrite bool_decide_eq_true_2 by reflexivity. reflexivity. }
    eapply bind_intro; [reflexivity|].
    eapply bind_intro; [unfold ASSERT; rewrite Hkern; reflexivity|].
    eapply bind_intro; [unfold ASSERT; rewrite Hofs; reflexivity|].
    eapply bind_intro; [reflexivity|].
    cbn [ft put_frame_lock set_ft with_frame_lock frame_hash]. rewrite Hhash.
    eapply bind_intro; [reflexivity|].
    eapply bind_intro.
    { unfold palloc_free_page. rewrite Hofs, Hnn. cbn [Z.eqb negb].
      cbn [kernel_pool user_pool set_ft put_frame_lock].
      rewrite Hnk, Hu, Hidx, Hbit. reflexivity. }
    eapply bind_intro; [reflexivity|]. reflexivity. }
  unfold lock_release, frame_lock_of. cbn.
  rewrite bool_decide_eq_true_2 by reflexivity. reflexivity.
Qed.

Lemma vm_frame_remove_entry_eq (kp a : Z) (s : state) :
  frame_lock (ft s) = None ->
  frame_hash (ft s) !! kp = Some a ->
  is_kernel_vaddr kp = true ->
  pg_ofs kp = 0 ->
  vm_frame_remove_entry kp s = Ret tt (frame_released kp a 0 false s).
Proof.
  intros Hlock Hhash Hkern Hofs.
  unfold vm_frame_remove_entry.
  eapply bind_intro.
  { unfold lock_acquire, frame_lock_of. rewrite Hlock. reflexivity. }
  eapply bind_intro.
  { unfold vm_frame_do_free.
    eapply bind_intro.
    { unfold lock_held_by_current_thread, frame_lock_of. cbn.
      rewrite bool_decide_eq_true_2 by reflexivity. reflexivity. }
    eapply bind_intro; [reflexivity|].
    eapply bind_intro; [unfold ASSERT; rewrite Hkern; reflexivity|].
    eapply bind_intro; [unfold ASSERT; rewrite Hofs; reflexivity|].
    eapply bind_intro; [reflexivity|].
    cbn [ft put_frame_lock set_ft with_frame_lock frame_hash]. rewrite Hhash.
    eapply bind_intro; [reflexivity|].
    eapply bind_intro; [reflexivity|].
    eapply bind_intro; [reflexivity|]. reflexivity. }
  unfold lock_release, frame_lock_of. cbn.
  rewrite bool_decide_eq_true_2 by reflexivity. reflexivity.
Qed.

(** The state [vm_frame_alloc] leaves when page [i] of the user pool is
    free and the heap has a block: no eviction takes place. *)
Definition frame_allocated (flags up : Z) (i : nat) (s : state) : state :=
  let kp := pool_base (user_pool s) + PGSIZE * Z.of_nat i in
  let a := next_addr s in
  let s1 := set_user_pool (with_used (<[i := true]> (used_map (user_pool s))) (user_pool s))
              (put_frame_lock (Some (current s)) s) in
  let s2 := if Z.testbit (Z.lor PAL_USER flags) 1
            then set_mem (mem_write (mem s1) kp zero_page) s1 else s1 in
  let s3 := set_kheap (Nat.pred (kheap_avail s2)) (a + 1) s2 in
  let entry := {| kpage := kp; upage := up; t := current s; is_pinned := true |} in
  put_frame_lock None
    (set_ft (with_frame_list (frame_list (ft s3) ++ [a])
               (with_frame_hash (<[kp := a]> (frame_hash (ft s3)))
                  (with_ft_heap (<[a := entry]> (ft_heap (ft s3))) (ft s3)))) s3).

Lemma vm_frame_alloc_eq (flags up : Z) (i : nat) (s : state) :
  pools_ok s ->
  frame_lock (ft s) = None ->
  bitmap_scan (used_map (user_pool s)) 0 1 false = Some i ->
  frame_hash (ft s) !! (pool_base (user_pool s) + PGSIZE * Z.of_nat i) = None ->
  kheap_avail s <> 0%nat ->
  vm_frame_alloc flags up s
  = Ret (pool_base (user_pool s) + PGSIZE * Z.of_nat i) (frame_allocated flags up i s).
Proof.
  intros Hpools Hlock Hscan Hnone Hheap.
  destruct (bitmap_scan_some _ _ _ Hscan) as [Hlt Hbit].
  destruct (user_page_facts _ i s Hpools eq_refl Hlt) as (_ & _ & Hnn & _).
  assert (Huser : Z.testbit (Z.lor PAL_USER flags) 2 = true).
  { rewrite Z.lor_spec. reflexivity. }
  destruct (kheap_avail s) as [|n] eqn:Hn; [contradiction|].
  unfold vm_frame_alloc, frame_allocated.
  eapply bind_intro.
  { unfold lock_acquire, frame_lock_of. rewrite Hlock. reflexivity. }
  eapply bind_intro.
  { unfold palloc_get_page. rewrite Huser.
    cbn [user_pool put_frame_lock set_ft]. rewrite Hscan. reflexivity. }
  rewrite Hnn.
  eapply bind_intro; [reflexivity|].
  destruct (Z.testbit (Z.lor PAL_USER flags) 1).
  - eapply bind_intro.
    { unfold malloc. cbn [kheap_avail set_mem set_user_pool put_frame_lock set_ft].
      rewrite Hn. reflexivity. }
    unfold bind, thread_current, modify, lock_release, ret, frame_lock_of.
    cbn [ft set_ft set_kheap set_mem set_user_pool with_frame_lock with_frame_list
         with_frame_hash with_ft_heap frame_lock frame_hash frame_list ft_heap current
         put_frame_lock kheap_avail next_addr].
    rewrite Hnone.
    cbn [ft set_ft set_kheap set_mem set_user_pool with_frame_lock with_frame_list
         with_frame_hash with_ft_heap frame_lock frame_hash frame_list ft_heap current
         put_frame_lock].
    rewrite bool_decide_eq_true_2 by reflexivity. rewrite Hn. reflexivity.
  - eapply bind_intro.
    { unfold malloc. cbn [kheap_avail set_mem set_user_pool put_frame_lock set_ft].
      rewrite Hn. reflexivity. }
    unfold bind, thread_current, modify, lock_release, ret, frame_lock_of.
    cbn [ft set_ft set_kheap set_mem set_user_pool with_frame_lock with_frame_list
         with_frame_hash with_ft_heap frame_lock frame_hash frame_list ft_heap current
         put_frame_lock kheap_avail next_addr].
    rewrite Hnone.
    cbn [ft set_ft set_kheap set_mem set_user_pool with_frame_lock with_frame_list
         with_frame_hash with_ft_heap frame_lock frame_hash frame_list ft_heap current
         put_frame_lock].
    rewrite bool_decide_eq_true_2 by reflexivity. rewrite Hn. reflexivity.
Qed.

Lemma free_page_not_in_table (s : state) (i : nat) :
  frame_table_ok s ->
  used_map (user_pool s) !! i = Some false ->
  frame_hash (ft s) !! (pool_base (user_pool s) + PGSIZE * Z.of_nat i) = None.
Proof.
  intros [Hused _] Hbit.
  destruct (frame_hash (ft s) !! _) as [a|] eqn:Hh; [|reflexivity].
  destruct (Hused _ _ Hh) as (i' & Heq & Hbit').
  assert (i' = i) by (unfold PGSIZE in Heq; lia). subst i'. congruence.
Qed.

(** X5.  With a free user page and a free heap block, [vm_frame_alloc]
    followed by [vm_frame_free] of the frame it returned is a round trip on
    the frame table and the page pool: hash, ring, entries, hand and lock,
    the pool's bitmap and the heap budget are all as before the two
    calls. *)
Theorem frame_alloc_free_round_trip :
  forall (s : state) (flags up : Z) (i : nat),
    pools_ok s ->
    frame_table_ok s ->
    frame_lock (ft s) = None ->
    bitmap_scan (used_map (user_pool s)) 0 1 false = Some i ->
    kheap_avail s <> 0%nat ->
    ft_heap (ft s) !! next_addr s = None ->
    exists s1 s2,
      vm_frame_alloc flags up s
      = Ret (pool_base (user_pool s) + PGSIZE * Z.of_nat i) s1
      /\ vm_frame_free (pool_base (user_pool s) + PGSIZE * Z.of_nat i) s1 = Ret tt s2
      /\ ft s2 = ft s
      /\ user_pool s2 = user_pool s
      /\ kheap_avail s2 = kheap_avail s.
Proof.
  intros s flags up i Hpools Htable Hlock Hscan Hheap Hfresh.
  destruct (bitmap_scan_some _ _ _ Hscan) as [Hlt Hbit].
  pose proof (free_page_not_in_table s i Htable Hbit) as Hnone.
  pose proof (vm_frame_alloc_eq flags up i s Hpools Hlock Hscan Hnone Hheap) as Halloc.
  set (kp := pool_base (user_pool s) + PGSIZE * Z.of_nat i) in *.
  assert (Hpool1 : user_pool (frame_allocated flags up i s)
                   = with_used (<[i := true]> (used_map (user_pool s))) (user_pool s)).
  { unfold frame_allocated. destruct (Z.testbit (Z.lor PAL_USER flags) 1); reflexivity. }
  assert (Hft1 : ft (frame_allocated flags up i s)
                 = with_frame_lock None
                     (with_frame_list (frame_list (ft s) ++ [next_addr s])
                        (with_frame_hash (<[kp := next_addr s]> (frame_hash (ft s)))
                           (with_ft_heap
                              (<[next_addr s :=
                                   {| kpage := kp; upage := up; t := current s;
                                      is_pinned := true |}]> (ft_heap (ft s)))
                              (with_frame_lock (Some (current s)) (ft s)))))).
  { unfold frame_allocated. destruct (Z.testbit (Z.lor PAL_USER flags) 1); reflexivity. }
  assert (Hk1 : kheap_avail (frame_allocated flags up i s) = Nat.pred (kheap_avail s)).
  { unfold frame_allocated. destruct (Z.testbit (Z.lor PAL_USER flags) 1); reflexivity. }
  assert (Hfree : vm_frame_free kp (frame_allocated flags up i s)
                  = Ret tt (frame_released kp (next_addr s) i true
                              (frame_allocated flags up i s))).
  { apply vm_frame_free_eq.
    - apply (pools_ok_geometry s); [|exact Hpools].
      unfold pool_geometry. rewrite Hpool1.
      unfold frame_allocated. destruct (Z.testbit (Z.lor PAL_USER flags) 1);
        cbn [kernel_pool set_mem set_user_pool put_frame_lock set_ft set_kheap
             pool_base used_map with_used];
        rewrite length_insert; reflexivity.
    - rewrite Hft1. reflexivity.
    - rewrite Hft1. cbn [frame_hash with_frame_lock with_frame_list with_frame_hash].
      apply lookup_insert_eq.
    - rewrite Hpool1. reflexivity.
    - rewrite Hpool1. cbn [used_map with_used]. apply list_lookup_insert_eq. exact Hlt. }
  exists (frame_allocated flags up i s).
  exists (frame_released kp (next_addr s) i true (frame_allocated flags up i s)).
  split; [exact Halloc|]. split; [exact Hfree|].
  unfold frame_released.
  cbn [ft user_pool kheap_avail put_frame_lock set_ft set_user_pool set_kheap].
  rewrite Hft1, Hpool1, Hk1.
  cbn [frame_lock frame_hash frame_list ft_heap clock_ptr tail_view with_frame_lock
       with_frame_list with_frame_hash with_ft_heap used_map pool_base with_used].
  split; [|split].
  - rewrite !delete_insert_id by (first [exact Hnone | exact Hfresh]).
    rewrite list_remove_last.
    + destruct (ft s). cbn in Hlock. subst. reflexivity.
    + intros Hin. destruct Htable as [_ Hring]. specialize (Hring _ Hin). lia.
  - rewrite list_insert_insert_eq, list_insert_id by exact Hbit.
    destruct (user_pool s). reflexivity.
  - destruct (kheap_avail s); [contradiction | reflexivity].
Qed.

Lemma frame_alloc_free_round_trip_witness :
  exists s1 s2,
    vm_frame_alloc PAL_USER UPAGE0 (boot 4 2 2) = Ret KPAGE0 s1
    /\ vm_frame_free KPAGE0 s1 = Ret tt s2
    /\ ft s2 = ft (boot 4 2 2)
    /\ user_pool s2 = user_pool (boot 4 2 2)
    /\ kheap_avail s2 = kheap_avail (boot 4 2 2).
Proof.
  apply (frame_alloc_free_round_trip (boot 4 2 2) PAL_USER UPAGE0 0).
  - split; [vm_compute; reflexivity|].
    split; apply Z.leb_le; vm_compute; reflexivity.
  - apply boot_frame_table_ok; reflexivity.
  - reflexivity.
  - reflexivity.
  - discriminate.
  - reflexivity.
Defined.

(** Releasing, or pinning, a page the frame table does not know. *)
Lemma vm_frame_do_free_unknown (s : state) (kp : Z) (free_page : bool) :
  frame_lock (ft s) = None ->
  frame_hash (ft s) !! kp = None ->
  (run lock_acquire frame_lock_of put_frame_lock;
   run vm_frame_do_free kp free_page;
   lock_release frame_lock_of put_frame_lock) s
  = Panic (put_frame_lock (Some (current s)) s).
Proof.
  intros Hlock Hnone.
  unfold bind at 1. unfold lock_acquire, frame_lock_of. rewrite Hlock.
  unfold bind at 1. unfold vm_frame_do_free.
  unfold bind at 1. unfold lock_held_by_current_thread, frame_lock_of. cbn.
  rewrite bool_decide_eq_true_2 by reflexivity.
  unfold bind, ASSERT, get.
  destruct (is_kernel_vaddr kp); [|reflexivity].
  destruct (pg_ofs kp =? 0); [|reflexivity].
  cbn. rewrite Hnone. reflexivity.
Qed.

Lemma vm_frame_set_pinned_unknown (s : state) (kp : Z) (v : bool) :
  frame_lock (ft s) = None ->
  frame_hash (ft s) !! kp = None ->
  vm_frame_set_pinned kp v s = Panic (put_frame_lock (Some (current s)) s).
Proof.
  intros Hlock Hnone. unfold vm_frame_set_pinned.
  unfold bind at 1. unfold lock_acquire, frame_lock_of. rewrite Hlock.
  unfold bind, get. cbn. rewrite Hnone. reflexivity.
Qed.

(** X6.  The four operations that name a frame by its kernel page panic
    when the frame table has no entry for that page, and do so holding the
    frame lock they had just taken. *)
Theorem frame_unknown_page_panics :
  forall (s : state) (kp : Z),
    frame_lock (ft s) = None ->
    frame_hash (ft s) !! kp = None ->
    vm_frame_free kp s = Panic (put_frame_lock (Some (current s)) s)
    /\ vm_frame_remove_entry kp s = Panic (put_frame_lock (Some (current s)) s)
    /\ vm_frame_pin kp s = Panic (put_frame_lock (Some (current s)) s)
    /\ vm_frame_unpin kp s = Panic (put_frame_lock (Some (current s)) s).
Proof.
  intros s kp Hlock Hnone.
  split; [exact (vm_frame_do_free_unknown s kp true Hlock Hnone)|].
  split; [exact (vm_frame_do_free_unknown s kp false Hlock Hnone)|].
  split; exact (vm_frame_set_pinned_unknown s kp _ Hlock Hnone).
Qed.

Lemma frame_unknown_page_panics_witness :
  vm_frame_free KPAGE0 (boot 4 2 2) = Panic (put_frame_lock (Some 1) (boot 4 2 2))
  /\ vm_frame_unpin KPAGE0 (boot 4 2 2) = Panic (put_frame_lock (Some 1) (boot 4 2 2)).
Proof.
  destruct (frame_unknown_page_panics (boot 4 2 2) KPAGE0) as (Hfree & _ & _ & Hunpin).
  - reflexivity.
  - reflexivity.
  - split; [exact Hfree | exact Hunpin].
Defined.

Lemma vm_frame_set_pinned_eq (kp a : Z) (e : frame_table_entry) (v : bool) (s : state) :
  frame_lock (ft s) = None ->
  frame_hash (ft s) !! kp = Some a ->
  ft_heap (ft s) !! a = Some e ->
  vm_frame_set_pinned kp v s
  = Ret tt (set_ft (with_ft_heap (<[a := with_pinned v e]> (ft_heap (ft s))) (ft s)) s).
Proof.
  intros Hlock Hhash Hheap. unfold vm_frame_set_pinned.
  unfold bind at 1. unfold lock_acquire, frame_lock_of. rewrite Hlock.
  unfold bind at 1. unfold get.
  cbn [ft put_frame_lock set_ft with_frame_lock frame_hash ft_heap].
  rewrite Hhash. unfold bind at 1. unfold deref. rewrite Hheap.
  unfold bind, modify, lock_release, frame_lock_of. cbn.
  rewrite bool_decide_eq_true_2 by reflexivity.
  destruct s as [sw f kpl upl m kpt pds sps ths cur fl fs ins ka na tr].
  destruct f as [lk hs ls cp hp tv]. cbn in *. subst lk. reflexivity.
Qed.

(** X7.  Pinning changes one flag of one entry, and unpinning changes it
    back: after [vm_frame_pin] the entry of the frame is pinned, after
    [vm_frame_unpin] it is not, no other entry having changed; pinning and
    then unpinning a frame that was not pinned restores the kernel state
    exactly. *)
Theorem frame_pin_unpin_round_trip :
  forall (s : state) (kp a : Z) (e : frame_table_entry),
    frame_lock (ft s) = None ->
    frame_hash (ft s) !! kp = Some a ->
    ft_heap (ft s) !! a = Some e ->
    exists s1 s2,
      vm_frame_pin kp s = Ret tt s1
      /\ ft_heap (ft s1) = <[a := with_pinned true e]> (ft_heap (ft s))
      /\ vm_frame_unpin kp s1 = Ret tt s2
      /\ ft_heap (ft s2) = <[a := with_pinned false e]> (ft_heap (ft s))
      /\ (is_pinned e = false -> s2 = s).
Proof.
  intros s kp a e Hlock Hhash Hheap.
  pose proof (vm_frame_set_pinned_eq kp a e true s Hlock Hhash Hheap) as Hpin.
  set (s1 := set_ft (with_ft_heap (<[a := with_pinned true e]> (ft_heap (ft s))) (ft s)) s)
    in *.
  assert (Hunpin : vm_frame_set_pinned kp false s1
                   = Ret tt (set_ft (with_ft_heap
                                       (<[a := with_pinned false (with_pinned true e)]>
                                          (ft_heap (ft s1))) (ft s1)) s1)).
  { apply vm_frame_set_pinned_eq; [exact Hlock | exact Hhash | apply lookup_insert_eq]. }
  exists s1. eexists. split; [exact Hpin|]. split; [reflexivity|].
  split; [exact Hunpin|].
  cbn [ft set_ft ft_heap with_ft_heap s1]. rewrite insert_insert_eq.
  split; [reflexivity|].
  intros Hunpinned.
  assert (He : with_pinned false e = e).
  { destruct e. cbn in Hunpinned. subst. reflexivity. }
  change (with_pinned false (with_pinned true e)) with (with_pinned false e).
  rewrite He, insert_id by exact Hheap.
  destruct s as [sw f kpl upl m kpt pds sps ths cur fl fs ins ka na tr].
  destruct f as [lk hs ls cp hp tv]. reflexivity.
Qed.

Lemma frame_pin_unpin_round_trip_witness :
  exists s1 s2,
    vm_frame_pin KPAGE0 second_chance_state = Ret tt s1
    /\ vm_frame_unpin KPAGE0 s1 = Ret tt s2
    /\ s2 = second_chance_state.
Proof.
  destruct (frame_pin_unpin_round_trip second_chance_state KPAGE0 1001
              {| kpage := KPAGE0; upage := UPAGE0; t := 1; is_pinned := false |})
    as (s1 & s2 & Hpin & _ & Hunpin & _ & Hsame).
  - vm_compute. reflexivity.
  - vm_compute. reflexivity.
  - vm_compute. reflexivity.
  - exists s1, s2. split; [exact Hpin|]. split; [exact Hunpin|]. apply Hsame. reflexivity.
Defined.

(** X8.  [vm_frame_remove_entry] differs from [vm_frame_free] in one
    thing only: both drop the frame's entry from the hash, the ring and the
    heap, but the former leaves the page allocated in the user pool while
    the latter gives it back. *)
Theorem frame_remove_entry_keeps_page :
  forall (s : state) (kp a : Z) (i : nat),
    pools_ok s ->
    frame_lock (ft s) = None ->
    frame_hash (ft s) !! kp = Some a ->
    kp = pool_base (user_pool s) + PGSIZE * Z.of_nat i ->
    used_map (user_pool s) !! i = Some true ->
    exists s1 s2,
      vm_frame_remove_entry kp s = Ret tt s1
      /\ vm_frame_free kp s = Ret tt s2
      /\ ft s1 = ft s2
      /\ frame_hash (ft s1) !! kp = None
      /\ frame_list (ft s1) = list_remove (frame_list (ft s)) a
      /\ ft_heap (ft s1) !! a = None
      /\ user_pool s1 = user_pool s
      /\ used_map (user_pool s2) = <[i := false]> (used_map (user_pool s)).
Proof.
  intros s kp a i Hpools Hlock Hhash Hkp Hbit.
  pose proof (lookup_lt_Some _ _ _ Hbit) as Hlt.
  destruct (user_page_facts kp i s Hpools Hkp Hlt) as (Hofs & Hkern & _).
  exists (frame_released kp a 0 false s), (frame_released kp a i true s).
  split; [apply vm_frame_remove_entry_eq; assumption|].
  split; [apply vm_frame_free_eq; assumption|].
  unfold frame_released.
  cbn [ft user_pool put_frame_lock set_ft set_user_pool set_kheap frame_hash frame_list
       ft_heap with_frame_lock with_frame_list with_frame_hash with_ft_heap used_map
       with_used].
  split; [reflexivity|]. split; [apply lookup_delete_eq|].
  split; [reflexivity|]. split; [apply lookup_delete_eq|].
  split; reflexivity.
Qed.

Lemma frame_remove_entry_keeps_page_witness :
  exists s1 s2,
    vm_frame_remove_entry KPAGE0 second_chance_state = Ret tt s1
    /\ vm_frame_free KPAGE0 second_chance_state = Ret tt s2
    /\ used_map (user_pool s1) = [true]
    /\ used_map (user_pool s2) = [false].
Proof.
  destruct (frame_remove_entry_keeps_page second_chance_state KPAGE0 1001 0)
    as (s1 & s2 & Hrem & Hfree & _ & _ & _ & _ & Hkeep & Hgive).
  - split; [vm_compute; reflexivity|].
    split; apply Z.leb_le; vm_compute; reflexivity.
  - vm_compute. reflexivity.
  - vm_compute. reflexivity.
  - vm_compute. reflexivity.
  - vm_compute. reflexivity.
  - exists s1, s2. split; [exact Hrem|]. split; [exact Hfree|].
    split; [rewrite Hkeep | rewrite Hgive]; vm_compute; reflexivity.
Defined.

(** What the clock scan on page directory [pd] leaves alone: all of the
    kernel state but the hand, the log of its steps, the kernel's own page
    table entries and [pd] itself. *)
Definition beside_clock (pd : Z) (s : state) :=
  (frame_lock (ft s), frame_hash (ft s), frame_list (ft s), ft_heap (ft s),
   tail_view (ft s), swap s, (kernel_pool s, user_pool s, mem s),
   (supts s, threads s, current s), delete pd (pagedirs s),
   (filesys_lock s, files s, inodes s, kheap_avail s, next_addr s)).

Lemma pte_modify_beside (f : pte -> pte) (pd va : Z) :
  preserves (beside_clock pd) (pte_modify f pd va).
Proof.
  intros s [] s' H. unfold pte_modify in H.
  destruct (pagedirs s !! pd) as [d|]; [|discriminate].
  destruct (lookup_page s d va); injection H as <-; [|reflexivity].
  unfold store_pte. destruct (is_kernel_vaddr va); [reflexivity|].
  unfold beside_clock. cbn [ft swap kernel_pool user_pool mem supts threads current
    pagedirs filesys_lock files inodes kheap_avail next_addr set_pagedirs].
  rewrite delete_insert_eq. reflexivity.
Qed.

Lemma frame_to_be_evicted_beside (pd : Z) :
  preserves (beside_clock pd) (frame_to_be_evicted pd).
Proof.
  unfold frame_to_be_evicted.
  apply preserves_bind; [apply preserves_get | intros s0].
  destruct (_ =? _)%nat; [apply preserves_panic|].
  apply preserves_evict_scan.
  - pres_leaf.
  - intros sl. pres_leaf.
  - intros va. pres_leaf.
  - intros va. apply pte_modify_beside.
Qed.

(** Partial-correctness invariants go through the scan as they go through
    its four steps. *)
Lemma hoare_evict_scan (I : state -> Prop) (k : nat) (pd : Z) :
  hoare I clock_frame_next (fun _ => I) ->
  (forall sl, hoare I (slot_entry sl) (fun _ => I)) ->
  (forall va, hoare I (pagedir_is_accessed pd va) (fun _ => I)) ->
  (forall va, hoare I (pagedir_set_accessed pd va false) (fun _ => I)) ->
  hoare I (evict_scan k pd) (fun _ => I).
Proof.
  intros Hnext Hentry Hacc Hset. induction k as [|k IH].
  - intros s _ a s' Hrun. discriminate Hrun.
  - cbn [evict_scan].
    eapply hoare_bind; [exact Hnext | intros sl].
    eapply hoare_bind; [apply Hentry | intros e].
    destruct (is_pinned e); [exact IH|].
    eapply hoare_bind; [apply Hacc | intros acc].
    destruct acc; [|apply hoare_ret; auto].
    eapply hoare_bind; [apply Hset | intros []; exact IH].
Qed.

(** A page table entry as the hardware reads it: an entry never written
    is all zero. *)
Definition kernel_pte (s : state) (n : Z) : pte := default pte_zero (kernel_ptes s !! n).
Definition user_pte (d : pagedir) (n : Z) : pte := default pte_zero (pd_ptes d !! n).

(** [new] is [old], but for an accessed bit that may have been cleared. *)
Definition accessed_cleared (old new : pte) : Prop :=
  new = old \/ new = with_a false old.

Lemma accessed_cleared_again (old new : pte) :
  accessed_cleared old new -> accessed_cleared old (with_a false new).
Proof. intros [->| ->]; right; reflexivity. Qed.

(** The page tables a scan on [pd] that began in [s0] may have reached:
    those of [s0] with some accessed bits cleared, in the kernel's
    entries and in [pd]. *)
Definition bits_cleared (pd : Z) (s0 s : state) : Prop :=
  (forall n, accessed_cleared (kernel_pte s0 n) (kernel_pte s n))
  /\ forall d0, pagedirs s0 !! pd = Some d0 ->
       exists d, pagedirs s !! pd = Some d
                 /\ pd_tables d = pd_tables d0
                 /\ forall n, accessed_cleared (user_pte d0 n) (user_pte d n).

Lemma bits_cleared_refl (pd : Z) (s : state) : bits_cleared pd s s.
Proof.
  split; [intros n; left; reflexivity|].
  intros d Hd. exists d. split; [exact Hd|]. split; [reflexivity|].
  intros n. left. reflexivity.
Qed.

Lemma bits_cleared_same (pd : Z) (s0 s s' : state) :
  kernel_ptes s' = kernel_ptes s -> pagedirs s' = pagedirs s ->
  bits_cleared pd s0 s -> bits_cleared pd s0 s'.
Proof.
  unfold bits_cleared, kernel_pte. intros Hk Hp H. rewrite Hk, Hp. exact H.
Qed.

Lemma pagedir_set_accessed_cleared (pd va : Z) (s0 : state) :
  hoare (bits_cleared pd s0) (pagedir_set_accessed pd va false)
        (fun _ => bits_cleared pd s0).
Proof.
  intros s [Hker Husr] [] s' Hrun.
  unfold pagedir_set_accessed, pte_modify in Hrun.
  destruct (pagedirs s !! pd) as [d|] eqn:Hd; [|discriminate].
  rewrite <- Hd in Husr.
  unfold lookup_page, store_pte in Hrun.
  destruct (is_kernel_vaddr va).
  - injection Hrun as <-. split.
    + intros n. unfold kernel_pte. cbn [kernel_ptes set_kernel_ptes].
      destruct (decide (n = pg_no va)) as [->|Hne].
      * rewrite lookup_insert_eq. cbn [default].
        apply accessed_cleared_again. apply Hker.
      * rewrite lookup_insert_ne by congruence. apply Hker.
    + exact Husr.
  - destruct (bool_decide (pd_no va ∈ pd_tables d)); injection Hrun as <-;
      [|split; assumption].
    split; [exact Hker|].
    intros d0 Hd0. destruct (Husr d0 Hd0) as (d1 & Hd1 & Htab & Hbits).
    rewrite Hd in Hd1. injection Hd1 as <-.
    eexists. cbn [pagedirs set_pagedirs]. rewrite lookup_insert_eq.
    split; [reflexivity|]. split; [exact Htab|].
    intros n. unfold user_pte at 2. cbn [pd_ptes with_ptes].
    destruct (decide (n = pg_no va)) as [->|Hne].
    + rewrite lookup_insert_eq. cbn [default].
      apply accessed_cleared_again. apply Hbits.
    + rewrite lookup_insert_ne by congruence. apply Hbits.
Qed.

Lemma clock_frame_next_tables :
  preserves (fun s => (kernel_ptes s, pagedirs s)) clock_frame_next.
Proof. pres_leaf. Qed.

Lemma frame_to_be_evicted_cleared (pd : Z) (s0 : state) :
  hoare (bits_cleared pd s0) (frame_to_be_evicted pd) (fun _ => bits_cleared pd s0).
Proof.
  unfold frame_to_be_evicted.
  eapply hoare_bind with (R := fun _ => bits_cleared pd s0).
  { intros s H a s' Hrun. injection Hrun as _ <-. exact H. }
  intros s1. destruct (_ =? _)%nat; [intros s _ a s' Hrun; discriminate Hrun|].
  apply hoare_evict_scan.
  - intros s H sl s' Hrun.
    pose proof (clock_frame_next_tables s sl s' Hrun) as Hsame.
    injection Hsame as Hk Hp.
    exact (bits_cleared_same pd s0 s s' Hk Hp H).
  - intros sl s H e s' Hrun. unfold slot_entry, deref in Hrun.
    destruct sl; [destruct (ft_heap (ft s) !! a); [|discriminate]|];
      injection Hrun as _ <-; exact H.
  - intros va s H b s' Hrun. unfold pagedir_is_accessed, pte_query in Hrun.
    destruct (pagedirs s !! pd) as [d|]; [|discriminate].
    destruct (lookup_page s d va); injection Hrun as _ <-; exact H.
  - intros va. apply pagedir_set_accessed_cleared.
Qed.

(** The log of a scan that began in [s0] has grown by steps of the hand
    only. *)
Definition steps_logged (s0 s : state) : Prop :=
  exists steps, trace s = trace s0 ++ map EvClockStep steps.

Lemma frame_to_be_evicted_logged (pd : Z) (s0 : state) :
  hoare (steps_logged s0) (frame_to_be_evicted pd) (fun _ => steps_logged s0).
Proof.
  unfold frame_to_be_evicted.
  eapply hoare_bind with (R := fun _ => steps_logged s0).
  { intros s H a s' Hrun. injection Hrun as _ <-. exact H. }
  intros s1. destruct (_ =? _)%nat; [intros s _ a s' Hrun; discriminate Hrun|].
  apply hoare_evict_scan.
  - intros s [steps Hsteps] sl s' Hrun. exists (steps ++ [sl]).
    unfold clock_frame_next in Hrun.
    destruct (frame_list (ft s)); [discriminate|].
    destruct (match clock_ptr (ft s) with
              | HElem a => list_next (z :: l) a
              | _ => Some (list_begin (z :: l))
              end) as [h|]; [|discriminate].
    unfold slot_of in Hrun.
    destruct h; try discriminate; injection Hrun as <- <-;
      cbn [trace log set_trace set_ft]; rewrite Hsteps, map_app, app_assoc; reflexivity.
  - intros sl. apply (hoare_preserved trace (fun tr => exists steps, tr = _ ++ _)). pres_leaf.
  - intros va. apply (hoare_preserved trace (fun tr => exists steps, tr = _ ++ _)). pres_leaf.
  - intros va. apply (hoare_preserved trace (fun tr => exists steps, tr = _ ++ _)). pres_leaf.
Qed.

(** X9.  Victim selection changes nothing but the hand and accessed bits
    it clears: whenever [frame_to_be_evicted] returns, the frame table's
    hash, ring and entries, the page pools, memory, the swap store, the
    supplemental page tables and every other page directory are as they
    were; the directory it was given has the same page tables, and each
    entry of these and of the kernel's own tables is as it was, or as it
    was with the accessed bit cleared; the log has grown by the steps of
    the hand. *)
Theorem clock_scan_footprint :
  forall (s s' : state) (pd : Z) (v : slot),
    frame_to_be_evicted pd s = Ret v s' ->
    beside_clock pd s' = beside_clock pd s
    /\ (forall n, accessed_cleared (kernel_pte s n) (kernel_pte s' n))
    /\ (forall d, pagedirs s !! pd = Some d ->
          exists d', pagedirs s' !! pd = Some d'
                     /\ pd_tables d' = pd_tables d
                     /\ forall n, accessed_cleared (user_pte d n) (user_pte d' n))
    /\ exists steps, trace s' = trace s ++ map EvClockStep steps.
Proof.
  intros s s' pd v Hrun.
  split; [exact (frame_to_be_evicted_beside pd s v s' Hrun)|].
  destruct (frame_to_be_evicted_cleared pd s s (bits_cleared_refl pd s) v s' Hrun)
    as [Hker Husr].
  split; [exact Hker|]. split; [exact Husr|].
  apply (frame_to_be_evicted_logged pd s s) with (a := v); [|exact Hrun].
  exists []. cbn [map]. rewrite app_nil_r. reflexivity.
Qed.

Lemma clock_scan_footprint_witness :
  exists s',
    frame_to_be_evicted 10 second_chance_state = Ret (SlotEntry 1001) s'
    /\ beside_clock 10 s' = beside_clock 10 second_chance_state
    /\ (forall n, accessed_cleared (kernel_pte second_chance_state n) (kernel_pte s' n))
    /\ exists steps, trace s' = trace second_chance_state ++ map EvClockStep steps.
Proof.
  exists (exec (frame_to_be_evicted 10) second_chance_state).
  assert (Hrun : frame_to_be_evicted 10 second_chance_state
                 = Ret (SlotEntry 1001) (exec (frame_to_be_evicted 10) second_chance_state)).
  { apply run_returns. vm_compute. reflexivity. }
  split; [exact Hrun|].
  destruct (clock_scan_footprint _ _ _ _ Hrun) as (Hbeside & Hker & _ & Hlog).
  exact (conj Hbeside (conj Hker Hlog)).
Defined.

(** ** Supplemental page table: installation, lookup, flags *)

(** After an installation at [up] into a table that read [tbl]: the
    lookup of [up] finds [e], the lookup of any other page finds what
    [tbl] held. *)
Definition installed (supt up : Z) (tbl : gmap Z supplemental_page_table_entry)
    (e : supplemental_page_table_entry) (s' : state) : Prop :=
  vm_supt_find supt up s' = Ret (Some e) s'
  /\ vm_supt_has_entry supt up s' = Ret true s'
  /\ forall other, other <> up -> vm_supt_find supt other s' = Ret (tbl !! other) s'.

Lemma hash_insert_spte_fresh (supt : Z) (e : supplemental_page_table_entry)
    (tbl : gmap Z supplemental_page_table_entry) (s : state) :
  supts s !! supt = Some tbl ->
  tbl !! spte_upage e = None ->
  hash_insert_spte supt e s
  = Ret true (set_supts (<[supt := <[spte_upage e := e]> tbl]> (supts s)) s).
Proof.
  intros Htbl Hnone. unfold hash_insert_spte, bind, get, deref, modify, ret.
  rewrite Htbl, Hnone. reflexivity.
Qed.

Lemma installed_insert (supt up : Z) (tbl : gmap Z supplemental_page_table_entry)
    (e : supplemental_page_table_entry) (s : state) :
  installed supt up tbl e (set_supts (<[supt := <[up := e]> tbl]> (supts s)) s).
Proof.
  assert (Hfind : forall page,
            vm_supt_find supt page (set_supts (<[supt := <[up := e]> tbl]> (supts s)) s)
            = Ret (<[up := e]> tbl !! page)
                  (set_supts (<[supt := <[up := e]> tbl]> (supts s)) s)).
  { intros page. apply vm_supt_find_eq. cbn [supts set_supts]. apply lookup_insert_eq. }
  split; [rewrite Hfind, lookup_insert_eq; reflexivity|].
  split.
  - unfold vm_supt_has_entry, bind. rewrite Hfind, lookup_insert_eq. reflexivity.
  - intros other Hne. rewrite Hfind, lookup_insert_ne by congruence. reflexivity.
Qed.

(** X10.  Installing an entry for a page the table does not know
    succeeds, and the table then answers for that page with an entry that
    carries exactly what was installed -- resident at [kp], all zeros, or
    backed by the given file range -- clean, while every other page is
    answered as before. *)
Theorem supt_install_then_find :
  forall (s : state) (junk : supplemental_page_table_entry)
         (supt up kp f ofs rd zr : Z) (wr : bool)
         (tbl : gmap Z supplemental_page_table_entry),
    supts s !! supt = Some tbl ->
    tbl !! up = None ->
    kheap_avail s <> 0%nat ->
    (exists s' e,
       vm_supt_install_frame junk supt up kp s = Ret true s'
       /\ installed supt up tbl e s'
       /\ spte_upage e = up /\ spte_kpage e = kp /\ status e = ON_FRAME
       /\ is_dirty e = false)
    /\ (exists s' e,
          vm_supt_install_zeropage junk supt up s = Ret true s'
          /\ installed supt up tbl e s'
          /\ spte_upage e = up /\ spte_kpage e = NULL /\ status e = ALL_ZEROS
          /\ is_dirty e = false)
    /\ (exists s' e,
          vm_supt_install_filesys junk supt up f ofs rd zr wr s = Ret true s'
          /\ installed supt up tbl e s'
          /\ spte_upage e = up /\ spte_kpage e = NULL /\ status e = FROM_FILESYS
          /\ is_dirty e = false
          /\ spte_file e = f /\ file_offset e = ofs /\ read_bytes e = rd
          /\ zero_bytes e = zr /\ writable e = wr).
Proof.
  intros s junk supt up kp f ofs rd zr wr tbl Htbl Hnone Hheap.
  destruct (kheap_avail s) as [|n] eqn:Hn; [contradiction|].
  assert (Hmalloc : malloc s = Ret (Some (next_addr s)) (set_kheap n (next_addr s + 1) s)).
  { unfold malloc. rewrite Hn. reflexivity. }
  split; [|split].
  - eexists. eexists. split.
    { unfold vm_supt_install_frame. eapply bind_intro; [exact Hmalloc|].
      eapply bind_intro; [apply (hash_insert_spte_fresh _ _ tbl); assumption|].
      reflexivity. }
    split; [apply installed_insert|]. repeat split.
  - eexists. eexists. split.
    { unfold vm_supt_install_zeropage. eapply bind_intro; [exact Hmalloc|].
      eapply bind_intro; [apply (hash_insert_spte_fresh _ _ tbl); assumption|].
      reflexivity. }
    split; [apply installed_insert|]. repeat split.
  - eexists. eexists. split.
    { unfold vm_supt_install_filesys. eapply bind_intro; [exact Hmalloc|].
      eapply bind_intro; [apply (hash_insert_spte_fresh _ _ tbl); assumption|].
      reflexivity. }
    split; [apply installed_insert|]. repeat split.
Qed.

Lemma supt_install_then_find_witness :
  exists s' e,
    vm_supt_install_filesys no_spte 20 UPAGE0 500 0 100 (PGSIZE - 100) true (boot 4 2 2)
    = Ret true s'
    /\ vm_supt_find 20 UPAGE0 s' = Ret (Some e) s'
    /\ status e = FROM_FILESYS /\ read_bytes e = 100.
Proof.
  destruct (supt_install_then_find (boot 4 2 2) no_spte 20 UPAGE0 0 500 0 100 (PGSIZE - 100)
              true ∅) as (_ & _ & s' & e & Hrun & (Hfind & _) & _ & _ & Hst & _ & _ & _ & Hrd & _).
  - reflexivity.
  - reflexivity.
  - discriminate.
  - exists s', e. repeat split; assumption.
Defined.

(** X11.  On a page that already has an entry the three installers
    differ: [vm_supt_install_frame] returns false, the tables and the heap
    budget being as before, while [vm_supt_install_zeropage] and
    [vm_supt_install_filesys] panic. *)
Theorem supt_install_duplicate :
  forall (s : state) (junk : supplemental_page_table_entry)
         (supt up kp f ofs rd zr : Z) (wr : bool)
         (tbl : gmap Z supplemental_page_table_entry),
    supts s !! supt = Some tbl ->
    is_Some (tbl !! up) ->
    kheap_avail s <> 0%nat ->
    (exists s',
       vm_supt_install_frame junk supt up kp s = Ret false s'
       /\ supts s' = supts s /\ kheap_avail s' = kheap_avail s)
    /\ (exists s', vm_supt_install_zeropage junk supt up s = Panic s'
                   /\ supts s' = supts s)
    /\ (exists s', vm_supt_install_filesys junk supt up f ofs rd zr wr s = Panic s'
                   /\ supts s' = supts s).
Proof.
  intros s junk supt up kp f ofs rd zr wr tbl Htbl [old Hold] Hheap.
  destruct (kheap_avail s) as [|n] eqn:Hn; [contradiction|].
  assert (Hdup : forall e, spte_upage e = up ->
            hash_insert_spte supt e (set_kheap n (next_addr s + 1) s)
            = Ret false (set_kheap n (next_addr s + 1) s)).
  { intros e He. unfold hash_insert_spte, bind, get, deref, ret.
    cbn [supts set_kheap]. rewrite Htbl, He, Hold. reflexivity. }
  split; [|split].
  - eexists. split.
    { unfold vm_supt_install_frame. unfold bind at 1. unfold malloc. rewrite Hn.
      unfold bind at 1. rewrite Hdup by reflexivity. reflexivity. }
    split; reflexivity.
  - eexists. split.
    { unfold vm_supt_install_zeropage. unfold bind at 1. unfold malloc. rewrite Hn.
      unfold bind at 1. rewrite Hdup by reflexivity. reflexivity. }
    reflexivity.
  - eexists. split.
    { unfold vm_supt_install_filesys. unfold bind at 1. unfold malloc. rewrite Hn.
      unfold bind at 1. rewrite Hdup by reflexivity. reflexivity. }
    reflexivity.
Qed.

Lemma supt_install_duplicate_witness :
  (exists s', vm_supt_install_frame no_spte 20 UPAGE0 KPAGE0 zero_installed_state
              = Ret false s'
              /\ supts s' = supts zero_installed_state)
  /\ (exists s', vm_supt_install_zeropage no_spte 20 UPAGE0 zero_installed_state = Panic s'
                 /\ supts s' = supts zero_installed_state).
Proof.
  assert (Ht : exists tbl, supts zero_installed_state !! 20 = Some tbl
                           /\ is_Some (tbl !! UPAGE0)).
  { eexists. split; [vm_compute; reflexivity|]. vm_compute. eexists. reflexivity. }
  destruct Ht as (tbl & Ht & Hin).
  destruct (supt_install_duplicate zero_installed_state no_spte 20 UPAGE0 KPAGE0 0 0 0 0
              true tbl Ht Hin) as ((s1 & H1 & Hs1 & _) & (s2 & H2 & Hs2) & _).
  - vm_compute. discriminate.
  - split; [exists s1 | exists s2]; split; assumption.
Defined.

(** X12.  [vm_supt_set_dirty] only ever raises the flag: it stores the
    disjunction of the old flag and the argument, so that an entry that is
    dirty stays dirty whatever is passed.  On a page without entry it
    panics, where [vm_supt_set_swap] returns false and changes nothing. *)
Theorem supt_dirty_is_sticky :
  forall (s : state) (supt page : Z) (v : bool)
         (tbl : gmap Z supplemental_page_table_entry),
    supts s !! supt = Some tbl ->
    (forall e, tbl !! page = Some e ->
       exists s',
         vm_supt_set_dirty supt page v s = Ret true s'
         /\ supts s' = <[supt := <[page := with_dirty (is_dirty e || v) e]> tbl]> (supts s)
         /\ (is_dirty e = true -> s' = s))
    /\ (tbl !! page = None ->
          vm_supt_set_dirty supt page v s = Panic s
          /\ forall idx, vm_supt_set_swap supt page idx s = Ret false s).
Proof.
  intros s supt page v tbl Htbl. split.
  - intros e He. eexists. split.
    { unfold vm_supt_set_dirty. eapply bind_intro; [apply (vm_supt_find_eq _ _ _ tbl Htbl)|].
      rewrite He. unfold bind, spte_store, modify, ret. rewrite Htbl. reflexivity. }
    split; [reflexivity|].
    intros Hd. rewrite Hd. cbn [orb].
    assert (Hsame : with_dirty true e = e).
    { destruct e. cbn in Hd. subst. reflexivity. }
    rewrite Hsame, (insert_id tbl) by exact He. rewrite insert_id by exact Htbl.
    destruct s. reflexivity.
  - intros Hnone. split.
    + unfold vm_supt_set_dirty. unfold bind.
      rewrite (vm_supt_find_eq _ _ _ tbl Htbl), Hnone. reflexivity.
    + intros idx. unfold vm_supt_set_swap. unfold bind.
      rewrite (vm_supt_find_eq _ _ _ tbl Htbl), Hnone. reflexivity.
Qed.

Lemma supt_dirty_is_sticky_witness :
  (exists s', vm_supt_set_dirty 20 UPAGE0 true zero_installed_state = Ret true s'
              /\ vm_supt_set_dirty 20 UPAGE0 false s' = Ret true s')
  /\ vm_supt_set_dirty 20 UPAGE0 true (boot 4 2 2) = Panic (boot 4 2 2).
Proof.
  split.
  - assert (Ht : exists tbl e, supts zero_installed_state !! 20 = Some tbl
                               /\ tbl !! UPAGE0 = Some e).
    { eexists. eexists. split; vm_compute; reflexivity. }
    destruct Ht as (tbl & e & Ht & He).
    destruct (proj1 (supt_dirty_is_sticky zero_installed_state 20 UPAGE0 true tbl Ht) e He)
      as (s' & Hrun & Hs & _).
    exists s'. split; [exact Hrun|].
    assert (Ht' : supts s' !! 20 = Some (<[UPAGE0 := with_dirty (is_dirty e || true) e]> tbl)).
    { rewrite Hs. apply lookup_insert_eq. }
    destruct (proj1 (supt_dirty_is_sticky s' 20 UPAGE0 false _ Ht') _
                (lookup_insert_eq _ _ _)) as (s2 & Hrun2 & _ & Hsame).
    rewrite Hrun2. f_equal. apply Hsame. cbn. apply orb_true_r.
  - apply (proj2 (supt_dirty_is_sticky (boot 4 2 2) 20 UPAGE0 true ∅ eq_refl)).
    reflexivity.
Defined.

(** ** Populating a frame from a file *)

(** X13.  [vm_load_page_from_filesys] fills the frame from the file range
    of the entry: when the file holds [read_bytes] bytes from [file_offset]
    on and [read_bytes + zero_bytes = PGSIZE], it returns true and the
    frame reads as those bytes followed by [zero_bytes] zeros; when the
    file ends before the [read_bytes] (at least one) are had it returns
    false, without evaluating the assertion on the two counts. *)
Theorem load_from_filesys_contents :
  forall (s : state) (spte : supplemental_page_table_entry) (kp : Z)
         (h : file) (data : list byte),
    files s !! spte_file spte = Some h ->
    inodes s !! f_inode h = Some data ->
    0 <= file_offset spte -> 0 <= read_bytes spte -> 0 <= zero_bytes spte ->
    (file_offset spte + read_bytes spte <= Z.of_nat (length data) ->
     read_bytes spte + zero_bytes spte = PGSIZE ->
     exists s',
       vm_load_page_from_filesys spte kp s = Ret true s'
       /\ mem_read (mem s') kp (Z.to_nat PGSIZE)
          = take (Z.to_nat (read_bytes spte)) (drop (Z.to_nat (file_offset spte)) data)
            ++ replicate (Z.to_nat (zero_bytes spte)) x00
       /\ inodes s' = inodes s)
    /\ (Z.of_nat (length data) < file_offset spte + read_bytes spte ->
        0 < read_bytes spte ->
        exists s', vm_load_page_from_filesys spte kp s = Ret false s'
                   /\ inodes s' = inodes s).
Proof.
  intros s spte kp h data Hfile Hinode Hofs Hrd Hzr.
  set (f := spte_file spte) in *.
  set (s1 := set_files (<[f := {| f_inode := f_inode h; f_pos := file_offset spte |}]>
                          (files s)) s).
  assert (Hseek : file_seek f (file_offset spte) s = Ret tt s1).
  { unfold file_seek. rewrite Hfile.
    destruct (Z.ltb_spec (file_offset spte) 0) as [|_]; [lia | reflexivity]. }
  set (n := lift_min (read_bytes spte) (Z.of_nat (length data) - file_offset spte)).
  set (bytes := take (Z.to_nat n) (drop (Z.to_nat (file_offset spte)) data)).
  set (s2 := log (EvFileRead f kp (read_bytes spte) n)
               (set_files (<[f := {| f_inode := f_inode h; f_pos := file_offset spte + n |}]>
                             (files s1))
                  (set_mem (mem_write (mem s1) kp bytes) s1))).
  assert (Hread : file_read f kp (read_bytes spte) s1 = Ret n s2).
  { unfold file_read. cbn [files set_files s1 inodes].
    rewrite lookup_insert_eq. cbn [f_inode f_pos]. rewrite Hinode. reflexivity. }
  split.
  - intros Hfits Hsum.
    assert (Hn : n = read_bytes spte) by (unfold n, lift_min; lia).
    eexists. split.
    { unfold vm_load_page_from_filesys.
      eapply bind_intro; [exact Hseek|].
      eapply bind_intro; [exact Hread|].
      rewrite Hn, Z.eqb_refl. cbn [negb].
      eapply bind_intro.
      { unfold ASSERT. rewrite Hsum.
        change (u32 PGSIZE =? PGSIZE) with true. reflexivity. }
      eapply bind_intro; [reflexivity|]. reflexivity. }
    split; [|reflexivity].
    cbn [mem set_mem log set_trace set_files s2 s1].
    assert (Hlen : length bytes = Z.to_nat (read_bytes spte)).
    { unfold bytes. rewrite Hn, length_take, length_drop. lia. }
    assert (Hchunks : mem_write (mem_write (mem s) kp bytes) (kp + read_bytes spte)
                        (replicate (Z.to_nat (zero_bytes spte)) x00)
                      = write_chunks (mem s) kp
                          [bytes; replicate (Z.to_nat (zero_bytes spte)) x00]).
    { cbn [write_chunks]. rewrite Hlen, Z2Nat.id by exact Hrd. reflexivity. }
    rewrite Hchunks.
    replace (Z.to_nat PGSIZE)
      with (length (concat [bytes; replicate (Z.to_nat (zero_bytes spte)) x00])).
    + rewrite read_write_chunks. cbn [concat]. rewrite app_nil_r.
      unfold bytes. rewrite Hn. reflexivity.
    + cbn [concat]. rewrite app_nil_r, length_app, Hlen, length_replicate. lia.
  - intros Hshort Hpos.
    assert (Hn : n <> read_bytes spte) by (unfold n, lift_min; lia).
    exists s2. split; [|reflexivity].
    unfold vm_load_page_from_filesys.
    eapply bind_intro; [exact Hseek|].
    eapply bind_intro; [exact Hread|].
    destruct (Z.eqb_spec n (read_bytes spte)) as [|_]; [contradiction|]. reflexivity.
Qed.

(** An entry for the first [rd] bytes of file [f], then [zr] zeros. *)
Definition filesys_entry (f rd zr : Z) : supplemental_page_table_entry :=
  {| spte_upage := UPAGE0; spte_kpage := NULL; status := FROM_FILESYS;
     is_dirty := false; swap_index := 0; spte_file := f; file_offset := 0;
     read_bytes := rd; zero_bytes := zr; writable := true |}.

Lemma load_from_filesys_contents_witness :
  (exists s',
     vm_load_page_from_filesys (filesys_entry 502 4096 0) KPAGE0 open_files_state
     = Ret true s'
     /\ mem_read (mem s') KPAGE0 (Z.to_nat PGSIZE) = replicate (Z.to_nat 4096) "b"%byte)
  /\ (exists s',
        vm_load_page_from_filesys (filesys_entry 501 10 7) KPAGE0 open_files_state
        = Ret false s').
Proof.
  split.
  - destruct (load_from_filesys_contents open_files_state (filesys_entry 502 4096 0) KPAGE0
                {| f_inode := 3; f_pos := 0 |} (replicate (Z.to_nat 4096) "b"%byte))
      as [Hfull _].
    + vm_compute. reflexivity.
    + vm_compute. reflexivity.
    + cbn [filesys_entry file_offset read_bytes zero_bytes]. lia.
    + cbn [filesys_entry file_offset read_bytes zero_bytes]. lia.
    + cbn [filesys_entry file_offset read_bytes zero_bytes]. lia.
    + destruct Hfull as (s' & Hrun & Hmem & _).
      * rewrite length_replicate. cbn [filesys_entry file_offset read_bytes]. lia.
      * reflexivity.
      * exists s'. split; [exact Hrun|]. rewrite Hmem.
        cbn [filesys_entry read_bytes file_offset zero_bytes].
        change (Z.to_nat 0) with 0%nat. cbn [replicate drop].
        rewrite app_nil_r. apply take_ge. rewrite length_replicate. lia.
  - destruct (load_from_filesys_contents open_files_state (filesys_entry 501 10 7) KPAGE0
                {| f_inode := 2; f_pos := 0 |} []) as [_ Hshort].
    + vm_compute. reflexivity.
    + vm_compute. reflexivity.
    + cbn [filesys_entry file_offset read_bytes zero_bytes]. lia.
    + cbn [filesys_entry file_offset read_bytes zero_bytes]. lia.
    + cbn [filesys_entry file_offset read_bytes zero_bytes]. lia.
    + destruct Hshort as (s' & Hrun & _).
      * cbn [filesys_entry file_offset read_bytes length]. lia.
      * cbn [filesys_entry file_offset read_bytes length]. lia.
      * exists s'. exact Hrun.
Defined.

(** ** Unmapping pages that are not on swap *)

(** X14.  [vm_supt_munmap] of a page that was never faulted in (its entry
    is still [FROM_FILESYS]) only drops the entry: nothing is written to
    the file, no frame and no swap slot is touched, and the entry's block
    is not handed back to the heap.  For a page without entry, and for an
    entry that is [ALL_ZEROS], it panics. *)
Theorem munmap_untouched_page :
  forall (s : state) (supt pd page f offset bytes : Z)
         (tbl : gmap Z supplemental_page_table_entry),
    supts s !! supt = Some tbl ->
    (forall spte, tbl !! page = Some spte -> status spte = FROM_FILESYS ->
       vm_supt_munmap supt pd page f offset bytes s
       = Ret true (set_supts (<[supt := delete page tbl]> (supts s)) s))
    /\ (forall spte, tbl !! page = Some spte -> status spte = ALL_ZEROS ->
          vm_supt_munmap supt pd page f offset bytes s = Panic s)
    /\ (tbl !! page = None ->
          vm_supt_munmap supt pd page f offset bytes s = Panic s).
Proof.
  intros s supt pd page f offset bytes tbl Htbl.
  split; [|split].
  - intros spte He Hst. unfold vm_supt_munmap.
    eapply bind_intro; [apply (vm_supt_find_eq _ _ _ tbl Htbl)|].
    rewrite He, Hst. rewrite bool_decide_eq_false_2 by discriminate.
    unfold bind, ret, hash_delete_spte, modify. rewrite Htbl. reflexivity.
  - intros spte He Hst. unfold vm_supt_munmap.
    eapply bind_intro; [apply (vm_supt_find_eq _ _ _ tbl Htbl)|].
    rewrite He, Hst. rewrite bool_decide_eq_false_2 by discriminate. reflexivity.
  - intros Hnone. unfold vm_supt_munmap.
    eapply bind_intro; [apply (vm_supt_find_eq _ _ _ tbl Htbl)|].
    rewrite Hnone. reflexivity.
Qed.

Lemma munmap_untouched_page_witness :
  (exists s', vm_supt_munmap 20 10 MAPBASE 1001 0 PGSIZE mapped_state = Ret true s')
  /\ vm_supt_munmap 20 10 UPAGE0 0 0 PGSIZE zero_installed_state = Panic zero_installed_state
  /\ vm_supt_munmap 20 10 UPAGE0 0 0 PGSIZE (boot 4 2 2) = Panic (boot 4 2 2).
Proof.
  split; [|split].
  - assert (Ht : exists tbl e, supts mapped_state !! 20 = Some tbl
                               /\ tbl !! MAPBASE = Some e /\ status e = FROM_FILESYS).
    { eexists. eexists. split; [vm_compute; reflexivity|].
      split; vm_compute; reflexivity. }
    destruct Ht as (tbl & e & Ht & He & Hst).
    eexists.
    exact (proj1 (munmap_untouched_page mapped_state 20 10 MAPBASE 1001 0 PGSIZE tbl Ht)
             e He Hst).
  - assert (Ht : exists tbl e, supts zero_installed_state !! 20 = Some tbl
                               /\ tbl !! UPAGE0 = Some e /\ status e = ALL_ZEROS).
    { eexists. eexists. split; [vm_compute; reflexivity|].
      split; vm_compute; reflexivity. }
    destruct Ht as (tbl & e & Ht & He & Hst).
    exact (proj1 (proj2 (munmap_untouched_page zero_installed_state 20 10 UPAGE0 0 0 PGSIZE
                           tbl Ht)) e He Hst).
  - apply (proj2 (proj2 (munmap_untouched_page (boot 4 2 2) 20 10 UPAGE0 0 0 PGSIZE ∅
                           eq_refl))).
    reflexivity.
Defined.

(** ** System calls on descriptors, and pinning of user buffers *)

Lemma filesys_lock_round (s : state) :
  filesys_lock s = None ->
  put_filesys_lock None (put_filesys_lock (Some (current s)) s) = s.
Proof. intros H. destruct s. cbn in *. subst. reflexivity. Qed.

Lemma find_file_desc_unknown (s : state) (fd : Z) (th : thread) :
  threads s !! current s = Some th ->
  fd < 3 \/ find (fun d => fd_id d =? fd) (file_descriptors th) = None ->
  find_file_desc (current s) fd s = Ret None s.
Proof.
  intros Hth Hwhy. unfold find_file_desc.
  destruct (Z.ltb_spec fd 3) as [|Hge]; [reflexivity|].
  destruct Hwhy as [|Hnone]; [lia|].
  unfold bind, thread_get, deref, ret. rewrite Hth, Hnone. reflexivity.
Qed.

(** X15.  On a descriptor the caller does not hold -- a number below 3 or
    one that is not in its list -- [sys_filesize] answers -1 and leaves the
    kernel state as it was, but [sys_seek] returns with [filesys_lock]
    still held by the caller; from then on the caller's next [sys_seek] or
    [sys_filesize], whatever its descriptor, panics on taking the lock
    again. *)
Theorem sys_seek_keeps_lock :
  forall (s : state) (fd position : Z) (th : thread),
    filesys_lock s = None ->
    threads s !! current s = Some th ->
    fd < 3 \/ find (fun d => fd_id d =? fd) (file_descriptors th) = None ->
    sys_filesize fd s = Ret (-1) s
    /\ sys_seek fd position s = Ret tt (put_filesys_lock (Some (current s)) s)
    /\ forall fd' position',
         sys_seek fd' position' (put_filesys_lock (Some (current s)) s)
         = Panic (put_filesys_lock (Some (current s)) s)
         /\ sys_filesize fd' (put_filesys_lock (Some (current s)) s)
            = Panic (put_filesys_lock (Some (current s)) s).
Proof.
  intros s fd position th Hlock Hth Hwhy.
  assert (Hacq : lock_acquire filesys_lock put_filesys_lock s
                 = Ret tt (put_filesys_lock (Some (current s)) s)).
  { unfold lock_acquire. rewrite Hlock. reflexivity. }
  assert (Hfind : find_file_desc (current s) fd (put_filesys_lock (Some (current s)) s)
                  = Ret None (put_filesys_lock (Some (current s)) s)).
  { apply (find_file_desc_unknown (put_filesys_lock (Some (current s)) s) fd th);
      [exact Hth | exact Hwhy]. }
  split; [|split].
  - unfold sys_filesize.
    eapply bind_intro; [exact Hacq|].
    eapply bind_intro; [reflexivity|].
    eapply bind_intro; [exact Hfind|].
    unfold bind, lock_release, ret. cbn [filesys_lock put_filesys_lock set_filesys_lock current].
    rewrite bool_decide_eq_true_2 by reflexivity.
    rewrite filesys_lock_round by exact Hlock. reflexivity.
  - unfold sys_seek.
    eapply bind_intro; [exact Hacq|].
    eapply bind_intro; [reflexivity|].
    eapply bind_intro; [exact Hfind|]. reflexivity.
  - intros fd' position'.
    assert (Hagain : lock_acquire filesys_lock put_filesys_lock
                       (put_filesys_lock (Some (current s)) s)
                     = Panic (put_filesys_lock (Some (current s)) s)).
    { unfold lock_acquire. cbn [filesys_lock put_filesys_lock set_filesys_lock current].
      rewrite Z.eqb_refl. reflexivity. }
    unfold sys_seek, sys_filesize, bind. rewrite Hagain. split; reflexivity.
Qed.

Lemma sys_seek_keeps_lock_witness :
  sys_filesize 7 open_files_state = Ret (-1) open_files_state
  /\ sys_seek 7 0 open_files_state = Ret tt (put_filesys_lock (Some 1) open_files_state)
  /\ sys_filesize 3 (put_filesys_lock (Some 1) open_files_state)
     = Panic (put_filesys_lock (Some 1) open_files_state).
Proof.
  destruct (sys_seek_keeps_lock open_files_state 7 0
              {| th_pagedir := 10; th_supt := 20;
                 file_descriptors := [ {| fd_id := 3; fd_file := 500 |};
                                       {| fd_id := 4; fd_file := 501 |};
                                       {| fd_id := 5; fd_file := 502 |} ];
                 mmap_list := [] |}) as (Hsize & Hseek & Hnext).
  - reflexivity.
  - vm_compute. reflexivity.
  - right. reflexivity.
  - split; [exact Hsize|]. split; [exact Hseek|]. exact (proj2 (Hnext 3 0)).
Defined.

(** X16.  With a descriptor the caller holds, [sys_filesize] answers the
    length of the file and changes nothing at all.  [sys_seek] hands its
    unsigned position to [file_seek] as a signed offset: a position below
    [2 ^ 31] becomes the file position and [filesys_lock] is free
    afterwards; a position from [2 ^ 31] on arrives negative, [file_seek]
    panics on it, and [filesys_lock] is still held by the caller. *)
Theorem sys_filesize_and_seek :
  forall (s : state) (fd position : Z) (th : thread) (d : file_desc) (h : file)
         (data : list byte),
    filesys_lock s = None ->
    threads s !! current s = Some th ->
    3 <= fd ->
    find (fun d => fd_id d =? fd) (file_descriptors th) = Some d ->
    fd_file d <> NULL ->
    files s !! fd_file d = Some h ->
    inodes s !! f_inode h = Some data ->
    sys_filesize fd s = Ret (Z.of_nat (length data)) s
    /\ (0 <= position < 2 ^ 31 ->
        sys_seek fd position s
        = Ret tt (set_files (<[fd_file d := {| f_inode := f_inode h; f_pos := position |}]>
                               (files s)) s))
    /\ (2 ^ 31 <= position < 2 ^ 32 ->
        sys_seek fd position s = Panic (put_filesys_lock (Some (current s)) s)).
Proof.
  intros s fd position th d h data Hlock Hth Hfd Hfind Hfile Hh Hdata.
  assert (Hacq : lock_acquire filesys_lock put_filesys_lock s
                 = Ret tt (put_filesys_lock (Some (current s)) s)).
  { unfold lock_acquire. rewrite Hlock. reflexivity. }
  assert (Hdesc : find_file_desc (current s) fd (put_filesys_lock (Some (current s)) s)
                  = Ret (Some d) (put_filesys_lock (Some (current s)) s)).
  { unfold find_file_desc. destruct (Z.ltb_spec fd 3) as [|_]; [lia|].
    unfold bind, thread_get, deref, ret. cbn [threads put_filesys_lock set_filesys_lock].
    rewrite Hth, Hfind. reflexivity. }
  split; [|split].
  - unfold sys_filesize.
    eapply bind_intro; [exact Hacq|].
    eapply bind_intro; [reflexivity|].
    eapply bind_intro; [exact Hdesc|].
    eapply bind_intro.
    { unfold file_length. cbn [files inodes put_filesys_lock set_filesys_lock].
      rewrite Hh, Hdata. reflexivity. }
    unfold bind, lock_release, ret. cbn [filesys_lock put_filesys_lock set_filesys_lock current].
    rewrite bool_decide_eq_true_2 by reflexivity.
    rewrite filesys_lock_round by exact Hlock. reflexivity.
  - intros Hpos. unfold sys_seek.
    assert (Hconv : to_off_t position = position).
    { unfold to_off_t, u32, WORD. rewrite Z.mod_small by lia.
      destruct (Z.ltb_spec position (2 ^ 31)); [reflexivity | lia]. }
    eapply bind_intro; [exact Hacq|].
    eapply bind_intro; [reflexivity|].
    eapply bind_intro; [exact Hdesc|].
    cbv beta iota. rewrite (proj2 (Z.eqb_neq _ _) Hfile). cbn [negb].
    eapply bind_intro.
    { unfold file_seek. cbn [files put_filesys_lock set_filesys_lock]. rewrite Hh, Hconv.
      destruct (Z.ltb_spec position 0) as [|_]; [lia | reflexivity]. }
    unfold lock_release. cbn [filesys_lock put_filesys_lock set_filesys_lock set_files current].
    rewrite bool_decide_eq_true_2 by reflexivity.
    destruct s. cbn in *. subst. reflexivity.
  - intros Hpos. unfold sys_seek.
    assert (Hconv : to_off_t position < 0).
    { unfold to_off_t, u32, WORD. rewrite Z.mod_small by lia.
      destruct (Z.ltb_spec position (2 ^ 31)); lia. }
    eapply bind_intro; [exact Hacq|].
    eapply bind_intro; [reflexivity|].
    eapply bind_intro; [exact Hdesc|].
    cbv beta iota. rewrite (proj2 (Z.eqb_neq _ _) Hfile). cbn [negb].
    unfold bind, file_seek. cbn [files put_filesys_lock set_filesys_lock]. rewrite Hh.
    destruct (Z.ltb_spec (to_off_t position) 0) as [_|]; [reflexivity | lia].
Qed.

Lemma sys_filesize_and_seek_witness :
  sys_filesize 3 open_files_state = Ret 6144 open_files_state
  /\ (exists s', sys_seek 3 100 open_files_state = Ret tt s' /\ filesys_lock s' = None)
  /\ sys_seek 3 (2 ^ 31) open_files_state
     = Panic (put_filesys_lock (Some 1) open_files_state).
Proof.
  assert (Hfile : {| fd_id := 3; fd_file := 500 |}.(fd_file) <> NULL).
  { cbn [fd_file]. unfold NULL. lia. }
  pose proof (fun position =>
    sys_filesize_and_seek open_files_state 3 position
      {| th_pagedir := 10; th_supt := 20;
         file_descriptors := [ {| fd_id := 3; fd_file := 500 |};
                               {| fd_id := 4; fd_file := 501 |};
                               {| fd_id := 5; fd_file := 502 |} ];
         mmap_list := [] |}
      {| fd_id := 3; fd_file := 500 |} {| f_inode := 1; f_pos := 0 |}
      (replicate (Z.to_nat 6144) "a"%byte)
      eq_refl eq_refl ltac:(lia) eq_refl Hfile eq_refl eq_refl) as Hboth.
  destruct (Hboth 100) as (Hsize & Hseek & _).
  destruct (Hboth (2 ^ 31)) as (_ & _ & Hpanic).
  split.
  { rewrite Hsize, length_replicate. reflexivity. }
  split.
  - eexists. split; [apply Hseek; lia | reflexivity].
  - apply Hpanic. lia.
Defined.

(** X17.  On a buffer none of whose pages has an entry in the caller's
    table, [preload_and_pin_pages] returns without having loaded or pinned
    anything -- the kernel state is as before -- whereas the matching
    [unpin_preloaded_pages] panics at the first page. *)
Theorem preload_unpin_unknown_pages :
  forall (s : state) (buffer size : Z) (th : thread)
         (tbl : gmap Z supplemental_page_table_entry),
    threads s !! current s = Some th ->
    supts s !! th_supt th = Some tbl ->
    (forall page, page ∈ buffer_pages buffer size -> tbl !! page = None) ->
    preload_and_pin_pages buffer size s = Ret tt s
    /\ (buffer_pages buffer size <> [] -> unpin_preloaded_pages buffer size s = Panic s).
Proof.
  intros s buffer size th tbl Hth Htbl Hnone.
  assert (Hme : thread_get (current s) s = Ret th s).
  { unfold thread_get, deref. rewrite Hth. reflexivity. }
  split.
  - unfold preload_and_pin_pages.
    eapply bind_intro; [reflexivity|].
    eapply bind_intro; [exact Hme|].
    induction (buffer_pages buffer size) as [|page pages IH]; [reflexivity|].
    cbn [for_each].
    assert (Hpage : tbl !! page = None) by (apply Hnone; left).
    eapply bind_intro.
    { eapply bind_intro.
      - unfold vm_load_page.
        eapply bind_intro; [apply (vm_supt_find_eq _ _ _ tbl Htbl)|].
        rewrite Hpage. reflexivity.
      - unfold vm_pin_page.
        eapply bind_intro; [apply (vm_supt_find_eq _ _ _ tbl Htbl)|].
        rewrite Hpage. reflexivity. }
    apply IH. intros p Hp. apply Hnone. right. exact Hp.
  - intros Hne. unfold unpin_preloaded_pages.
    eapply bind_intro; [reflexivity|].
    eapply bind_intro; [exact Hme|].
    destruct (buffer_pages buffer size) as [|page pages]; [contradiction|].
    cbn [for_each]. unfold bind at 1. unfold vm_unpin_page.
    unfold bind at 1. rewrite (vm_supt_find_eq _ _ _ tbl Htbl).
    rewrite (Hnone page) by left. reflexivity.
Qed.

Lemma preload_unpin_unknown_pages_witness :
  preload_and_pin_pages (UPAGE0 + 100) 5000 (boot 4 2 2) = Ret tt (boot 4 2 2)
  /\ unpin_preloaded_pages (UPAGE0 + 100) 5000 (boot 4 2 2) = Panic (boot 4 2 2).
Proof.
  destruct (preload_unpin_unknown_pages (boot 4 2 2) (UPAGE0 + 100) 5000
              {| th_pagedir := 10; th_supt := 20; file_descriptors := []; mmap_list := [] |}
              ∅) as [Hpre Hunpin].
  - reflexivity.
  - reflexivity.
  - intros page _. reflexivity.
  - split; [exact Hpre|]. apply Hunpin. vm_compute. discriminate.
Defined.

(** ** Memory-mapped files: a successful mapping, and its removal *)

(** The key under which [sys_mmap] files the page at [offset] of a
    mapping at [up], and the entry it installs there for file [f] of
    [size] bytes. *)
Definition mmap_key (up offset : Z) : Z := u32 (up + offset).

Definition mmap_entry (junk : supplemental_page_table_entry) (f up size offset : Z)
  : supplemental_page_table_entry :=
  {| spte_upage := mmap_key up offset; spte_kpage := NULL; status := FROM_FILESYS;
     is_dirty := false; swap_index := swap_index junk; spte_file := f;
     file_offset := offset;
     read_bytes := Z.min PGSIZE (size - offset);
     zero_bytes := PGSIZE - Z.min PGSIZE (size - offset);
     writable := true |}.

Fixpoint mmap_installs (junk : supplemental_page_table_entry) (f up size : Z)
    (offsets : list Z) (tbl : gmap Z supplemental_page_table_entry)
  : gmap Z supplemental_page_table_entry :=
  match offsets with
  | [] => tbl
  | o :: l => mmap_installs junk f up size l
                (<[mmap_key up o := mmap_entry junk f up size o]> tbl)
  end.

Fixpoint mmap_deletes (up : Z) (offsets : list Z)
    (tbl : gmap Z supplemental_page_table_entry)
  : gmap Z supplemental_page_table_entry :=
  match offsets with
  | [] => tbl
  | o :: l => mmap_deletes up l (delete (mmap_key up o) tbl)
  end.

(** What neither the installation loop nor the removal loop of an
    untouched mapping changes. *)
Definition beside_tables (s : state) :=
  (swap s, ft s, (kernel_pool s, user_pool s, mem s), (kernel_ptes s, pagedirs s),
   (threads s, current s, filesys_lock s), (files s, inodes s, trace s)).

Lemma mmap_installs_other junk f up size (l : list Z) :
  forall tbl page,
    page ∉ map (mmap_key up) l ->
    mmap_installs junk f up size l tbl !! page = tbl !! page.
Proof.
  induction l as [|o l IH]; intros tbl page Hnin; [reflexivity|].
  cbn [mmap_installs map] in *. apply not_elem_of_cons in Hnin as [Hne Hnin].
  rewrite IH by exact Hnin. apply lookup_insert_ne. congruence.
Qed.

Lemma mmap_installs_at junk f up size (l : list Z) :
  forall tbl o,
    NoDup (map (mmap_key up) l) ->
    o ∈ l ->
    mmap_installs junk f up size l tbl !! mmap_key up o
    = Some (mmap_entry junk f up size o).
Proof.
  induction l as [|x l IH]; intros tbl o Hnd Ho; [inversion Ho|].
  cbn [mmap_installs map] in *. apply NoDup_cons in Hnd as [Hx Hnd].
  apply elem_of_cons in Ho as [->|Ho].
  - rewrite mmap_installs_other by exact Hx. apply lookup_insert_eq.
  - apply IH; assumption.
Qed.

Lemma mmap_deletes_installs junk f up size (l : list Z) :
  forall tbl,
    NoDup (map (mmap_key up) l) ->
    (forall o, o ∈ l -> tbl !! mmap_key up o = None) ->
    mmap_deletes up l (mmap_installs junk f up size l tbl) = tbl.
Proof.
  induction l as [|x l IH]; intros tbl Hnd Hnone; [reflexivity|].
  cbn [mmap_installs mmap_deletes map] in *. apply NoDup_cons in Hnd as [Hx Hnd].
  assert (Hcomm : forall l' t, mmap_key up x ∉ map (mmap_key up) l' ->
            delete (mmap_key up x) (mmap_installs junk f up size l' t)
            = mmap_installs junk f up size l' (delete (mmap_key up x) t)).
  { induction l' as [|y l' IH']; intros t Hy; [reflexivity|].
    cbn [mmap_installs map] in *. apply not_elem_of_cons in Hy as [Hne Hy].
    rewrite IH' by exact Hy. f_equal. apply delete_insert_ne. congruence. }
  rewrite Hcomm by exact Hx.
  rewrite delete_insert_id by (apply Hnone; left).
  apply IH; [exact Hnd|]. intros o Ho. apply Hnone. right. exact Ho.
Qed.

Lemma mmap_overlaps_none (supt up : Z) (tbl : gmap Z supplemental_page_table_entry)
    (s : state) (offsets : list Z) :
  supts s !! supt = Some tbl ->
  (forall o, o ∈ offsets -> tbl !! mmap_key up o = None) ->
  mmap_overlaps supt up offsets s = Ret false s.
Proof.
  intros Htbl. induction offsets as [|x l IH]; intros Hnone; [reflexivity|].
  cbn [mmap_overlaps]. unfold bind, vm_supt_has_entry, vm_supt_find, bind, get, deref, ret.
  rewrite Htbl. change (u32 (up + x)) with (mmap_key up x).
  rewrite (Hnone x) by left. apply IH. intros o Ho. apply Hnone. right. exact Ho.
Qed.

(** The installation loop of [sys_mmap]. *)
Lemma mmap_install_loop junk (supt f up size : Z) (l : list Z) :
  forall (s : state) (tbl : gmap Z supplemental_page_table_entry),
    supts s !! supt = Some tbl ->
    (forall o, o ∈ l -> tbl !! mmap_key up o = None) ->
    NoDup (map (mmap_key up) l) ->
    (length l <= kheap_avail s)%nat ->
    exists s',
      for_each l (fun offset =>
          let rd := if offset + PGSIZE <? size then PGSIZE else size - offset in
          do _ <- vm_supt_install_filesys junk supt (u32 (up + offset))
                    f offset rd (PGSIZE - rd) true;
          ret tt) s = Ret tt s'
      /\ supts s' = <[supt := mmap_installs junk f up size l tbl]> (supts s)
      /\ kheap_avail s' = (kheap_avail s - length l)%nat
      /\ next_addr s' = next_addr s + Z.of_nat (length l)
      /\ beside_tables s' = beside_tables s.
Proof.
  induction l as [|o l IH]; intros s tbl Htbl Hnone Hnd Hheap.
  - exists s. split; [reflexivity|]. cbn [mmap_installs length].
    split; [rewrite insert_id by exact Htbl; reflexivity|].
    split; [lia|]. split; [lia | reflexivity].
  - cbn [length map] in *. apply NoDup_cons in Hnd as [Ho Hnd].
    destruct (kheap_avail s) as [|n] eqn:Hn; [lia|].
    set (e := mmap_entry junk f up size o).
    set (s1 := set_supts (<[supt := <[mmap_key up o := e]> tbl]> (supts s))
                 (set_kheap n (next_addr s + 1) s)).
    assert (Hrd : (if o + PGSIZE <? size then PGSIZE else size - o)
                  = Z.min PGSIZE (size - o)).
    { destruct (Z.ltb_spec (o + PGSIZE) size); lia. }
    assert (Hstep : (do _ <- vm_supt_install_filesys junk supt (u32 (up + o)) f o
                               (if o + PGSIZE <? size then PGSIZE else size - o)
                               (PGSIZE - (if o + PGSIZE <? size then PGSIZE else size - o))
                               true;
                     ret tt) s = Ret tt s1).
    { rewrite Hrd. unfold vm_supt_install_filesys.
      eapply bind_intro.
      { eapply bind_intro; [unfold malloc; rewrite Hn; reflexivity|].
        eapply bind_intro.
        { apply (hash_insert_spte_fresh _ _ tbl); [exact Htbl|].
          cbn [spte_upage]. apply Hnone. left. }
        reflexivity. }
      reflexivity. }
    destruct (IH s1 (<[mmap_key up o := e]> tbl))
      as (s' & Hrun & Hsup & Hk & Hnext & Hrest).
    + unfold s1. cbn [supts set_supts]. apply lookup_insert_eq.
    + intros o' Ho'. rewrite lookup_insert_ne.
      * apply Hnone. right. exact Ho'.
      * intros Heq. apply Ho. rewrite Heq. apply list_elem_of_fmap_2. exact Ho'.
    + exact Hnd.
    + unfold s1. cbn [kheap_avail set_supts set_kheap]. lia.
    + exists s'. split.
      { cbn [for_each]. eapply bind_intro; [exact Hstep | exact Hrun]. }
      split.
      { rewrite Hsup. unfold s1. cbn [supts set_supts set_kheap mmap_installs].
        apply insert_insert_eq. }
      split; [rewrite Hk; unfold s1; cbn [kheap_avail set_supts set_kheap]; lia|].
      split; [rewrite Hnext; unfold s1; cbn [next_addr set_supts set_kheap]; lia|].
      rewrite Hrest. reflexivity.
Qed.

(** The removal loop of [sys_munmap] on pages that were never faulted
    in. *)
Lemma munmap_untouched_loop (supt pd f up size : Z) (l : list Z) :
  forall (s : state) (tbl : gmap Z supplemental_page_table_entry),
    supts s !! supt = Some tbl ->
    (forall o, o ∈ l -> exists e, tbl !! mmap_key up o = Some e /\ status e = FROM_FILESYS) ->
    NoDup (map (mmap_key up) l) ->
    for_each l (fun offset =>
        let bytes := if offset + PGSIZE <? size then PGSIZE else size - offset in
        do _ <- vm_supt_munmap supt pd (u32 (up + offset)) f offset bytes;
        ret tt) s
    = Ret tt (set_supts (<[supt := mmap_deletes up l tbl]> (supts s)) s).
Proof.
  induction l as [|o l IH]; intros s tbl Htbl Hin Hnd.
  - cbn [for_each mmap_deletes]. rewrite insert_id by exact Htbl.
    destruct s. reflexivity.
  - cbn [map] in Hnd. apply NoDup_cons in Hnd as [Ho Hnd].
    destruct (Hin o) as (e & He & Hst); [left|].
    cbn [for_each mmap_deletes].
    eapply bind_intro.
    { eapply bind_intro; [|reflexivity].
      unfold vm_supt_munmap.
      eapply bind_intro; [apply (vm_supt_find_eq _ _ _ tbl Htbl)|].
      change (u32 (up + o)) with (mmap_key up o).
      rewrite He, Hst. rewrite bool_decide_eq_false_2 by discriminate.
      unfold bind, ret, hash_delete_spte, modify. rewrite Htbl. reflexivity. }
    rewrite (IH _ (delete (mmap_key up o) tbl)).
    + cbn [supts set_supts]. rewrite insert_insert_eq. reflexivity.
    + cbn [supts set_supts]. apply lookup_insert_eq.
    + intros o' Ho'. destruct (Hin o') as (e' & He' & Hst'); [right; exact Ho'|].
      exists e'. split; [|exact Hst'].
      rewrite lookup_delete_ne; [exact He'|].
      intros Heq. apply Ho. rewrite Heq. apply list_elem_of_fmap_2. exact Ho'.
    + exact Hnd.
Qed.

Lemma page_offsets_inv (size o : Z) :
  o ∈ page_offsets size -> exists k, o = PGSIZE * k /\ 0 <= k /\ PGSIZE * k < size.
Proof.
  unfold page_offsets. intros H. apply list_elem_of_In, in_map_iff in H as (k & <- & Hk).
  apply in_seq in Hk. exists (Z.of_nat k). split; [reflexivity|]. split; [lia|].
  destruct Hk as [_ Hk]. cbn [Nat.add] in Hk.
  assert (Hpos : 0 < (size + PGSIZE - 1) / PGSIZE) by lia.
  assert (Hlt : Z.of_nat k < (size + PGSIZE - 1) / PGSIZE) by lia.
  pose proof (Z.mul_div_le (size + PGSIZE - 1) PGSIZE ltac:(reflexivity)).
  unfold PGSIZE in *. lia.
Qed.

Lemma page_offsets_length (size : Z) :
  length (page_offsets size) = Z.to_nat ((size + PGSIZE - 1) / PGSIZE).
Proof. unfold page_offsets. rewrite length_map, length_seq. reflexivity. Qed.

(** The pages of one mapping have pairwise different keys: a file is
    shorter than 2^31 bytes, so the addresses cannot wrap onto each
    other. *)
Lemma mmap_keys_NoDup (up size : Z) :
  size <= WORD -> NoDup (map (mmap_key up) (page_offsets size)).
Proof.
  intros Hsize. apply NoDup_fmap_2_strong.
  - intros x y Hx Hy Heq.
    apply page_offsets_inv in Hx as (k1 & -> & Hk1 & Hl1).
    apply page_offsets_inv in Hy as (k2 & -> & Hk2 & Hl2).
    unfold mmap_key, u32 in Heq.
    pose proof (Z.div_mod (up + PGSIZE * k1) WORD ltac:(discriminate)) as E1.
    pose proof (Z.div_mod (up + PGSIZE * k2) WORD ltac:(discriminate)) as E2.
    unfold WORD, PGSIZE in *. change (2 ^ 32) with 4294967296 in *. lia.
  - unfold page_offsets. apply NoDup_fmap_2_strong.
    + intros x y _ _ Heq. unfold PGSIZE in Heq. lia.
    + apply NoDup_seq.
Qed.

(** The identifier [sys_mmap] gives to a new mapping. *)
Definition next_mapid (l : list mmap_desc) : Z :=
  match last l with Some d => mm_id d + 1 | None => 1 end.

(** What a successful [sys_mmap] does to the kernel state. *)
Lemma sys_mmap_run (s : state) (junk : supplemental_page_table_entry) (fd up : Z)
    (th : thread) (d : file_desc) (h : file) (data : list byte)
    (tbl : gmap Z supplemental_page_table_entry) :
  let size := Z.of_nat (length data) in
  let f := next_addr s in
  let offsets := page_offsets size in
  up <> NULL -> pg_ofs up = 0 -> 3 <= fd ->
  filesys_lock s = None ->
  threads s !! current s = Some th ->
  find (fun d => fd_id d =? fd) (file_descriptors th) = Some d ->
  fd_file d <> NULL ->
  files s !! fd_file d = Some h ->
  inodes s !! f_inode h = Some data ->
  0 < size < 2 ^ 31 ->
  supts s !! th_supt th = Some tbl ->
  (forall o, o ∈ offsets -> tbl !! mmap_key up o = None) ->
  (length offsets + 2 <= kheap_avail s)%nat ->
  exists s',
    sys_mmap junk fd up s = Ret (next_mapid (mmap_list th)) s'
    /\ supts s' = <[th_supt th := mmap_installs junk f up size offsets tbl]> (supts s)
    /\ threads s'
       = <[current s :=
             with_mmap_list
               (mmap_list th ++ [ {| mm_id := next_mapid (mmap_list th); mm_file := f;
                                     mm_addr := up; mm_size := size |} ]) th]> (threads s)
    /\ files s' = <[f := {| f_inode := f_inode h; f_pos := 0 |}]> (files s)
    /\ filesys_lock s' = None
    /\ kheap_avail s' = (kheap_avail s - (length offsets + 2))%nat
    /\ (swap s', ft s', (kernel_pool s', user_pool s', mem s'),
        (kernel_ptes s', pagedirs s'), current s', inodes s', trace s')
       = (swap s, ft s, (kernel_pool s, user_pool s, mem s),
          (kernel_ptes s, pagedirs s), current s, inodes s, trace s).
Proof.
  intros size f offsets Hnn Hal Hfd Hlock Hth Hfind Hfile Hh Hdata Hsize Htbl Hnone Hheap.
  destruct (kheap_avail s) as [|n] eqn:Hn; [lia|].
  set (s0 := put_filesys_lock (Some (current s)) s).
  set (sA := set_files (<[f := {| f_inode := f_inode h; f_pos := 0 |}]> (files s))
               (set_kheap n (f + 1) s0)).
  assert (Hreopen : file_reopen (fd_file d) s0 = Ret (Some f) sA).
  { unfold file_reopen, malloc. cbn [files kheap_avail s0 put_filesys_lock set_filesys_lock].
    rewrite Hh, Hn. reflexivity. }
  assert (Hlen : file_length f sA = Ret size sA).
  { unfold file_length. cbn [files inodes sA set_files set_kheap s0 put_filesys_lock
                             set_filesys_lock].
    rewrite lookup_insert_eq. cbn [f_inode]. rewrite Hdata. reflexivity. }
  destruct (mmap_install_loop junk (th_supt th) f up size offsets sA tbl)
    as (sB & Hloop & HsupB & HkB & HnextB & HrestB).
  { exact Htbl. }
  { exact Hnone. }
  { apply mmap_keys_NoDup. unfold WORD. lia. }
  { cbn [kheap_avail sA set_files set_kheap]. lia. }
  unfold beside_tables in HrestB.
  cbn [swap ft kernel_pool user_pool mem kernel_ptes pagedirs threads current filesys_lock
       files inodes trace sA set_files set_kheap s0 put_filesys_lock set_filesys_lock]
    in HrestB.
  injection HrestB as Hsw Hft Hkp Hup Hmem Hkpt Hpd Hthr Hcur Hfl Hfiles Hino Htr.
  cbn [kheap_avail next_addr supts sA set_files set_kheap s0 put_filesys_lock
       set_filesys_lock] in HsupB, HkB, HnextB.
  destruct (kheap_avail sB) as [|m] eqn:Hm; [lia|].
  eexists. split.
  { unfold sys_mmap.
    destruct (Z.eqb_spec up NULL) as [|_]; [contradiction|].
    rewrite Hal. cbn [Z.eqb negb orb].
    destruct (Z.leb_spec fd 1) as [|_]; [lia|].
    eapply bind_intro; [reflexivity|].
    eapply bind_intro; [unfold lock_acquire; rewrite Hlock; reflexivity|].
    eapply bind_intro.
    { unfold find_file_desc. destruct (Z.ltb_spec fd 3) as [|_]; [lia|].
      unfold bind, thread_get, deref, ret.
      change (threads (put_filesys_lock (Some (current s)) s)) with (threads s).
      rewrite Hth, Hfind. reflexivity. }
    cbv beta iota. rewrite (proj2 (Z.eqb_neq _ _) Hfile). cbn [negb].
    eapply bind_intro; [exact Hreopen|].
    eapply bind_intro; [exact Hlen|].
    destruct (Z.eqb_spec size 0) as [|_]; [lia|].
    eapply bind_intro; [unfold thread_get, deref; cbn; rewrite Hth; reflexivity|].
    eapply bind_intro.
    { apply (mmap_overlaps_none _ _ tbl); [exact Htbl | exact Hnone]. }
    eapply bind_intro; [exact Hloop|].
    eapply bind_intro; [unfold thread_get, deref; rewrite Hthr, Hth; reflexivity|].
    eapply bind_intro; [unfold malloc; rewrite Hm; reflexivity|].
    eapply bind_intro; [reflexivity|].
    eapply bind_intro.
    { unfold lock_release. cbn [filesys_lock set_threads set_kheap current].
      rewrite Hfl, Hcur. rewrite bool_decide_eq_true_2 by reflexivity. reflexivity. }
    reflexivity. }
  cbn [supts threads files filesys_lock kheap_avail swap ft kernel_pool user_pool mem
       kernel_ptes pagedirs current inodes trace put_filesys_lock set_filesys_lock
       set_threads set_kheap].
  rewrite HsupB, Hthr, Hfiles, Hsw, Hft, Hkp, Hup, Hmem, Hkpt, Hpd, Hcur, Hino, Htr.
  split; [reflexivity|]. split; [reflexivity|]. split; [reflexivity|].
  split; [reflexivity|]. split; [lia | reflexivity].
Qed.

(** X18.  A successful [sys_mmap]: for a descriptor the caller holds on a
    non-empty file, an aligned non-null address, no page of the range
    already in the caller's table and enough heap, it returns the
    identifier after the last one of the caller's list (1 on an empty
    list), has reopened the file, has installed for every page of the file
    a clean [FROM_FILESYS] entry -- file offset [PGSIZE * k], PGSIZE bytes to
    read except for the rest of the file on the last page, the remainder
    of the page zero, writable -- leaving every other page of the table as
    it was, has appended the descriptor of the mapping to the caller's
    list, and has released [filesys_lock]. *)
Theorem sys_mmap_installs_pages :
  forall (s : state) (junk : supplemental_page_table_entry) (fd up : Z)
         (th : thread) (d : file_desc) (h : file) (data : list byte)
         (tbl : gmap Z supplemental_page_table_entry),
    let size := Z.of_nat (length data) in
    up <> NULL -> pg_ofs up = 0 -> 3 <= fd ->
    filesys_lock s = None ->
    threads s !! current s = Some th ->
    find (fun d => fd_id d =? fd) (file_descriptors th) = Some d ->
    fd_file d <> NULL ->
    files s !! fd_file d = Some h ->
    inodes s !! f_inode h = Some data ->
    0 < size < 2 ^ 31 ->
    supts s !! th_supt th = Some tbl ->
    (forall k, 0 <= k -> PGSIZE * k < size -> tbl !! u32 (up + PGSIZE * k) = None) ->
    (Z.to_nat ((size + PGSIZE - 1) / PGSIZE) + 2 <= kheap_avail s)%nat ->
    exists s' tbl' th',
      sys_mmap junk fd up s = Ret (next_mapid (mmap_list th)) s'
      /\ supts s' !! th_supt th = Some tbl'
      /\ (forall k, 0 <= k -> PGSIZE * k < size ->
            tbl' !! u32 (up + PGSIZE * k)
            = Some (mmap_entry junk (next_addr s) up size (PGSIZE * k)))
      /\ (forall page,
            (forall k, 0 <= k -> PGSIZE * k < size -> page <> u32 (up + PGSIZE * k)) ->
            tbl' !! page = tbl !! page)
      /\ threads s' !! current s = Some th'
      /\ mmap_list th'
         = mmap_list th ++ [ {| mm_id := next_mapid (mmap_list th); mm_file := next_addr s;
                                mm_addr := up; mm_size := size |} ]
      /\ files s' !! next_addr s = Some {| f_inode := f_inode h; f_pos := 0 |}
      /\ filesys_lock s' = None.
Proof.
  intros s junk fd up th d h data tbl size Hnn Hal Hfd Hlock Hth Hfind Hfile Hh Hdata
    Hsize Htbl Hnone Hheap.
  destruct (sys_mmap_run s junk fd up th d h data tbl Hnn Hal Hfd Hlock Hth Hfind Hfile Hh
              Hdata Hsize Htbl)
    as (s' & Hrun & Hsup & Hthr & Hfiles & Hfl & _).
  { intros o Ho. apply page_offsets_inv in Ho as (k & -> & Hk & Hlt). apply Hnone; assumption. }
  { rewrite page_offsets_length. exact Hheap. }
  assert (Hnd : NoDup (map (mmap_key up) (page_offsets size))).
  { apply mmap_keys_NoDup. unfold WORD. lia. }
  eexists. eexists. eexists. split; [exact Hrun|].
  split; [rewrite Hsup; apply lookup_insert_eq|].
  split.
  { intros k Hk Hlt. apply (mmap_installs_at junk _ up size _ tbl (PGSIZE * k) Hnd).
    apply page_offsets_elem; assumption. }
  split.
  { intros page Hpage. apply mmap_installs_other.
    intros Hin. apply list_elem_of_fmap_1 in Hin as (o & -> & Ho).
    apply page_offsets_inv in Ho as (k & -> & Hk & Hlt).
    exact (Hpage k Hk Hlt eq_refl). }
  split; [rewrite Hthr; apply lookup_insert_eq|].
  split; [reflexivity|].
  split; [rewrite Hfiles; apply lookup_insert_eq | exact Hfl].
Qed.

Lemma sys_mmap_installs_pages_witness :
  exists s' tbl',
    sys_mmap no_spte 3 MAPBASE open_files_state = Ret 1 s'
    /\ supts s' !! 20 = Some tbl'
    /\ tbl' !! u32 (MAPBASE + PGSIZE * 1)
       = Some (mmap_entry no_spte 1000 MAPBASE 6144 (PGSIZE * 1)).
Proof.
  destruct (sys_mmap_installs_pages open_files_state no_spte 3 MAPBASE
              {| th_pagedir := 10; th_supt := 20;
                 file_descriptors := [ {| fd_id := 3; fd_file := 500 |};
                                       {| fd_id := 4; fd_file := 501 |};
                                       {| fd_id := 5; fd_file := 502 |} ];
                 mmap_list := [] |}
              {| fd_id := 3; fd_file := 500 |} {| f_inode := 1; f_pos := 0 |}
              (replicate (Z.to_nat 6144) "a"%byte) ∅)
    as (s' & tbl' & th' & Hrun & Htbl & Hentries & _).
  - unfold MAPBASE, NULL. lia.
  - vm_compute. reflexivity.
  - lia.
  - reflexivity.
  - vm_compute. reflexivity.
  - reflexivity.
  - cbn [fd_file]. unfold NULL. lia.
  - vm_compute. reflexivity.
  - vm_compute. reflexivity.
  - rewrite length_replicate. lia.
  - reflexivity.
  - intros k _ _. reflexivity.
  - rewrite length_replicate. vm_compute. lia.
  - exists s', tbl'. split; [exact Hrun|]. split; [exact Htbl|].
    rewrite length_replicate in Hentries.
    rewrite (Hentries 1); [| lia | unfold PGSIZE; lia].
    reflexivity.
Defined.

(** Identifiers along a thread's list of mappings grow strictly. *)
Fixpoint increasing (l : list Z) : Prop :=
  match l with
  | [] => True
  | x :: l' => Forall (fun y => x < y) l' /\ increasing l'
  end.

Definition mmap_ids_increasing (l : list mmap_desc) : Prop := increasing (map mm_id l).

Lemma ids_below_next (l : list mmap_desc) :
  mmap_ids_increasing l -> forall x, x ∈ l -> mm_id x < next_mapid l.
Proof.
  unfold mmap_ids_increasing, next_mapid.
  induction l as [|y l IH]; intros Hs x Hx; [inversion Hx|].
  cbn [map increasing] in Hs. destruct Hs as [Hall Hs].
  destruct l as [|z l].
  - apply list_elem_of_singleton in Hx as ->. cbn. lia.
  - change (last (y :: z :: l)) with (last (z :: l)).
    apply elem_of_cons in Hx as [->|Hx]; [|exact (IH Hs x Hx)].
    specialize (IH Hs z ltac:(left)).
    cbn [map] in Hall. apply Forall_cons in Hall as [Hyz _]. lia.
Qed.

Lemma increasing_snoc (l : list Z) (x : Z) :
  increasing l -> Forall (fun y => y < x) l -> increasing (l ++ [x]).
Proof.
  induction l as [|y l IH]; intros Hs Hall.
  - cbn. split; [constructor | exact I].
  - cbn [app increasing] in *. destruct Hs as [Hy Hs].
    apply Forall_cons in Hall as [Hyx Hall].
    split; [|apply IH; assumption].
    apply Forall_app. split; [exact Hy|]. constructor; [exact Hyx | constructor].
Qed.

Lemma ids_increasing_snoc (l : list mmap_desc) (d : mmap_desc) :
  mmap_ids_increasing l -> mm_id d = next_mapid l -> mmap_ids_increasing (l ++ [d]).
Proof.
  intros Hs Hd. pose proof (ids_below_next l Hs) as Hbelow.
  unfold mmap_ids_increasing in *. rewrite map_app. cbn [map].
  apply increasing_snoc; [exact Hs|].
  apply Forall_forall. intros y Hy.
  apply list_elem_of_fmap_1 in Hy as (x & -> & Hx). rewrite Hd. apply Hbelow. exact Hx.
Qed.

Lemma find_snoc_fresh {A} (p : A -> bool) (l : list A) (d : A) :
  (forall x, x ∈ l -> p x = false) -> p d = true -> find p (l ++ [d]) = Some d.
Proof.
  intros Hl Hd. induction l as [|y l IH].
  - cbn. rewrite Hd. reflexivity.
  - cbn [app find]. rewrite (Hl y) by left. apply IH. intros x Hx. apply Hl. right. exact Hx.
Qed.

Lemma find_all_false {A} (p : A -> bool) (l : list A) :
  (forall x, x ∈ l -> p x = false) -> find p l = None.
Proof.
  induction l as [|y l IH]; intros Hl; [reflexivity|].
  cbn [find]. rewrite (Hl y) by left. apply IH. intros x Hx. apply Hl. right. exact Hx.
Qed.

Lemma remove_snoc_fresh (l : list mmap_desc) (d : mmap_desc) (mid : Z) :
  (forall x, x ∈ l -> mm_id x <> mid) -> mm_id d = mid ->
  remove_mmap_desc (l ++ [d]) mid = l.
Proof.
  intros Hl Hd. induction l as [|y l IH].
  - cbn. rewrite Hd, Z.eqb_refl. reflexivity.
  - cbn [app remove_mmap_desc].
    destruct (Z.eqb_spec (mm_id y) mid) as [Heq|_]; [destruct (Hl y ltac:(left) Heq)|].
    f_equal. apply IH. intros x Hx. apply Hl. right. exact Hx.
Qed.

(** X19.  Mapping a file and unmapping it again before any of its pages
    is touched is a round trip: [sys_munmap] of the identifier that
    [sys_mmap] returned brings the supplemental page tables, the threads'
    mapping lists and the table of open files back to what they were,
    writes nothing to the file, and releases [filesys_lock].  The heap does
    not come back whole: the blocks of the page entries, one per page of
    the file, are not returned. *)
Theorem mmap_munmap_round_trip :
  forall (s : state) (junk : supplemental_page_table_entry) (fd up : Z)
         (th : thread) (d : file_desc) (h : file) (data : list byte)
         (tbl : gmap Z supplemental_page_table_entry),
    let size := Z.of_nat (length data) in
    let pages := Z.to_nat ((size + PGSIZE - 1) / PGSIZE) in
    up <> NULL -> pg_ofs up = 0 -> 3 <= fd ->
    filesys_lock s = None ->
    threads s !! current s = Some th ->
    find (fun d => fd_id d =? fd) (file_descriptors th) = Some d ->
    fd_file d <> NULL ->
    files s !! fd_file d = Some h ->
    inodes s !! f_inode h = Some data ->
    0 < size < 2 ^ 31 ->
    supts s !! th_supt th = Some tbl ->
    (forall k, 0 <= k -> PGSIZE * k < size -> tbl !! u32 (up + PGSIZE * k) = None) ->
    (pages + 2 <= kheap_avail s)%nat ->
    files s !! next_addr s = None ->
    mmap_ids_increasing (mmap_list th) ->
    exists s1 s2,
      sys_mmap junk fd up s = Ret (next_mapid (mmap_list th)) s1
      /\ sys_munmap (next_mapid (mmap_list th)) s1 = Ret true s2
      /\ supts s2 = supts s
      /\ threads s2 = threads s
      /\ files s2 = files s
      /\ inodes s2 = inodes s
      /\ trace s2 = trace s
      /\ filesys_lock s2 = None
      /\ (kheap_avail s2 + pages)%nat = kheap_avail s.
Proof.
  intros s junk fd up th d h data tbl size pages Hnn Hal Hfd Hlock Hth Hfind Hfile Hh Hdata
    Hsize Htbl Hnone Hheap Hfresh Hids.
  assert (Hnone' : forall o, o ∈ page_offsets size -> tbl !! mmap_key up o = None).
  { intros o Ho. apply page_offsets_inv in Ho as (k & -> & Hk & Hlt). apply Hnone; assumption. }
  assert (Hnd : NoDup (map (mmap_key up) (page_offsets size))).
  { apply mmap_keys_NoDup. unfold WORD. lia. }
  destruct (sys_mmap_run s junk fd up th d h data tbl Hnn Hal Hfd Hlock Hth Hfind Hfile Hh
              Hdata Hsize Htbl Hnone')
    as (s1 & Hrun & Hsup & Hthr & Hfiles & Hfl & Hk & Hrest).
  { rewrite page_offsets_length. exact Hheap. }
  injection Hrest as Hsw Hft Hkp Hup Hmem Hkpt Hpd Hcur Hino Htr.
  rewrite page_offsets_length in Hk. fold size pages in Hk.
  set (mid := next_mapid (mmap_list th)) in *.
  set (f := next_addr s) in *.
  set (desc := {| mm_id := mid; mm_file := f; mm_addr := up; mm_size := size |}) in *.
  set (th1 := with_mmap_list (mmap_list th ++ [desc]) th) in *.
  set (tbl1 := mmap_installs junk f up size (page_offsets size) tbl) in *.
  assert (Hth1 : threads s1 !! current s1 = Some th1).
  { rewrite Hthr, Hcur. apply lookup_insert_eq. }
  assert (Hbelow : forall x, x ∈ mmap_list th -> mm_id x <> mid).
  { intros x Hx. pose proof (ids_below_next _ Hids x Hx). fold mid in H. lia. }
  set (s1L := put_filesys_lock (Some (current s1)) s1).
  set (s2 := set_supts (<[th_supt th := mmap_deletes up (page_offsets size) tbl1]>
                          (supts s1L)) s1L).
  exists s1. eexists. split; [exact Hrun|].
  split.
  { unfold sys_munmap.
    eapply bind_intro; [reflexivity|].
    eapply bind_intro.
    { unfold find_mmap_desc, bind, thread_get, deref, ret. rewrite Hth1.
      cbn [mmap_list th1 with_mmap_list].
      rewrite (find_snoc_fresh _ _ desc); [reflexivity | | cbn; apply Z.eqb_refl].
      intros x Hx. apply Z.eqb_neq. apply Hbelow. exact Hx. }
    cbv beta iota.
    eapply bind_intro; [unfold lock_acquire; rewrite Hfl; reflexivity|].
    eapply bind_intro.
    { unfold thread_get, deref. fold s1L.
      change (threads s1L) with (threads s1). rewrite Hth1. reflexivity. }
    eapply bind_intro.
    { fold s1L. cbn [mm_size mm_addr mm_file desc th_supt th_pagedir th1 with_mmap_list].
      apply (munmap_untouched_loop (th_supt th) (th_pagedir th) f up size
               (page_offsets size) s1L tbl1).
      - change (supts s1L) with (supts s1). rewrite Hsup. apply lookup_insert_eq.
      - intros o Ho. exists (mmap_entry junk f up size o).
        split; [apply mmap_installs_at; assumption | reflexivity].
      - exact Hnd. }
    fold s2.
    eapply bind_intro.
    { unfold thread_get, deref. change (threads s2) with (threads s1).
      change (current s1L) with (current s1). rewrite Hth1. reflexivity. }
    eapply bind_intro; [reflexivity|].
    eapply bind_intro; [reflexivity|].
    eapply bind_intro; [reflexivity|].
    eapply bind_intro.
    { unfold lock_release.
      cbn [filesys_lock current set_kheap set_files set_threads s2 set_supts s1L
           put_filesys_lock set_filesys_lock].
      rewrite bool_decide_eq_true_2 by reflexivity. reflexivity. }
    reflexivity. }
  cbn [supts threads files inodes trace filesys_lock kheap_avail put_filesys_lock
       set_filesys_lock set_kheap set_files set_threads s2 set_supts s1L
       mm_file desc mmap_list th1 with_mmap_list current].
  rewrite Hsup, Hthr, Hfiles, Hino, Htr, Hcur, Hk.
  split.
  { rewrite insert_insert_eq. unfold tbl1.
    rewrite mmap_deletes_installs by assumption. apply insert_id. exact Htbl. }
  split.
  { rewrite insert_insert_eq, remove_snoc_fresh by (exact Hbelow || reflexivity).
    assert (Hsame : with_mmap_list (mmap_list th) th1 = th).
    { unfold th1. destruct th. reflexivity. }
    rewrite Hsame. apply insert_id. exact Hth. }
  split; [apply delete_insert_id; exact Hfresh|].
  split; [reflexivity|]. split; [reflexivity|]. split; [reflexivity|].
  lia.
Qed.

Lemma mmap_munmap_round_trip_witness :
  exists s1 s2,
    sys_mmap no_spte 3 MAPBASE open_files_state = Ret 1 s1
    /\ sys_munmap 1 s1 = Ret true s2
    /\ supts s2 = supts open_files_state
    /\ threads s2 = threads open_files_state
    /\ (kheap_avail s2 + 2)%nat = kheap_avail open_files_state.
Proof.
  destruct (mmap_munmap_round_trip open_files_state no_spte 3 MAPBASE
              {| th_pagedir := 10; th_supt := 20;
                 file_descriptors := [ {| fd_id := 3; fd_file := 500 |};
                                       {| fd_id := 4; fd_file := 501 |};
                                       {| fd_id := 5; fd_file := 502 |} ];
                 mmap_list := [] |}
              {| fd_id := 3; fd_file := 500 |} {| f_inode := 1; f_pos := 0 |}
              (replicate (Z.to_nat 6144) "a"%byte) ∅)
    as (s1 & s2 & Hmap & Hunmap & Hsup & Hthr & _ & _ & _ & _ & Hheap).
  - unfold MAPBASE, NULL. lia.
  - vm_compute. reflexivity.
  - lia.
  - reflexivity.
  - vm_compute. reflexivity.
  - reflexivity.
  - cbn [fd_file]. unfold NULL. lia.
  - vm_compute. reflexivity.
  - vm_compute. reflexivity.
  - rewrite length_replicate. lia.
  - reflexivity.
  - intros k _ _. reflexivity.
  - rewrite length_replicate. vm_compute. lia.
  - vm_compute. reflexivity.
  - exact I.
  - exists s1, s2. split; [exact Hmap|]. split; [exact Hunmap|].
    split; [exact Hsup|]. split; [exact Hthr|].
    rewrite length_replicate in Hheap. exact Hheap.
Defined.

(** ** Identifiers of mappings *)

Definition ids_ok (ths : gmap Z thread) : Prop :=
  forall tid th, ths !! tid = Some th -> mmap_ids_increasing (mmap_list th).

(** In every thread the identifiers of the mappings grow along the
    list. *)
Definition mmap_ids_ok (s : state) : Prop := ids_ok (threads s).

Lemma hoare_threads_kept {A} (m : M A) :
  preserves threads m -> hoare mmap_ids_ok m (fun _ => mmap_ids_ok).
Proof. intros H. exact (hoare_preserved threads ids_ok m H). Qed.

Lemma mmap_overlaps_pure (supt up : Z) (offsets : list Z) {X} (f : state -> X) :
  preserves f (mmap_overlaps supt up offsets).
Proof.
  induction offsets as [|o l IH]; cbn [mmap_overlaps]; [apply preserves_ret|].
  apply preserves_bind; [pres|]. intros has. destruct has; [apply preserves_ret | exact IH].
Qed.

Lemma vm_supt_munmap_threads (supt pd page f offset bytes : Z) :
  preserves (fun s => (threads s, current s)) (vm_supt_munmap supt pd page f offset bytes).
Proof.
  unfold vm_supt_munmap, user_read. pres.
Qed.

Lemma increasing_remove (l : list mmap_desc) (mid : Z) :
  mmap_ids_increasing l ->
  mmap_ids_increasing (remove_mmap_desc l mid)
  /\ find (fun d => mm_id d =? mid) (remove_mmap_desc l mid) = None.
Proof.
  unfold mmap_ids_increasing.
  induction l as [|y l IH]; intros Hs; [split; [exact I | reflexivity]|].
  cbn [map increasing] in Hs. destruct Hs as [Hall Hs].
  cbn [remove_mmap_desc].
  destruct (Z.eqb_spec (mm_id y) mid) as [Heq|Hne].
  - split; [exact Hs|].
    apply find_all_false. intros x Hx. apply Z.eqb_neq.
    rewrite Forall_forall in Hall.
    specialize (Hall (mm_id x) (list_elem_of_fmap_2 mm_id _ _ Hx)). lia.
  - destruct (IH Hs) as [Hs' Hnone]. split.
    + cbn [map increasing]. split; [|exact Hs'].
      apply Forall_forall. intros z Hz.
      apply list_elem_of_fmap_1 in Hz as (x & -> & Hx).
      rewrite Forall_forall in Hall. apply Hall. apply list_elem_of_fmap_2.
      clear -Hx. induction l as [|w l IHl]; [inversion Hx|].
      cbn [remove_mmap_desc] in Hx. destruct (mm_id w =? mid); [right; exact Hx|].
      apply elem_of_cons in Hx as [->|Hx]; [left | right; exact (IHl Hx)].
    + cbn [find]. rewrite (proj2 (Z.eqb_neq _ _) Hne). exact Hnone.
Qed.

(** X20.  The identifiers of a thread's mappings grow strictly along its
    list, and both system calls keep it so: whenever [sys_mmap] or
    [sys_munmap] returns, the lists are still increasing.  Identifiers are
    therefore never shared by two mappings of a thread, and after a
    [sys_munmap] that returned true the identifier is unknown: a second
    [sys_munmap] of it returns false and changes nothing.  (Identifiers
    are unbounded integers here, as in [sys_mmap]; the [int] of the source
    would have to wrap for the order to break.) *)
Theorem mmap_ids_stay_increasing :
  forall s : state,
    mmap_ids_ok s ->
    (forall junk fd up r s', sys_mmap junk fd up s = Ret r s' -> mmap_ids_ok s')
    /\ (forall mid b s',
          sys_munmap mid s = Ret b s' ->
          mmap_ids_ok s'
          /\ (b = true -> sys_munmap mid s' = Ret false s')).
Proof.
  intros s Hok. split.
  - intros junk fd up r s'. revert s Hok r s'.
    change (hoare mmap_ids_ok (sys_mmap junk fd up) (fun _ => mmap_ids_ok)).
    unfold sys_mmap.
    destruct (_ || _); [apply hoare_ret; auto|].
    destruct (fd <=? 1); [apply hoare_ret; auto|].
    apply (hoare_bind _ (fun _ => mmap_ids_ok)); [apply hoare_threads_kept; pres | intros cur].
    apply (hoare_bind _ (fun _ => mmap_ids_ok)); [apply hoare_threads_kept; pres | intros _].
    assert (Hfail : hoare mmap_ids_ok
                      (run lock_release filesys_lock put_filesys_lock; ret (-1))
                      (fun _ => mmap_ids_ok)).
    { apply hoare_threads_kept. pres. }
    apply (hoare_bind _ (fun _ => mmap_ids_ok)).
    { apply hoare_threads_kept. unfold find_file_desc. pres. }
    intros file_d.
    apply (hoare_bind _ (fun _ => mmap_ids_ok)).
    { apply hoare_threads_kept. destruct file_d as [d|]; [|pres].
      destruct (negb _); pres. }
    intros [f|]; [|exact Hfail].
    apply (hoare_bind _ (fun _ => mmap_ids_ok)); [apply hoare_threads_kept; pres | intros size].
    destruct (size =? 0); [exact Hfail|].
    apply (hoare_bind _ (fun _ => mmap_ids_ok)); [apply hoare_threads_kept; pres | intros curr0].
    apply (hoare_bind _ (fun _ => mmap_ids_ok)).
    { apply hoare_threads_kept. apply mmap_overlaps_pure. }
    intros overlap. destruct overlap; [exact Hfail|].
    apply (hoare_bind _ (fun _ => mmap_ids_ok)); [apply hoare_threads_kept; pres | intros _].
    apply (hoare_bind _ (fun curr s => mmap_ids_ok s /\ threads s !! cur = Some curr)).
    { intros s0 H0 curr s1 Hget. unfold thread_get, deref in Hget.
      destruct (threads s0 !! cur) as [c|] eqn:Hc; [|discriminate].
      injection Hget as <- <-. split; [exact H0 | exact Hc]. }
    intros curr.
    apply (hoare_bind _ (fun _ s => mmap_ids_ok s /\ threads s !! cur = Some curr)).
    { intros s0 [H0 Hc] block s1 Hm.
      assert (Hp : preserves threads malloc) by pres.
      unfold mmap_ids_ok. rewrite (Hp _ _ _ Hm). split; assumption. }
    intros [a|]; [|intros s0 _ r s1 Hu; discriminate].
    apply (hoare_bind _ (fun _ => mmap_ids_ok)).
    { intros s0 [H0 Hc] [] s1 Hm. injection Hm as <-.
      unfold mmap_ids_ok. cbn [threads set_threads]. intros tid th Hth.
      destruct (decide (tid = cur)) as [->|Hne].
      - rewrite lookup_insert_eq in Hth. injection Hth as <-.
        cbn [mmap_list with_mmap_list].
        apply ids_increasing_snoc; [exact (H0 cur curr Hc) | reflexivity].
      - rewrite lookup_insert_ne in Hth by congruence. exact (H0 tid th Hth). }
    intros _. apply hoare_threads_kept. pres.
  - intros mid b s' Hrun. unfold sys_munmap in Hrun.
    apply bind_inv in Hrun as (cur & s0 & Hcur & Hrun).
    injection Hcur as <- <-.
    apply bind_inv in Hrun as (found & s0 & Hfound & Hrun).
    unfold find_mmap_desc in Hfound.
    apply bind_inv in Hfound as (th & s0' & Hget & Hfound).
    unfold thread_get, deref in Hget.
    destruct (threads s !! current s) as [th0|] eqn:Hth; [|discriminate].
    injection Hget as <- <-. injection Hfound as <- <-.
    destruct (find (fun d => mm_id d =? mid) (mmap_list th0)) as [d|] eqn:Hfind.
    2:{ injection Hrun as <- <-. split; [exact Hok | discriminate]. }
    apply bind_inv in Hrun as ([] & s1 & Hlock & Hrun).
    apply bind_inv in Hrun as (curr & s1' & Hget & Hrun).
    apply bind_inv in Hrun as ([] & s2 & Hloop & Hrun).
    apply bind_inv in Hrun as (curr2 & s2' & Hget2 & Hrun).
    assert (Hlk : (threads s1, current s1) = (threads s, current s)).
    { assert (Hp : preserves (fun s => (threads s, current s))
                     (lock_acquire filesys_lock put_filesys_lock)) by pres.
      exact (Hp _ _ _ Hlock). }
    unfold thread_get, deref in Hget.
    destruct (threads s1 !! current s) as [c|] eqn:Hc; [|discriminate].
    injection Hget as <- <-.
    assert (Hlp : (threads s2, current s2) = (threads s1, current s1)).
    { assert (Hp : preserves (fun s => (threads s, current s))
                (for_each (page_offsets (mm_size d))
                   (fun offset =>
                      let bytes := if offset + PGSIZE <? mm_size d then PGSIZE
                                   else mm_size d - offset in
                      do _ <- vm_supt_munmap (th_supt c) (th_pagedir c)
                                (u32 (mm_addr d + offset)) (mm_file d) offset bytes;
                      ret tt))).
      { apply preserves_for_each. intros o.
        apply preserves_bind; [apply vm_supt_munmap_threads | intros _; apply preserves_ret]. }
      exact (Hp _ _ _ Hloop). }
    injection Hlk as Hthr1 Hcur1. injection Hlp as Hthr2 Hcur2.
    unfold thread_get, deref in Hget2. rewrite Hthr2, Hthr1, Hth in Hget2.
    injection Hget2 as <- <-.
    apply bind_inv in Hrun as ([] & s3 & Hmod & Hrun).
    unfold modify in Hmod. injection Hmod as <-.
    apply bind_inv in Hrun as ([] & s4 & Hclose & Hrun).
    unfold file_close, free, bind, modify in Hclose. injection Hclose as <-.
    apply bind_inv in Hrun as ([] & s5 & Hfree & Hrun).
    unfold free, modify in Hfree. injection Hfree as <-.
    apply bind_inv in Hrun as ([] & s6 & Hrel & Hrun).
    unfold ret in Hrun. injection Hrun as <- <-.
    unfold lock_release in Hrel. destruct (bool_decide _); [|discriminate].
    injection Hrel as <-.
    destruct (increasing_remove (mmap_list th0) mid (Hok _ _ Hth)) as [Hinc Hgone].
    match goal with |- mmap_ids_ok ?st /\ _ => set (sF := st) end.
    assert (HthF : threads sF
                   = <[current s := with_mmap_list (remove_mmap_desc (mmap_list th0) mid) th0]>
                       (threads s)).
    { unfold sF, put_filesys_lock.
      cbn [threads set_filesys_lock set_kheap set_files set_threads].
      rewrite Hthr2, Hthr1. reflexivity. }
    assert (HcurF : current sF = current s).
    { unfold sF, put_filesys_lock.
      cbn [current set_filesys_lock set_kheap set_files set_threads]. congruence. }
    clearbody sF.
    split.
    + unfold mmap_ids_ok. rewrite HthF. intros tid th Hth'.
      destruct (decide (tid = current s)) as [->|Hne].
      * rewrite lookup_insert_eq in Hth'. injection Hth' as <-.
        cbn [mmap_list with_mmap_list]. exact Hinc.
      * rewrite lookup_insert_ne in Hth' by congruence. exact (Hok tid th Hth').
    + intros _. unfold sys_munmap.
      eapply bind_intro; [reflexivity|].
      eapply bind_intro.
      { unfold find_mmap_desc, bind, thread_get, deref, ret.
        rewrite HcurF, HthF, lookup_insert_eq.
        cbn [mmap_list with_mmap_list]. rewrite Hgone. reflexivity. }
      reflexivity.
Qed.

Lemma mmap_ids_stay_increasing_witness :
  exists s1 s2,
    sys_munmap 1 mapped_state = Ret true s1
    /\ mmap_ids_ok s1
    /\ sys_munmap 1 s1 = Ret false s2.
Proof.
  assert (Hrun : sys_munmap 1 mapped_state = Ret true (exec (sys_munmap 1) mapped_state)).
  { apply run_returns. vm_compute. reflexivity. }
  assert (Hok : mmap_ids_ok mapped_state).
  { intros tid th Hth.
    assert (Hthreads : threads mapped_state
                       = {[ 1 := {| th_pagedir := 10; th_supt := 20;
                                    file_descriptors :=
                                      [ {| fd_id := 3; fd_file := 500 |};
                                        {| fd_id := 4; fd_file := 501 |};
                                        {| fd_id := 5; fd_file := 502 |} ];
                                    mmap_list := [ {| mm_id := 1; mm_file := 1000;
                                                      mm_addr := MAPBASE;
                                                      mm_size := 6144 |} ] |} ]})
      by (vm_compute; reflexivity).
    rewrite Hthreads in Hth. apply lookup_singleton_Some in Hth as [_ <-].
    cbn. split; [constructor | exact I]. }
  destruct (proj2 (mmap_ids_stay_increasing mapped_state Hok) 1 true _ Hrun) as [Hok1 Hagain].
  exists (exec (sys_munmap 1) mapped_state), (exec (sys_munmap 1) mapped_state).
  split; [exact Hrun|]. split; [exact Hok1|]. apply Hagain. reflexivity.
Defined.

(** ** The resolver on its successful path *)

Lemma ASSERT_inv (b : bool) (s s' : state) (u : unit) :
  ASSERT b s = Ret u s' -> b = true /\ s' = s.
Proof. unfold ASSERT. destruct b; [|discriminate]. intros H. injection H as <-. auto. Qed.

(** What a successful [pagedir_set_page] leaves in the page directory. *)
Lemma pagedir_set_page_maps (pd up kp : Z) (wr : bool) (s s' : state) :
  pagedir_set_page pd up kp wr s = Ret true s' ->
  is_user_vaddr up = true
  /\ exists d,
       pagedirs s' !! pd = Some d
       /\ lookup_page s' d up
          = Some {| pte_p := true; pte_w := wr; pte_a := false; pte_d := false;
                    pte_frame := kp |}.
Proof.
  unfold pagedir_set_page. intros H.
  apply bind_inv in H as (u1 & s1 & H1 & H). apply ASSERT_inv in H1 as [_ ->].
  apply bind_inv in H as (u2 & s2 & H2 & H). apply ASSERT_inv in H2 as [_ ->].
  apply bind_inv in H as (u3 & s3 & H3 & H). apply ASSERT_inv in H3 as [Huser ->].
  apply bind_inv in H as (u4 & s4 & H4 & H). apply ASSERT_inv in H4 as [_ ->].
  apply bind_inv in H as (s0 & s5 & H5 & H). injection H5 as <- <-.
  apply bind_inv in H as (d & s6 & H6 & H).
  unfold deref in H6. destruct (pagedirs s !! pd) as [d0|] eqn:Hd; [|discriminate].
  injection H6 as <- <-.
  split; [exact Huser|].
  assert (Hinstall : forall (d1 : pagedir) (st : state),
            pd_no up ∈ pd_tables d1 ->
            (run ASSERT (negb (pte_p (default pte_zero (pd_ptes d1 !! pg_no up))));
             run modify (fun s =>
                   set_pagedirs
                     (<[pd := with_ptes
                                (<[pg_no up :=
                                     {| pte_p := true; pte_w := wr; pte_a := false;
                                        pte_d := false; pte_frame := kp |}]> (pd_ptes d1)) d1]>
                        (pagedirs s)) s);
             ret true) st = Ret true s' ->
            exists d, pagedirs s' !! pd = Some d
                      /\ lookup_page s' d up
                         = Some {| pte_p := true; pte_w := wr; pte_a := false;
                                   pte_d := false; pte_frame := kp |}).
  { intros d1 st Htab Hi.
    apply bind_inv in Hi as (u & st1 & Ha & Hi). apply ASSERT_inv in Ha as [_ ->].
    apply bind_inv in Hi as (u' & st2 & Hm & Hi).
    unfold modify in Hm. injection Hm as _ Hm. unfold ret in Hi. injection Hi as Hi.
    rewrite <- Hi, <- Hm.
    eexists. split; [cbn [pagedirs set_pagedirs]; apply lookup_insert_eq|].
    unfold lookup_page. unfold is_user_vaddr in Huser. unfold is_kernel_vaddr.
    destruct (Z.leb_spec PHYS_BASE up) as [|_]; [apply Z.ltb_lt in Huser; lia|].
    cbn [pd_tables pd_ptes with_ptes].
    rewrite bool_decide_eq_true_2 by exact Htab.
    rewrite lookup_insert_eq. reflexivity. }
  destruct (bool_decide_reflect (pd_no up ∈ pd_tables d0)) as [Hin|Hnin].
  - exact (Hinstall d0 s Hin H).
  - apply bind_inv in H as (pt & s7 & Hpt & H).
    destruct (pt =? NULL); [discriminate|].
    apply (Hinstall {| pd_tables := {[pd_no up]} ∪ pd_tables d0; pd_ptes := pd_ptes d0 |}
             s7); [|exact H].
    cbn [pd_tables]. apply elem_of_union. left. apply elem_of_singleton. reflexivity.
Qed.

Lemma fill_frame_supts (spte : supplemental_page_table_entry) (kp : Z) :
  preserves supts (fill_frame spte kp).
Proof. unfold fill_frame. pres. Qed.

Lemma pagedir_set_page_supts (pd up kp : Z) (wr : bool) :
  preserves supts (pagedir_set_page pd up kp wr).
Proof. unfold pagedir_set_page. pres. Qed.

(** X21.  When [vm_load_page] has obtained a frame, populated it and
    installed the mapping, it returns true and leaves the page resident:
    the page's entry is [ON_FRAME] at the frame, its other fields as they
    were; the frame table keys the frame to an entry owned by the running
    thread, for this page, which is no longer pinned; the hardware maps
    the page to the frame, clean and not accessed, writable unless the
    page is file backed and was installed read-only; the frame lock is
    free. *)
Theorem vm_load_page_makes_resident :
  forall (s s1 sm s2 : state) (supt pd up kp : Z)
         (tbl tbl1 : gmap Z supplemental_page_table_entry)
         (e0 spte : supplemental_page_table_entry),
    supts s !! supt = Some tbl ->
    tbl !! up = Some e0 ->
    status e0 <> ON_FRAME ->
    pools_ok s -> frame_table_ok s ->
    vm_frame_alloc PAL_USER up s = Ret kp s1 -> kp <> NULL ->
    supts s1 !! supt = Some tbl1 -> tbl1 !! up = Some spte ->
    fill_frame spte kp s1 = Ret true sm ->
    pagedir_set_page pd up kp (write_permission spte) sm = Ret true s2 ->
    exists s' d,
      vm_load_page supt pd up s = Ret true s'
      /\ supts s' !! supt = Some (<[up := with_frame kp spte]> tbl1)
      /\ frame_hash (ft s') !! kp = Some (next_addr s)
      /\ ft_heap (ft s') !! next_addr s
         = Some {| kpage := kp; upage := up; t := current s; is_pinned := false |}
      /\ frame_lock (ft s') = None
      /\ pagedirs s' !! pd = Some d
      /\ lookup_page s' d up
         = Some {| pte_p := true; pte_w := write_permission spte; pte_a := false;
                   pte_d := false; pte_frame := kp |}
      /\ mem s' = mem s2.
Proof.
  intros s s1 sm s2 supt pd up kp tbl tbl1 e0 spte Htbl He0 Hst Hpools Htable Halloc Hkp
    Htbl1 Hspte Hfill Hmap.
  destruct (vm_frame_alloc_post _ _ _ _ _ Halloc)
    as (_ & _ & Hlock1 & [[Hz _]|(_ & Hin1 & _ & Hentry1 & _)]); [contradiction|].
  destruct (vm_frame_alloc_fresh _ _ _ _ _ Hpools Htable Halloc Hkp) as (Hhash1 & _).
  pose proof (pools_ok_geometry _ _ (vm_frame_alloc_geometry _ _ _ _ _ Halloc) Hpools)
    as Hpools1.
  assert (Hkern : is_kernel_vaddr kp = true).
  { destruct Hin1 as (i & Hi & Hbit).
    exact (proj1 (proj2 (user_page_facts kp i s1 Hpools1 Hi (lookup_lt_Some _ _ _ Hbit)))). }
  assert (Hview : frame_view s2 = frame_view s1).
  { rewrite (pagedir_set_page_view _ _ _ _ _ _ _ Hmap).
    exact (fill_frame_view _ _ _ _ _ Hfill). }
  unfold frame_view in Hview. injection Hview as Hft _ _.
  assert (Hsup2 : supts s2 = supts s1).
  { rewrite (pagedir_set_page_supts _ _ _ _ _ _ _ Hmap).
    exact (fill_frame_supts _ _ _ _ _ Hfill). }
  destruct (pagedir_set_page_maps _ _ _ _ _ _ Hmap) as (Huser & d & Hd & Hpte).
  set (s3 := set_supts (<[supt := <[up := with_frame kp spte]> tbl1]> (supts s2)) s2).
  set (s4 := set_kernel_ptes
               (<[pg_no kp := with_d false (default pte_zero (kernel_ptes s3 !! pg_no kp))]>
                  (kernel_ptes s3)) s3).
  assert (Hdirty : pagedir_set_dirty pd kp false s3 = Ret tt s4).
  { unfold pagedir_set_dirty, pte_modify. cbn [pagedirs s3 set_supts]. rewrite Hd.
    unfold lookup_page. rewrite Hkern. unfold store_pte. rewrite Hkern. reflexivity. }
  assert (Hunpin : vm_frame_unpin kp s4
                   = Ret tt (set_ft (with_ft_heap
                                       (<[next_addr s :=
                                            with_pinned false
                                              {| kpage := kp; upage := up; t := current s;
                                                 is_pinned := true |}]> (ft_heap (ft s4)))
                                       (ft s4)) s4)).
  { apply vm_frame_set_pinned_eq;
      cbn [ft s4 s3 set_kernel_ptes set_supts]; rewrite Hft; assumption. }
  eexists. exists d. split.
  { unfold vm_load_page.
    eapply bind_intro; [apply (vm_supt_find_eq s supt up tbl Htbl)|].
    rewrite He0. cbv beta iota.
    rewrite bool_decide_eq_false_2 by exact Hst.
    eapply bind_intro; [exact Halloc|].
    destruct (Z.eqb_spec kp NULL) as [|_]; [contradiction|].
    eapply bind_intro; [apply (vm_supt_find_eq s1 supt up tbl1 Htbl1)|].
    rewrite Hspte.
    eapply bind_intro; [reflexivity|].
    cbv zeta.
    refine (eq_trans (vm_load_page_tail supt pd up kp spte s1) _).
    eapply bind_intro; [exact Hfill|]. cbn [negb]. unfold install_mapping.
    eapply bind_intro; [exact Hmap|]. cbn [negb].
    eapply bind_intro.
    { apply (vm_supt_find_eq s2 supt up tbl1). rewrite Hsup2. exact Htbl1. }
    rewrite Hspte.
    eapply bind_intro; [reflexivity|].
    eapply bind_intro.
    { unfold spte_store, modify. rewrite Hsup2, Htbl1. rewrite <- Hsup2. reflexivity. }
    fold s3.
    eapply bind_intro; [exact Hdirty|].
    eapply bind_intro; [exact Hunpin|]. reflexivity. }
  cbn [supts ft frame_hash ft_heap frame_lock pagedirs mem set_ft with_ft_heap s4 s3
       set_kernel_ptes set_supts].
  split; [apply lookup_insert_eq|].
  split; [rewrite Hft; exact Hhash1|].
  split; [apply lookup_insert_eq|].
  split; [rewrite Hft; exact Hlock1|].
  split; [exact Hd|].
  split; [|reflexivity].
  unfold lookup_page in *. unfold is_user_vaddr in Huser. unfold is_kernel_vaddr in *.
  destruct (Z.leb_spec PHYS_BASE up) as [|_]; [apply Z.ltb_lt in Huser; lia|].
  exact Hpte.
Qed.

(** A zero page on a machine with frames and kernel pages to spare. *)
Definition zero_alloc : state := exec (vm_frame_alloc PAL_USER UPAGE0) zero_installed_state.
Definition zero_filled : state := exec (memset KPAGE0 x00 PGSIZE) zero_alloc.
Definition zero_mapped : state := exec (pagedir_set_page 10 UPAGE0 KPAGE0 true) zero_filled.

Lemma vm_load_page_makes_resident_witness :
  exists s',
    vm_load_page 20 10 UPAGE0 zero_installed_state = Ret true s'
    /\ ft_heap (ft s') !! 1001
       = Some {| kpage := KPAGE0; upage := UPAGE0; t := 1; is_pinned := false |}.
Proof.
  assert (Ht : exists tbl e, supts zero_installed_state !! 20 = Some tbl
                             /\ tbl !! UPAGE0 = Some e /\ status e = ALL_ZEROS
                             /\ supts zero_alloc !! 20 = Some tbl).
  { eexists. eexists. split; [vm_compute; reflexivity|].
    split; [vm_compute; reflexivity|]. split; vm_compute; reflexivity. }
  destruct Ht as (tbl & e & Ht & He & Hst & Ht1).
  destruct (vm_load_page_makes_resident zero_installed_state zero_alloc zero_filled
              zero_mapped 20 10 UPAGE0 KPAGE0 tbl tbl e e)
    as (s' & d & Hrun & _ & _ & Hentry & _).
  - exact Ht.
  - exact He.
  - rewrite Hst. discriminate.
  - split; [vm_compute; reflexivity|].
    split; apply Z.leb_le; vm_compute; reflexivity.
  - apply boot_frame_table_ok; vm_compute; reflexivity.
  - apply run_returns. vm_compute. reflexivity.
  - discriminate.
  - exact Ht1.
  - exact He.
  - unfold fill_frame. rewrite Hst. apply run_returns. vm_compute. reflexivity.
  - unfold write_permission. rewrite Hst. apply run_returns. vm_compute. reflexivity.
  - exists s'. split; [exact Hrun|].
    replace 1001 with (next_addr zero_installed_state) by (vm_compute; reflexivity).
    replace 1 with (current zero_installed_state) at 2 by (vm_compute; reflexivity).
    exact Hentry.
Defined.

(** ** Unmapping a resident page *)

Lemma lookup_user_page (s : state) (d : pagedir) (va : Z) (e : pte) :
  is_user_vaddr va = true ->
  lookup_page s d va = Some e ->
  pd_no va ∈ pd_tables d /\ e = default pte_zero (pd_ptes d !! pg_no va).
Proof.
  unfold lookup_page, is_user_vaddr, is_kernel_vaddr. intros Hu.
  destruct (Z.leb_spec PHYS_BASE va) as [|_]; [apply Z.ltb_lt in Hu; lia|].
  destruct (bool_decide_reflect (pd_no va ∈ pd_tables d)) as [Hin|]; [|discriminate].
  intros H. injection H as <-. split; [exact Hin | reflexivity].
Qed.

Lemma lookup_user_page_stored (s : state) (d : pagedir) (va : Z) (e : pte) :
  is_user_vaddr va = true ->
  pd_no va ∈ pd_tables d ->
  lookup_page s (with_ptes (<[pg_no va := e]> (pd_ptes d)) d) va = Some e.
Proof.
  unfold lookup_page, is_user_vaddr, is_kernel_vaddr. intros Hu Hin.
  destruct (Z.leb_spec PHYS_BASE va) as [|_]; [apply Z.ltb_lt in Hu; lia|].
  cbn [pd_tables pd_ptes with_ptes]. rewrite bool_decide_eq_true_2 by exact Hin.
  rewrite lookup_insert_eq. reflexivity.
Qed.

Lemma bind_bind_intro {A B C} (w : M A) (f : A -> M B) (k : B -> M C)
    (s sw : state) (a : A) (r : result C) :
  w s = Ret a sw -> bind (f a) k sw = r -> bind (bind w f) k s = r.
Proof. intros Hw Hr. unfold bind in *. rewrite Hw. exact Hr. Qed.

(** The end of the [ON_FRAME] branch: the frame is released and the
    mapping cleared. *)
Lemma munmap_release (s : state) (pd page kp a : Z) (i : nat) (d : pagedir) (e : pte) :
  pools_ok s ->
  frame_lock (ft s) = None ->
  frame_hash (ft s) !! kp = Some a ->
  kp = pool_base (user_pool s) + PGSIZE * Z.of_nat i ->
  used_map (user_pool s) !! i = Some true ->
  pagedirs s !! pd = Some d ->
  lookup_page s d page = Some e ->
  pg_ofs page = 0 -> is_user_vaddr page = true ->
  exists s' d',
    (run vm_frame_free kp; pagedir_clear_page pd page) s = Ret tt s'
    /\ frame_hash (ft s') !! kp = None
    /\ ft_heap (ft s') !! a = None
    /\ frame_lock (ft s') = None
    /\ used_map (user_pool s') = <[i := false]> (used_map (user_pool s))
    /\ supts s' = supts s /\ trace s' = trace s /\ inodes s' = inodes s
    /\ pagedirs s' !! pd = Some d'
    /\ lookup_page s' d' page = Some (if pte_p e then with_p false e else e).
Proof.
  intros Hpools Hlock Hhash Hkp Hbit Hd He Hal Hu.
  destruct (lookup_user_page _ _ _ _ Hu He) as [Hin _].
  eexists. eexists. split.
  { eapply bind_intro; [apply (vm_frame_free_eq kp a i); assumption|].
    unfold pagedir_clear_page.
    eapply bind_intro; [unfold ASSERT; rewrite Hal; reflexivity|].
    eapply bind_intro; [unfold ASSERT; rewrite Hu; reflexivity|].
    unfold pte_modify, frame_released.
    cbn [pagedirs put_frame_lock set_ft set_user_pool set_kheap].
    rewrite Hd.
    assert (Hlook : forall st, kernel_ptes st = kernel_ptes s ->
              lookup_page st d page = Some e).
    { intros st Hst. unfold lookup_page in *. rewrite Hst. exact He. }
    rewrite Hlook by reflexivity. unfold store_pte.
    unfold is_user_vaddr in Hu. unfold is_kernel_vaddr.
    destruct (Z.leb_spec PHYS_BASE page) as [|_]; [apply Z.ltb_lt in Hu; lia|].
    reflexivity. }
  unfold frame_released.
  cbn [ft user_pool supts trace inodes pagedirs put_frame_lock set_ft set_user_pool
       set_kheap set_pagedirs frame_hash ft_heap frame_lock with_frame_lock
       with_frame_list with_frame_hash with_ft_heap used_map with_used].
  split; [apply lookup_delete_eq|]. split; [apply lookup_delete_eq|].
  split; [reflexivity|]. split; [reflexivity|]. split; [reflexivity|].
  split; [reflexivity|]. split; [reflexivity|].
  split; [apply lookup_insert_eq|].
  apply lookup_user_page_stored; assumption.
Qed.

(** X22.  [vm_supt_munmap] of a resident page of the running thread
    writes the page back exactly when it is dirty -- by the entry's flag,
    or by the hardware bit of the user address or of the frame's kernel
    address -- and then with the first [bytes] bytes of the frame at the
    given file offset.  Either way the frame leaves the frame table and
    its page returns to the user pool, the hardware mapping of the page is
    no longer present, and the entry is gone from the table. *)
Theorem munmap_resident_page :
  forall (s : state) (supt pd page f offset bytes kp a : Z) (i : nat)
         (tbl : gmap Z supplemental_page_table_entry)
         (spte : supplemental_page_table_entry) (fe : frame_table_entry)
         (me : thread) (pdr : pagedir) (e : pte) (h : file) (old : list byte),
    supts s !! supt = Some tbl ->
    tbl !! page = Some spte ->
    status spte = ON_FRAME -> spte_kpage spte = kp -> spte_upage spte = page ->
    pools_ok s ->
    frame_lock (ft s) = None ->
    frame_hash (ft s) !! kp = Some a ->
    ft_heap (ft s) !! a = Some fe ->
    kp = pool_base (user_pool s) + PGSIZE * Z.of_nat i ->
    used_map (user_pool s) !! i = Some true ->
    threads s !! current s = Some me -> th_pagedir me = pd ->
    pagedirs s !! pd = Some pdr ->
    lookup_page s pdr page = Some e -> pte_p e = true -> pte_frame e = kp ->
    pg_ofs page = 0 -> is_user_vaddr page = true ->
    files s !! f = Some h -> inodes s !! f_inode h = Some old ->
    exists s' d' e',
      vm_supt_munmap supt pd page f offset bytes s = Ret true s'
      /\ trace s'
         = trace s
           ++ (if is_dirty spte || hw_dirty s pdr page || hw_dirty s pdr kp
               then [EvFileWriteAt f (mem_read (mem s) kp (Z.to_nat bytes)) bytes offset]
               else [])
      /\ supts s' !! supt = Some (delete page tbl)
      /\ frame_hash (ft s') !! kp = None
      /\ ft_heap (ft s') !! a = None
      /\ frame_lock (ft s') = None
      /\ used_map (user_pool s') = <[i := false]> (used_map (user_pool s))
      /\ pagedirs s' !! pd = Some d'
      /\ lookup_page s' d' page = Some e' /\ pte_p e' = false.
Proof.
  intros s supt pd page f offset bytes kp a i tbl spte fe me pdr e h old
    Htbl Hspte Hst Hkpage Hupage Hpools Hlock Hhash Hheap Hkp Hbit Hme Hpd Hpdr He Hpres
    Hframe Hal Hu Hfile Hinode.
  pose proof (lookup_lt_Some _ _ _ Hbit) as Hlt.
  destruct (user_page_facts kp i s Hpools Hkp Hlt) as (_ & _ & Hnn & _).
  destruct (lookup_user_page _ _ _ _ Hu He) as [Hin _].
  set (s1 := set_ft (with_ft_heap (<[a := with_pinned true fe]> (ft_heap (ft s))) (ft s)) s).
  assert (Hpin : vm_frame_pin kp s1 = vm_frame_pin kp s1) by reflexivity.
  assert (Hpin1 : vm_frame_pin kp s = Ret tt s1).
  { apply vm_frame_set_pinned_eq; assumption. }
  assert (Hd1 : pagedir_is_dirty pd page s1 = Ret (hw_dirty s pdr page) s1).
  { apply (pagedir_is_dirty_eq s1 pd page pdr). exact Hpdr. }
  assert (Hd2 : pagedir_is_dirty pd kp s1 = Ret (hw_dirty s pdr kp) s1).
  { apply (pagedir_is_dirty_eq s1 pd kp pdr). exact Hpdr. }
  set (dirty := is_dirty spte || hw_dirty s pdr page || hw_dirty s pdr kp).
  (* the state after the optional write-back *)
  set (dw := with_ptes (<[pg_no page := with_a true e]> (pd_ptes pdr)) pdr).
  set (sw := log (EvFileWriteAt f (mem_read (mem s) kp (Z.to_nat bytes)) bytes offset)
               (set_inodes
                  (<[f_inode h :=
                       if 0 <? lift_min bytes (Z.of_nat (length old) - offset)
                       then take (Z.to_nat offset) old
                            ++ take (Z.to_nat (lift_min bytes
                                                 (Z.of_nat (length old) - offset)))
                                 (mem_read (mem s) kp (Z.to_nat bytes))
                            ++ drop (Z.to_nat (offset
                                               + lift_min bytes
                                                   (Z.of_nat (length old) - offset))) old
                       else old]> (inodes s1))
                  (set_pagedirs (<[pd := dw]> (pagedirs s1)) s1))).
  assert (Hwrite : (do data <- user_read page bytes;
                    do _ <- file_write_at f data bytes offset;
                    ret tt) s1 = Ret tt sw).
  { eapply bind_intro.
    { unfold user_read.
      eapply bind_intro; [reflexivity|].
      eapply bind_intro; [unfold thread_get, deref; cbn; rewrite Hme; reflexivity|].
      eapply bind_intro; [reflexivity|].
      rewrite Hpd.
      eapply bind_intro; [unfold deref; cbn; rewrite Hpdr; reflexivity|].
      change (lookup_page s1 pdr page) with (lookup_page s pdr page).
      rewrite He, Hpres.
      eapply bind_intro.
      { unfold pagedir_set_accessed, pte_modify. cbn [pagedirs s1 set_ft]. rewrite Hpdr.
        change (lookup_page s1 pdr page) with (lookup_page s pdr page). rewrite He.
        unfold store_pte. unfold is_user_vaddr in Hu. unfold is_kernel_vaddr.
        destruct (Z.leb_spec PHYS_BASE page) as [|_]; [apply Z.ltb_lt in Hu; lia|].
        reflexivity. }
      rewrite Hframe, Hal, Z.add_0_r. reflexivity. }
    eapply bind_intro.
    { unfold file_write_at. cbn [files inodes set_pagedirs s1 set_ft].
      rewrite Hfile, Hinode. reflexivity. }
    reflexivity. }
  (* the release, from either state *)
  assert (Hrel : forall (sx : state) (dx : pagedir) (ex : pte),
            ft sx = ft s1 -> user_pool sx = user_pool s -> kernel_pool sx = kernel_pool s ->
            supts sx = supts s ->
            pagedirs sx !! pd = Some dx -> lookup_page sx dx page = Some ex ->
            exists s' d' e',
              (run (run vm_frame_free kp; pagedir_clear_page pd page);
               run hash_delete_spte supt page;
               ret true) sx = Ret true s'
              /\ trace s' = trace sx
              /\ supts s' !! supt = Some (delete page tbl)
              /\ frame_hash (ft s') !! kp = None
              /\ ft_heap (ft s') !! a = None
              /\ frame_lock (ft s') = None
              /\ used_map (user_pool s') = <[i := false]> (used_map (user_pool s))
              /\ pagedirs s' !! pd = Some d'
              /\ lookup_page s' d' page = Some e' /\ pte_p e' = false).
  { intros sx dx ex Hft Hup Hkpl Hsup Hdx Hex.
    destruct (munmap_release sx pd page kp a i dx ex)
      as (sy & d' & Hrun & Hh & Hhp & Hlk & Hpool & Hsupy & Htr & _ & Hdy & Hey).
    { destruct Hpools as (H1 & H2 & H3). unfold pools_ok. rewrite Hup, Hkpl. auto. }
    { rewrite Hft. exact Hlock. }
    { rewrite Hft. exact Hhash. }
    { rewrite Hup. exact Hkp. }
    { rewrite Hup. exact Hbit. }
    { exact Hdx. }
    { exact Hex. }
    { exact Hal. }
    { exact Hu. }
    eexists. exists d'. eexists. split.
    { eapply bind_intro; [exact Hrun|].
      eapply bind_intro.
      { unfold hash_delete_spte, modify. rewrite Hsupy, Hsup, Htbl. reflexivity. }
      reflexivity. }
    cbn [trace supts ft user_pool pagedirs set_supts].
    split; [exact Htr|]. split; [apply lookup_insert_eq|].
    split; [exact Hh|]. split; [exact Hhp|]. split; [exact Hlk|].
    split; [rewrite Hpool, Hup; reflexivity|].
    split; [exact Hdy|].
    split.
    { assert (Hsame : forall st1 st2, kernel_ptes st1 = kernel_ptes st2 ->
                lookup_page st1 d' page = lookup_page st2 d' page).
      { intros st1 st2 Hk. unfold lookup_page. rewrite Hk. reflexivity. }
      rewrite (Hsame _ sy) by reflexivity. exact Hey. }
    destruct (pte_p ex) eqn:Hp; [reflexivity | exact Hp]. }
  assert (Hhead : forall k : M bool,
            vm_supt_munmap supt pd page f offset bytes s
            = (run (run (if dirty
                         then do data <- user_read page bytes;
                              do _ <- file_write_at f data bytes offset;
                              ret tt
                         else ret tt);
                    run vm_frame_free kp; pagedir_clear_page pd page);
               run hash_delete_spte supt page; ret true) s1).
  { intros _. unfold vm_supt_munmap.
    eapply bind_intro; [apply (vm_supt_find_eq _ _ _ tbl Htbl)|].
    rewrite Hspte. cbv beta iota. rewrite Hst, Hkpage, Hupage.
    rewrite bool_decide_eq_true_2 by reflexivity. rewrite Hnn. cbn [negb].
    eapply bind_intro.
    { eapply bind_intro; [reflexivity | exact Hpin1]. }
    unfold bind at 1. unfold bind at 1. unfold ASSERT at 1. cbv iota.
    unfold bind at 1. rewrite Hd1. unfold bind at 1. rewrite Hd2.
    fold dirty. reflexivity. }
  rewrite (Hhead (ret true)). fold dirty.
  destruct dirty.
  - destruct (Hrel sw dw (with_a true e)) as (s' & d' & e' & Hrun & Htr & Hrest).
    { reflexivity. }
    { reflexivity. }
    { reflexivity. }
    { reflexivity. }
    { unfold sw. cbn [pagedirs log set_trace set_inodes set_pagedirs]. apply lookup_insert_eq. }
    { apply lookup_user_page_stored; assumption. }
    exists s', d', e'. split.
    { eapply bind_bind_intro; [exact Hwrite | exact Hrun]. }
    split; [rewrite Htr; reflexivity | exact Hrest].
  - destruct (Hrel s1 pdr e) as (s' & d' & e' & Hrun & Htr & Hrest).
    { reflexivity. }
    { reflexivity. }
    { reflexivity. }
    { reflexivity. }
    { exact Hpdr. }
    { exact He. }
    exists s', d', e'. split.
    { eapply bind_bind_intro; [reflexivity | exact Hrun]. }
    split; [rewrite Htr, app_nil_r; reflexivity | exact Hrest].
Qed.

(** The first page of the mapping of [mapped_state], faulted in and
    written to. *)
Definition resident_map_state : state :=
  exec (pagedir_set_dirty 10 MAPBASE true) (exec (vm_load_page 20 10 MAPBASE) mapped_state).

Lemma munmap_resident_page_witness :
  exists s',
    vm_supt_munmap 20 10 MAPBASE 1000 0 PGSIZE resident_map_state = Ret true s'
    /\ frame_hash (ft s') !! KPAGE0 = None
    /\ used_map (user_pool s') = [false; false].
Proof.
  assert (H : exists tbl spte fe me pdr e h old,
            supts resident_map_state !! 20 = Some tbl
            /\ tbl !! MAPBASE = Some spte
            /\ status spte = ON_FRAME /\ spte_kpage spte = KPAGE0
            /\ spte_upage spte = MAPBASE
            /\ ft_heap (ft resident_map_state) !! 1004 = Some fe
            /\ threads resident_map_state !! current resident_map_state = Some me
            /\ th_pagedir me = 10
            /\ pagedirs resident_map_state !! 10 = Some pdr
            /\ lookup_page resident_map_state pdr MAPBASE = Some e
            /\ pte_p e = true /\ pte_frame e = KPAGE0
            /\ files resident_map_state !! 1000 = Some h
            /\ inodes resident_map_state !! f_inode h = Some old).
  { do 8 eexists.
    split; [vm_compute; reflexivity|]. split; [vm_compute; reflexivity|].
    split; [vm_compute; reflexivity|]. split; [vm_compute; reflexivity|].
    split; [vm_compute; reflexivity|]. split; [vm_compute; reflexivity|].
    split; [vm_compute; reflexivity|]. split; [vm_compute; reflexivity|].
    split; [vm_compute; reflexivity|]. split; [vm_compute; reflexivity|].
    split; [vm_compute; reflexivity|]. split; [vm_compute; reflexivity|].
    split; vm_compute; reflexivity. }
  destruct H as (tbl & spte & fe & me & pdr & e & h & old & Ht & Hs & Hst & Hkp & Hup & Hfe
                 & Hme & Hpd & Hpdr & He & Hp & Hf & Hh & Hold).
  destruct (munmap_resident_page resident_map_state 20 10 MAPBASE 1000 0 PGSIZE KPAGE0 1004
              0 tbl spte fe me pdr e h old Ht Hs Hst Hkp Hup)
    as (s' & d' & e' & Hrun & _ & _ & Hhash & _ & _ & Hpool & _).
  - split; [vm_compute; reflexivity|].
    split; apply Z.leb_le; vm_compute; reflexivity.
  - vm_compute. reflexivity.
  - vm_compute. reflexivity.
  - exact Hfe.
  - vm_compute. reflexivity.
  - vm_compute. reflexivity.
  - exact Hme.
  - exact Hpd.
  - exact Hpdr.
  - exact He.
  - exact Hp.
  - exact Hf.
  - vm_compute. reflexivity.
  - vm_compute. reflexivity.
  - exact Hh.
  - exact Hold.
  - exists s'. split; [exact Hrun|]. split; [exact Hhash|].
    rewrite Hpool. vm_compute. reflexivity.
Defined.

(** ** Eviction *)

Lemma vm_swap_out_scan (s : state) (page : Z) (dev : block) (bm : list bool) (i : nat) :
  swap_block (swap s) = Some dev ->
  swap_available (swap s) = Some bm ->
  PHYS_BASE <= page ->
  block_size dev < WORD ->
  Z.of_nat (length bm) * SECTORS_PER_PAGE <= block_size dev ->
  bitmap_scan bm 0 1 true = Some i ->
  vm_swap_out page s = Ret (Z.of_nat i) (swapped_out i page dev bm s).
Proof.
  intros Hdev Hbm Hpage Hsize Hlen Hscan.
  assert (Hpg : (PHYS_BASE <=? page) = true) by (apply Z.leb_le; exact Hpage).
  destruct (bitmap_scan_some _ _ _ Hscan) as [Hlt Hi].
  unfold vm_swap_out, bind, ASSERT, get. rewrite Hpg, Hbm, Hscan. simpl scan_result.
  rewrite (swap_out_loop page (Z.of_nat i) _ s dev Hdev).
  - unfold bitmap_set. simpl swap_available. rewrite Hbm.
    destruct (Z.leb_spec 0 (Z.of_nat i)) as [_|]; [|lia].
    destruct (Z.ltb_spec (Z.of_nat i) (Z.of_nat (length bm))) as [_|]; [|lia].
    simpl andb. cbv iota. unfold ret. rewrite Nat2Z.id. reflexivity.
  - intros j Hj. apply seqZ'_range in Hj.
    rewrite SECTORS_PER_PAGE_eq in *. lia.
Qed.

(** Whenever [vm_swap_out] returns, it has taken a slot that was free. *)
Lemma vm_swap_out_inv (s s' : state) (page idx : Z) (dev : block) (bm : list bool) :
  swap_block (swap s) = Some dev ->
  swap_available (swap s) = Some bm ->
  block_size dev < WORD ->
  Z.of_nat (length bm) * SECTORS_PER_PAGE <= block_size dev ->
  vm_swap_out page s = Ret idx s' ->
  exists i, idx = Z.of_nat i /\ bm !! i = Some true /\ s' = swapped_out i page dev bm s.
Proof.
  intros Hdev Hbm Hsize Hlen Hrun.
  assert (Hpage : PHYS_BASE <= page).
  { unfold vm_swap_out in Hrun. apply bind_inv in Hrun as (u & s0 & Ha & _).
    apply ASSERT_inv in Ha as [Ha _]. apply Z.leb_le. exact Ha. }
  destruct (bitmap_scan bm 0 1 true) as [i|] eqn:Hscan.
  - rewrite (vm_swap_out_scan s page dev bm i Hdev Hbm Hpage Hsize Hlen Hscan) in Hrun.
    injection Hrun as <- <-. exists i.
    split; [reflexivity|]. split; [exact (proj2 (bitmap_scan_some _ _ _ Hscan)) | reflexivity].
  - exfalso. unfold vm_swap_out in Hrun.
    apply bind_inv in Hrun as (u & s0 & Ha & Hrun). apply ASSERT_inv in Ha as [_ ->].
    apply bind_inv in Hrun as (s1 & s2 & Hg & Hrun). injection Hg as <- <-.
    rewrite Hbm, Hscan in Hrun. cbn [scan_result] in Hrun.
    destruct (swap_out_loop_panics page BITMAP_ERROR bm (seqZ' SECTORS_PER_PAGE) s dev
                Hdev Hbm) as [sp [Hloop _]].
    { exists 7. split; [apply seqZ'_elem; rewrite SECTORS_PER_PAGE_eq; lia|].
      change (u32 (BITMAP_ERROR * SECTORS_PER_PAGE + 7)) with (WORD - 1). lia. }
    unfold bind in Hrun. rewrite Hloop in Hrun. discriminate.
Qed.

(** Whenever the clock scan returns, the entry it designates is not
    pinned. *)
Lemma evict_scan_unpinned (k : nat) (pd : Z) : forall (s s' : state) (v : slot),
  evict_scan k pd s = Ret v s' ->
  exists e, slot_entry v s' = Ret e s' /\ is_pinned e = false.
Proof.
  induction k as [|k IH]; intros s s' v Hrun; [discriminate|].
  cbn [evict_scan] in Hrun.
  apply bind_inv in Hrun as (sl & s1 & Hnext & Hrun).
  apply bind_inv in Hrun as (e & s2 & Hentry & Hrun).
  assert (Hs2 : s2 = s1).
  { unfold slot_entry, deref in Hentry.
    destruct sl; [destruct (ft_heap (ft s1) !! a)|]; congruence. }
  subst s2.
  destruct (is_pinned e) eqn:Hpin; [exact (IH _ _ _ Hrun)|].
  apply bind_inv in Hrun as (acc & s3 & Hacc & Hrun).
  assert (Hs3 : s3 = s1).
  { unfold pagedir_is_accessed, pte_query in Hacc.
    destruct (pagedirs s1 !! pd); [|discriminate].
    destruct (lookup_page s1 p (upage e)); congruence. }
  subst s3.
  destruct acc.
  - apply bind_inv in Hrun as (u & s4 & _ & Hrun). exact (IH _ _ _ Hrun).
  - injection Hrun as <- <-. exists e. split; [exact Hentry | exact Hpin].
Qed.

(** What the steps of an eviction before and after the write to swap
    leave alone. *)
Definition saved_view (s : state) := (mem s, swap s, threads s, supts s).

Definition store_view (s : state) := (swap s, supts s).

Lemma beside_clock_saved (pd : Z) (s s' : state) :
  beside_clock pd s' = beside_clock pd s -> saved_view s' = saved_view s.
Proof.
  unfold beside_clock, saved_view. intros H.
  injection H as _ _ _ _ _ Hsw _ _ Hmem Hsup Hthr _ _ _ _ _ _ _.
  congruence.
Qed.

(** X23.  When the user pool is exhausted and [vm_frame_alloc] returns
    nevertheless, it has evicted a page and saved it: the victim was not
    pinned; the frame's contents, as they were when the call began, are on
    the swap device in a slot that was free and is now taken; and the
    entry for the victim's page in its owner's table is [ON_SWAP], without
    a frame, with that slot as its index. *)
Theorem eviction_saves_page :
  forall (s s' : state) (flags up kp : Z) (dev : block) (bm : list bool),
    swap_block (swap s) = Some dev ->
    swap_available (swap s) = Some bm ->
    block_size dev < WORD ->
    Z.of_nat (length bm) * SECTORS_PER_PAGE <= block_size dev ->
    bitmap_scan (used_map (user_pool s)) 0 1 false = None ->
    vm_frame_alloc flags up s = Ret kp s' ->
    exists (victim : frame_table_entry) (owner : thread) (idx : nat) (dev' : block)
           (tbl' : gmap Z supplemental_page_table_entry)
           (e' : supplemental_page_table_entry),
      ((exists a, ft_heap (ft s) !! a = Some victim) \/ victim = tail_view (ft s))
      /\ is_pinned victim = false
      /\ threads s !! t victim = Some owner
      /\ bm !! idx = Some true
      /\ swap_available (swap s') = Some (<[idx := false]> bm)
      /\ swap_block (swap s') = Some dev'
      /\ (forall j, 0 <= j < SECTORS_PER_PAGE ->
            block_data dev' !! (Z.of_nat idx * SECTORS_PER_PAGE + j)
            = Some (page_sector (mem s) (kpage victim) j))
      /\ supts s' !! th_supt owner = Some tbl'
      /\ tbl' !! upage victim = Some e'
      /\ status e' = ON_SWAP /\ spte_kpage e' = NULL /\ swap_index e' = Z.of_nat idx.
Proof.
  intros s s' flags up kp dev bm Hdev Hbm Hsize Hlen Hfull Hrun.
  unfold vm_frame_alloc in Hrun.
  apply bind_inv in Hrun as ([] & s0 & Hlock & Hrun).
  apply bind_inv in Hrun as (first & s1 & Hget & Hrun).
  apply bind_inv in Hrun as (fp & s2 & Hevict & Hrun).
  assert (Hs0 : saved_view s0 = saved_view s /\ ft_heap (ft s0) = ft_heap (ft s)
                /\ tail_view (ft s0) = tail_view (ft s) /\ user_pool s0 = user_pool s).
  { unfold lock_acquire, frame_lock_of in Hlock.
    destruct (frame_lock (ft s)) as [holder|]; [destruct (holder =? current s); discriminate|].
    injection Hlock as <-. repeat split. }
  destruct Hs0 as (Hv0 & Hheap0 & Htail0 & Hpool0).
  assert (Hfirst : first = NULL /\ s1 = s0).
  { unfold palloc_get_page in Hget.
    assert (Huser : Z.testbit (Z.lor PAL_USER flags) 2 = true).
    { rewrite Z.lor_spec. reflexivity. }
    rewrite Huser, Hpool0, Hfull in Hget.
    destruct (Z.testbit (Z.lor PAL_USER flags) 0); [discriminate|].
    injection Hget as <- <-. split; reflexivity. }
  destruct Hfirst as [-> ->]. cbn [Z.eqb NULL] in Hevict.
  change (0 =? 0) with true in Hevict. cbv iota in Hevict.
  unfold evict_and_retry in Hevict.
  apply bind_inv in Hevict as (cur & sa0 & Hcur & Hevict). injection Hcur as <- <-.
  apply bind_inv in Hevict as (me & sa1 & Hme & Hevict).
  assert (sa1 = s0) as ->.
  { unfold thread_get, deref in Hme. destruct (threads s0 !! current s0); congruence. }
  apply bind_inv in Hevict as (v & sa & Hscan & Hevict).
  apply bind_inv in Hevict as (victim & sa2 & Hvictim & Hevict).
  assert (sa2 = sa) as ->.
  { unfold slot_entry, deref in Hvictim.
    destruct v; [destruct (ft_heap (ft sa) !! a)|]; congruence. }
  apply bind_inv in Hevict as (u1 & sa3 & Ha1 & Hevict). apply ASSERT_inv in Ha1 as [_ ->].
  apply bind_inv in Hevict as (owner & sa4 & Howner & Hevict).
  assert (Hown : threads sa !! t victim = Some owner /\ sa4 = sa).
  { unfold thread_get, deref in Howner.
    destruct (threads sa !! t victim); [|discriminate].
    injection Howner as <- <-. split; reflexivity. }
  destruct Hown as [Hown ->].
  apply bind_inv in Hevict as (u2 & sa5 & Ha2 & Hevict). apply ASSERT_inv in Ha2 as [_ ->].
  apply bind_inv in Hevict as (u3 & sb & Hclear & Hevict).
  apply bind_inv in Hevict as (d1 & sb1 & Hd1 & Hevict).
  apply bind_inv in Hevict as (d2 & sb2 & Hd2 & Hevict).
  apply bind_inv in Hevict as (swap_idx & sc & Hout & Hevict).
  apply bind_inv in Hevict as (b1 & sd & Hset & Hevict).
  apply bind_inv in Hevict as (b2 & se & Hdirty & Hevict).
  apply bind_inv in Hevict as (u4 & sf & Hfree & Hevict).
  apply bind_inv in Hevict as (fp' & sg & Hget2 & Hevict).
  apply bind_inv in Hevict as (u5 & sg' & Ha3 & Hevict). apply ASSERT_inv in Ha3 as [_ ->].
  injection Hevict as -> <-.
  (* up to the write to swap *)
  pose proof (frame_to_be_evicted_beside _ _ _ _ Hscan) as Hbeside.
  pose proof (beside_clock_saved _ _ _ Hbeside) as Hva.
  assert (Hheapa : ft_heap (ft sa) = ft_heap (ft s0) /\ tail_view (ft sa) = tail_view (ft s0)).
  { unfold beside_clock in Hbeside. injection Hbeside as _ _ _ Hh Ht _ _ _ _ _ _ _ _ _ _ _ _ _.
    split; assumption. }
  assert (Hvb : saved_view sb2 = saved_view sa).
  { assert (Hp1 : preserves saved_view
                    (pagedir_clear_page (th_pagedir owner) (upage victim))) by pres.
    assert (Hp2 : preserves saved_view
                    (pagedir_is_dirty (th_pagedir owner) (upage victim))) by pres.
    assert (Hp3 : preserves saved_view
                    (pagedir_is_dirty (th_pagedir owner) (kpage victim))) by pres.
    rewrite (Hp3 _ _ _ Hd2), (Hp2 _ _ _ Hd1). exact (Hp1 _ _ _ Hclear). }
  rewrite Hva, Hv0 in Hvb. unfold saved_view in Hvb.
  injection Hvb as Hmemb Hswapb Hthrb Hsupb.
  unfold saved_view in Hva, Hv0.
  assert (Hthra : threads sa = threads s) by congruence.
  (* the write to swap *)
  destruct (vm_swap_out_inv sb2 sc (kpage victim) swap_idx dev bm)
    as (idx & -> & Hfree_slot & ->).
  { rewrite Hswapb. exact Hdev. }
  { rewrite Hswapb. exact Hbm. }
  { exact Hsize. }
  { exact Hlen. }
  { exact Hout. }
  (* the owner's entry *)
  set (sc := swapped_out idx (kpage victim) dev bm sb2) in *.
  unfold vm_supt_set_swap in Hset.
  apply bind_inv in Hset as (found & sc' & Hfound & Hset).
  unfold vm_supt_find in Hfound.
  apply bind_inv in Hfound as (st & sc1 & Hg & Hfound). injection Hg as <- <-.
  apply bind_inv in Hfound as (tbl & sc2 & Htbl & Hfound).
  unfold deref in Htbl. destruct (supts sc !! th_supt owner) as [tbl0|] eqn:Htbl0;
    [|discriminate].
  injection Htbl as <- <-. injection Hfound as <- <-.
  unfold vm_supt_set_dirty in Hdirty.
  destruct (tbl0 !! upage victim) as [e0|] eqn:He0.
  2:{ injection Hset as _ <-.
      unfold bind, vm_supt_find, bind, get, deref, ret in Hdirty.
      rewrite Htbl0, He0 in Hdirty. discriminate. }
  apply bind_inv in Hset as (u6 & sd' & Hstore & Hset). injection Hset as _ <-.
  unfold spte_store, modify in Hstore. rewrite Htbl0 in Hstore. injection Hstore as _ <-.
  unfold bind in Hdirty.
  match type of Hdirty with
  | context [vm_supt_find _ _ ?st] => set (sd := st) in *
  end.
  assert (Hfind_d : vm_supt_find (th_supt owner) (upage victim) sd
                    = Ret (Some (with_swap (Z.of_nat idx) e0)) sd).
  { rewrite (vm_supt_find_eq sd _ _ (<[upage victim := with_swap (Z.of_nat idx) e0]> tbl0)).
    - rewrite lookup_insert_eq. reflexivity.
    - unfold sd. cbn [supts set_supts]. apply lookup_insert_eq. }
  rewrite Hfind_d in Hdirty.
  unfold spte_store, modify, ret in Hdirty.
  assert (Hsd : supts sd !! th_supt owner
                = Some (<[upage victim := with_swap (Z.of_nat idx) e0]> tbl0)).
  { unfold sd. cbn [supts set_supts]. apply lookup_insert_eq. }
  rewrite Hsd in Hdirty. injection Hdirty as _ Hse.
  (* the rest of the call *)
  assert (Hvf : store_view s' = store_view se).
  { assert (Hp1 : preserves store_view (vm_frame_do_free (kpage victim) true)) by pres.
    assert (Hp2 : preserves store_view (palloc_get_page (Z.lor PAL_USER flags))) by pres.
    rewrite <- (Hp1 _ _ _ Hfree), <- (Hp2 _ _ _ Hget2).
    apply bind_inv in Hrun as (frame & sh & Hmalloc & Hrun).
    assert (Hp3 : preserves store_view malloc) by pres.
    rewrite <- (Hp3 _ _ _ Hmalloc).
    destruct frame as [a|].
    - apply bind_inv in Hrun as (cur & si & Hc & Hrun). injection Hc as <- <-.
      apply bind_inv in Hrun as (u & sj & Hm & Hrun). unfold modify in Hm.
      injection Hm as _ <-.
      apply bind_inv in Hrun as (u' & sk & Hr & Hrun). injection Hrun as _ <-.
      unfold lock_release in Hr. destruct (bool_decide _); [|discriminate].
      injection Hr as _ <-. reflexivity.
    - apply bind_inv in Hrun as (u' & sk & Hr & Hrun). injection Hrun as _ <-.
      unfold lock_release in Hr. destruct (bool_decide _); [|discriminate].
      injection Hr as _ <-. reflexivity. }
  rewrite <- Hse in Hvf. unfold store_view, sd in Hvf. cbn [swap supts set_supts] in Hvf.
  injection Hvf as Hswap' Hsup'.
  exists victim, owner, idx.
  exists {| block_size := block_size dev;
            block_data := written (mem sb2) (kpage victim) (Z.of_nat idx * SECTORS_PER_PAGE)
                            (seqZ' SECTORS_PER_PAGE) (block_data dev) |}.
  eexists. eexists.
  split.
  { destruct Hheapa as [Hh Ht]. unfold slot_entry, deref in Hvictim.
    destruct v as [a|].
    - left. exists a. rewrite <- Hheap0, <- Hh.
      destruct (ft_heap (ft sa) !! a); [|discriminate]. injection Hvictim as <-. reflexivity.
    - right. injection Hvictim as <-. congruence. }
  split.
  { unfold frame_to_be_evicted in Hscan.
    apply bind_inv in Hscan as (st & st' & Hg & Hscan). injection Hg as <- <-.
    destruct (_ =? _)%nat; [discriminate|].
    destruct (evict_scan_unpinned _ _ _ _ _ Hscan) as (e & He & Hpin).
    rewrite Hvictim in He. injection He as <-. exact Hpin. }
  split; [rewrite <- Hthra; exact Hown|].
  split; [exact Hfree_slot|].
  split; [rewrite Hswap'; reflexivity|].
  split; [rewrite Hswap'; unfold sc, swapped_out;
          cbn [swap set_swap set_trace swap_block with_available with_block]; reflexivity|].
  split.
  { intros j Hj. cbn [block_data]. rewrite <- Hmemb.
    apply written_at. apply seqZ'_elem. exact Hj. }
  split; [rewrite Hsup'; apply lookup_insert_eq|].
  split; [apply lookup_insert_eq|].
  split; [reflexivity|]. split; reflexivity.
Qed.

Lemma eviction_saves_page_witness :
  exists s' tbl' e',
    vm_frame_alloc PAL_USER (UPAGE0 + PGSIZE) foreign_frame_state = Ret KPAGE0 s'
    /\ supts s' !! 21 = Some tbl'
    /\ tbl' !! UPAGE0 = Some e'
    /\ status e' = ON_SWAP.
Proof.
  assert (Hrun : vm_frame_alloc PAL_USER (UPAGE0 + PGSIZE) foreign_frame_state
                 = Ret KPAGE0 (exec (vm_frame_alloc PAL_USER (UPAGE0 + PGSIZE))
                                 foreign_frame_state)).
  { apply run_returns. vm_compute. reflexivity. }
  destruct (eviction_saves_page foreign_frame_state
              (exec (vm_frame_alloc PAL_USER (UPAGE0 + PGSIZE)) foreign_frame_state)
              PAL_USER (UPAGE0 + PGSIZE) KPAGE0
              {| block_size := 32; block_data := ∅ |} [true; true; true; true])
    as (victim & owner & idx & dev' & tbl' & e' & Hwho & _ & Hown & Hslot & _ & _ & _
        & Htbl & He & Hst & _ & Hidx); try exact Hrun.
  - vm_compute. reflexivity.
  - vm_compute. reflexivity.
  - reflexivity.
  - vm_compute. discriminate.
  - vm_compute. reflexivity.
  - assert (Hvictim : victim = {| kpage := KPAGE0; upage := UPAGE0; t := 2;
                                  is_pinned := false |}
                      \/ victim = no_entry).
    { destruct Hwho as [[a Ha]|Ht].
      - left.
        assert (Hh : ft_heap (ft foreign_frame_state)
                     = {[ 1001 := {| kpage := KPAGE0; upage := UPAGE0; t := 2;
                                     is_pinned := false |} ]}) by (vm_compute; reflexivity).
        rewrite Hh in Ha. apply lookup_singleton_Some in Ha as [_ <-]. reflexivity.
      - right. rewrite Ht. vm_compute. reflexivity. }
    assert (Hths : threads foreign_frame_state
                   = <[2 := {| th_pagedir := 11; th_supt := 21;
                               file_descriptors := []; mmap_list := [] |}]>
                       {[ 1 := {| th_pagedir := 10; th_supt := 20;
                                  file_descriptors := []; mmap_list := [] |} ]})
      by (vm_compute; reflexivity).
    destruct Hvictim as [-> | ->].
    + cbn [t upage] in *. rewrite Hths, lookup_insert_eq in Hown. injection Hown as <-.
      cbn [th_supt] in Htbl.
      exists (exec (vm_frame_alloc PAL_USER (UPAGE0 + PGSIZE)) foreign_frame_state), tbl', e'.
      split; [exact Hrun|]. split; [exact Htbl|]. split; [exact He | exact Hst].
    + exfalso. cbn [t no_entry] in Hown. rewrite Hths in Hown.
      rewrite lookup_insert_ne in Hown by discriminate.
      rewrite lookup_singleton_ne in Hown by discriminate. discriminate Hown.
Defined.

(** ** Teardown of a supplemental page table *)

(** Frames that had no entry still have none, and swap slots that were
    free are still free; tables, the user pool and memory are the same. *)
Definition only_released (s s' : state) : Prop :=
  supts s' = supts s /\ user_pool s' = user_pool s /\ mem s' = mem s
  /\ (forall k, frame_hash (ft s) !! k = None -> frame_hash (ft s') !! k = None)
  /\ (forall bm i, swap_available (swap s) = Some bm -> bm !! i = Some true ->
        exists bm', swap_available (swap s') = Some bm' /\ bm' !! i = Some true).

Lemma only_released_refl (s : state) : only_released s s.
Proof.
  repeat split; auto. intros bm i Hbm Hi. exists bm. split; assumption.
Qed.

Lemma only_released_trans (s1 s2 s3 : state) :
  only_released s1 s2 -> only_released s2 s3 -> only_released s1 s3.
Proof.
  intros (Ha1 & Ha2 & Ha3 & Ha4 & Ha5) (Hb1 & Hb2 & Hb3 & Hb4 & Hb5).
  split; [congruence|]. split; [congruence|]. split; [congruence|].
  split; [auto|].
  intros bm i Hbm Hi. destruct (Ha5 bm i Hbm Hi) as (bm' & Hbm' & Hi').
  exact (Hb5 bm' i Hbm' Hi').
Qed.

Lemma vm_frame_remove_entry_inv (kp : Z) (s s' : state) :
  vm_frame_remove_entry kp s = Ret tt s' ->
  exists a, frame_hash (ft s) !! kp = Some a /\ s' = frame_released kp a 0 false s.
Proof.
  intros H. pose proof H as Hrun. unfold vm_frame_remove_entry in H.
  apply bind_inv in H as ([] & s0 & Hlock & H).
  unfold lock_acquire, frame_lock_of in Hlock.
  destruct (frame_lock (ft s)) as [holder|] eqn:Hfree;
    [destruct (holder =? current s); discriminate|].
  injection Hlock as <-.
  apply bind_inv in H as ([] & s1 & Hfreeing & _).
  unfold vm_frame_do_free in Hfreeing.
  apply bind_inv in Hfreeing as (held & s2 & Hheld & Hfreeing).
  injection Hheld as _ <-.
  apply bind_inv in Hfreeing as (u1 & s3 & _ & Hfreeing).
  apply bind_inv in Hfreeing as (u2 & s4 & Hk & Hfreeing). apply ASSERT_inv in Hk as [Hk _].
  apply bind_inv in Hfreeing as (u3 & s5 & Ho & Hfreeing). apply ASSERT_inv in Ho as [Ho _].
  apply Z.eqb_eq in Ho.
  destruct (frame_hash (ft s) !! kp) as [a|] eqn:Hhash.
  - exists a. split; [reflexivity|].
    rewrite (vm_frame_remove_entry_eq kp a s Hfree Hhash Hk Ho) in Hrun.
    injection Hrun as <-. reflexivity.
  - exfalso.
    pose proof (vm_frame_do_free_unknown s kp false Hfree Hhash) as Hp.
    unfold vm_frame_remove_entry in Hrun. rewrite Hp in Hrun. discriminate Hrun.
Qed.

Lemma vm_swap_free_inv (idx : Z) (s s' : state) :
  vm_swap_free idx s = Ret tt s' ->
  exists bm,
    swap_available (swap s) = Some bm
    /\ s' = set_swap (with_available (<[Z.to_nat idx := true]> bm) (swap s)) s
    /\ (Z.to_nat idx < length bm)%nat.
Proof.
  unfold vm_swap_free. intros H.
  apply bind_inv in H as (st & s0 & Hg & H). injection Hg as <- <-.
  apply bind_inv in H as (u & s1 & Ha & H). apply ASSERT_inv in Ha as [_ ->].
  apply bind_inv in H as (free & s2 & Ht & H).
  unfold bitmap_test in Ht.
  destruct (swap_available (swap s)) as [bm|] eqn:Hbm; [|discriminate].
  destruct (bm !! Z.to_nat idx) as [bit|] eqn:Hbit; [|discriminate].
  destruct (0 <=? idx) eqn:Hpos; [|discriminate].
  injection Ht as <- <-.
  destruct bit; [discriminate|].
  unfold bitmap_set in H. rewrite Hbm, Hpos in H.
  pose proof (lookup_lt_Some _ _ _ Hbit) as Hlt.
  destruct (idx <? Z.of_nat (length bm)); [|discriminate].
  cbn [andb] in H. injection H as <-.
  exists bm. split; [reflexivity|]. split; [reflexivity | exact Hlt].
Qed.

Lemma only_released_heap (k : nat) (a : Z) (s s1 : state) :
  only_released s s1 -> only_released s (set_kheap k a s1).
Proof. intros H. exact H. Qed.

(** One run of the destructor. *)
Lemma spte_destroy_func_releases (e : supplemental_page_table_entry) (s s' : state) :
  spte_destroy_func e s = Ret tt s' ->
  only_released s s'
  /\ (kheap_avail s < kheap_avail s')%nat
  /\ (spte_kpage e <> NULL -> frame_hash (ft s') !! spte_kpage e = None)
  /\ (spte_kpage e = NULL -> status e = ON_SWAP ->
        exists bm', swap_available (swap s') = Some bm'
                    /\ bm' !! Z.to_nat (swap_index e) = Some true).
Proof.
  unfold spte_destroy_func. intros H.
  apply bind_inv in H as ([] & s1 & Hbody & H).
  unfold free, modify in H. injection H as <-.
  cut (only_released s s1
       /\ (kheap_avail s <= kheap_avail s1)%nat
       /\ (spte_kpage e <> NULL -> frame_hash (ft s1) !! spte_kpage e = None)
       /\ (spte_kpage e = NULL -> status e = ON_SWAP ->
             exists bm', swap_available (swap s1) = Some bm'
                         /\ bm' !! Z.to_nat (swap_index e) = Some true)).
  { intros (Hrel & Hk & Hf & Hs).
    split; [apply only_released_heap; exact Hrel|].
    split; [cbn [kheap_avail set_kheap]; lia|].
    split; [exact Hf | exact Hs]. }
  destruct (Z.eqb_spec (spte_kpage e) NULL) as [Hz|Hnz]; cbn [negb] in Hbody.
  - destruct (bool_decide_reflect (status e = ON_SWAP)) as [Hsw|Hnsw].
    + apply vm_swap_free_inv in Hbody as (bm & Hbm & -> & Hlt).
      split.
      { split; [reflexivity|]. split; [reflexivity|]. split; [reflexivity|].
        split; [auto|].
        intros bm0 i Hbm0 Hi. rewrite Hbm in Hbm0. injection Hbm0 as <-.
        eexists. split; [reflexivity|].
        destruct (decide (i = Z.to_nat (swap_index e))) as [->|Hne].
        - apply list_lookup_insert_eq. exact Hlt.
        - rewrite list_lookup_insert_ne by congruence. exact Hi. }
      split; [cbn; lia|]. split; [intros Hc; contradiction|].
      intros _ _. eexists. split; [reflexivity|]. apply list_lookup_insert_eq. exact Hlt.
    + injection Hbody as <-.
      split; [apply only_released_refl|]. split; [lia|].
      split; [intros Hc; contradiction|]. intros _ Hc. contradiction.
  - apply bind_inv in Hbody as (u & s2 & Ha & Hbody). apply ASSERT_inv in Ha as [_ ->].
    apply vm_frame_remove_entry_inv in Hbody as (a & Hhash & ->).
    unfold frame_released.
    split.
    { split; [reflexivity|]. split; [reflexivity|]. split; [reflexivity|].
      split.
      - intros k Hk.
        cbn [ft put_frame_lock set_ft set_kheap frame_hash with_frame_lock with_frame_list
             with_frame_hash with_ft_heap].
        destruct (decide (k = spte_kpage e)) as [->|Hne]; [apply lookup_delete_eq|].
        rewrite lookup_delete_ne by congruence. exact Hk.
      - intros bm i Hbm Hi. exists bm. split; [exact Hbm | exact Hi]. }
    split; [cbn; lia|].
    split; [|intros Hc; contradiction].
    intros _.
    cbn [ft put_frame_lock set_ft set_kheap frame_hash with_frame_lock with_frame_list
         with_frame_hash with_ft_heap].
    apply lookup_delete_eq.
Qed.

Lemma destroy_loop (supt : Z) (tbl : gmap Z supplemental_page_table_entry)
    (visit : list Z) : forall s s' : state,
  supts s !! supt = Some tbl ->
  for_each visit (fun page =>
      do found <- vm_supt_find supt page;
      do entry <- deref found;
      spte_destroy_func entry) s = Ret tt s' ->
  only_released s s'
  /\ (kheap_avail s + length visit <= kheap_avail s')%nat
  /\ forall page, page ∈ visit ->
       exists e, tbl !! page = Some e
         /\ (spte_kpage e <> NULL -> frame_hash (ft s') !! spte_kpage e = None)
         /\ (spte_kpage e = NULL -> status e = ON_SWAP ->
               exists bm', swap_available (swap s') = Some bm'
                           /\ bm' !! Z.to_nat (swap_index e) = Some true).
Proof.
  induction visit as [|page visit IH]; intros s s' Htbl Hrun.
  - injection Hrun as <-. split; [apply only_released_refl|].
    split; [cbn; lia|]. intros page Hin. inversion Hin.
  - cbn [for_each] in Hrun.
    apply bind_inv in Hrun as ([] & s1 & Hstep & Hrun).
    apply bind_inv in Hstep as (found & s0 & Hfind & Hstep).
    rewrite (vm_supt_find_eq _ _ _ tbl Htbl) in Hfind. injection Hfind as <- <-.
    apply bind_inv in Hstep as (e & s0' & Hd & Hstep).
    unfold deref in Hd. destruct (tbl !! page) as [e0|] eqn:He; [|discriminate].
    injection Hd as <- <-.
    destruct (spte_destroy_func_releases e0 s s1 Hstep) as (Hrel1 & Hk1 & Hf1 & Hs1).
    assert (Htbl1 : supts s1 !! supt = Some tbl).
    { destruct Hrel1 as (Hsup & _). rewrite Hsup. exact Htbl. }
    destruct (IH s1 s' Htbl1 Hrun) as (Hrel2 & Hk2 & Hall).
    split; [exact (only_released_trans _ _ _ Hrel1 Hrel2)|].
    split; [cbn [length]; lia|].
    intros p Hp. apply elem_of_cons in Hp as [->|Hp]; [|exact (Hall p Hp)].
    exists e0. split; [exact He|].
    destruct Hrel2 as (_ & _ & _ & Hhash & Hbits).
    split.
    + intros Hnn. apply Hhash. exact (Hf1 Hnn).
    + intros Hz Hsw. destruct (Hs1 Hz Hsw) as (bm1 & Hbm1 & Hbit1).
      exact (Hbits bm1 _ Hbm1 Hbit1).
Qed.

(** X24.  Whenever [vm_supt_destroy] returns, whatever the order in which
    the entries were visited, the table is gone and every entry visited
    has given up what it held: the frame of a resident page has no entry
    in the frame table any more, and the slot of a swapped-out page is
    free.  No page goes back to the user pool on the way (the frames of
    resident pages stay allocated), memory is untouched, and the heap
    gets back at least one block per entry and two for the table. *)
Theorem supt_destroy_releases :
  forall (s s' : state) (visit : list Z) (supt : Z)
         (tbl : gmap Z supplemental_page_table_entry),
    supts s !! supt = Some tbl ->
    vm_supt_destroy visit supt s = Ret tt s' ->
    supts s' !! supt = None
    /\ user_pool s' = user_pool s
    /\ mem s' = mem s
    /\ (kheap_avail s + length visit + 2 <= kheap_avail s')%nat
    /\ forall page, page ∈ visit ->
         exists e, tbl !! page = Some e
           /\ (spte_kpage e <> NULL -> frame_hash (ft s') !! spte_kpage e = None)
           /\ (spte_kpage e = NULL -> status e = ON_SWAP ->
                 exists bm', swap_available (swap s') = Some bm'
                             /\ bm' !! Z.to_nat (swap_index e) = Some true).
Proof.
  intros s s' visit supt tbl Htbl Hrun. unfold vm_supt_destroy in Hrun.
  apply bind_inv in Hrun as (u & s0 & Ha & Hrun). apply ASSERT_inv in Ha as [_ ->].
  apply bind_inv in Hrun as ([] & s1 & Hloop & Hrun).
  destruct (destroy_loop supt tbl visit s s1 Htbl Hloop)
    as ((Hsup & Hpool & Hmem & _ & _) & Hk & Hall).
  unfold bind, free, modify in Hrun. injection Hrun as <-.
  cbn [supts user_pool mem kheap_avail ft swap set_kheap set_supts].
  split; [apply lookup_delete_eq|].
  split; [exact Hpool|]. split; [exact Hmem|]. split; [lia|].
  exact Hall.
Qed.

(** A table with one page on swap and one page resident. *)
Definition two_pages_state : state :=
  exec (vm_load_page 20 10 (UPAGE0 + PGSIZE))
    (exec (vm_supt_install_zeropage no_spte 20 (UPAGE0 + PGSIZE))
       (exec (vm_supt_set_swap 20 UPAGE0 0)
          (exec (vm_swap_out KPAGE0)
             (exec (vm_supt_install_zeropage no_spte 20 UPAGE0) (boot 4 2 2))))).

Lemma supt_destroy_releases_witness :
  exists s',
    vm_supt_destroy [UPAGE0 + PGSIZE; UPAGE0] 20 two_pages_state = Ret tt s'
    /\ supts s' !! 20 = None
    /\ user_pool s' = user_pool two_pages_state.
Proof.
  assert (Ht : exists tbl, supts two_pages_state !! 20 = Some tbl).
  { eexists. vm_compute. reflexivity. }
  destruct Ht as [tbl Ht].
  assert (Hrun : vm_supt_destroy [UPAGE0 + PGSIZE; UPAGE0] 20 two_pages_state
                 = Ret tt (exec (vm_supt_destroy [UPAGE0 + PGSIZE; UPAGE0] 20)
                             two_pages_state)).
  { apply run_returns. vm_compute. reflexivity. }
  destruct (supt_destroy_releases two_pages_state _ _ 20 tbl Ht Hrun) as (Hgone & Hpool & _).
  eexists. split; [exact Hrun|]. split; [exact Hgone | exact Hpool].
Defined.
